(** * Mother-of-Bots generation pipeline: a shallow embedding

    The development follows the standalone pipeline of the repository:

    - [code_generation_agent.py] and [ui_generation_agent.py]
      (the two generation workers and their three-attempt loop),
    - [integration_example.py] (the UI-need detector and [run_standalone]),
    - [integrator_agent.py] ([StandaloneIntegratorAgent.integrate_project]),
    - [deployer_agent.py] ([StandaloneDeployerAgent.deploy_project]).

    Python [str] values are lists of characters; a character is a code point
    below 256.  The operating system (files, directories, child processes)
    is an explicit world value threaded through the stateful code. *)

From Stdlib Require Import ZArith QArith Ascii String List Bool Lia.
From stdpp Require Import base option list gmap strings pretty.

Open Scope Z_scope.

(** ** Python strings *)

Module PyStr.

Definition pystr : Type := list ascii.

(** A source literal. *)
Definition lit (s : string) : pystr := list_ascii_of_string s.

Definition LF : ascii := ascii_of_nat 10.

(** [len(s)] *)
Definition len (s : pystr) : Z := Z.of_nat (length s).

(** Truthiness of a string: non-empty. *)
Definition truthy (s : pystr) : bool :=
  match s with [] => false | _ :: _ => true end.

(** [c.lower()] on one code point below 256: the letters A-Z and the
    Latin-1 capitals 192-222 (without the multiplication sign 215) move
    up by 32. *)
Definition lower_char (c : ascii) : ascii :=
  let n := nat_of_ascii c in
  if ((65 <=? n)%nat && (n <=? 90)%nat)
     || ((192 <=? n)%nat && (n <=? 222)%nat && negb (n =? 215)%nat)
  then ascii_of_nat (n + 32)
  else c.

(** [s.lower()] *)
Definition lower (s : pystr) : pystr := map lower_char s.

(** [c.isspace()] on one code point below 256. *)
Definition isspace (c : ascii) : bool :=
  let n := nat_of_ascii c in
  ((9 <=? n)%nat && (n <=? 13)%nat)
  || ((28 <=? n)%nat && (n <=? 32)%nat)
  || (n =? 133)%nat || (n =? 160)%nat.

Fixpoint lstrip (s : pystr) : pystr :=
  match s with
  | [] => []
  | c :: s' => if isspace c then lstrip s' else s
  end.

Definition rstrip (s : pystr) : pystr := rev (lstrip (rev s)).

(** [s.strip()] *)
Definition strip (s : pystr) : pystr := rstrip (lstrip s).

Definition ascii_eqb (a b : ascii) : bool := Ascii.eqb a b.

(** [s.startswith(p)] *)
Fixpoint startswith (p s : pystr) : bool :=
  match p, s with
  | [], _ => true
  | _ :: _, [] => false
  | a :: p', b :: s' => ascii_eqb a b && startswith p' s'
  end.

(** [sub in s] *)
Fixpoint contains (sub s : pystr) : bool :=
  startswith sub s
  || match s with
     | [] => false
     | _ :: s' => contains sub s'
     end.

Fixpoint find_from (sub s : pystr) (i : Z) : Z :=
  if startswith sub s then i
  else match s with
       | [] => -1
       | _ :: s' => find_from sub s' (i + 1)
       end.

(** [s.find(sub)]: lowest index of an occurrence, or -1. *)
Definition find (s sub : pystr) : Z := find_from sub s 0.

Fixpoint rfind_from (sub s : pystr) (i : Z) : Z :=
  match s with
  | [] => if startswith sub [] then i else -1
  | _ :: s' =>
      let r := rfind_from sub s' (i + 1) in
      if 0 <=? r then r
      else if startswith sub s then i else -1
  end.

(** [s.rfind(sub)]: highest index of an occurrence, or -1. *)
Definition rfind (s sub : pystr) : Z := rfind_from sub s 0.

(** Python's clamping of a slice bound. *)
Definition slice_bound (n i : Z) : Z :=
  if i <? 0 then Z.max 0 (i + n) else Z.min i n.

(** [s[start:stop]] *)
Definition slice (s : pystr) (start stop : Z) : pystr :=
  let lo := slice_bound (len s) start in
  let hi := slice_bound (len s) stop in
  take (Z.to_nat (hi - lo)) (drop (Z.to_nat lo) s).

(** [s[:stop]] *)
Definition slice_to (s : pystr) (stop : Z) : pystr := slice s 0 stop.

(** [sep.join(parts)] *)
Fixpoint join (sep : pystr) (parts : list pystr) : pystr :=
  match parts with
  | [] => []
  | [p] => p
  | p :: rest => p ++ sep ++ join sep rest
  end.

(** [x in xs] for a list of strings. *)
Definition pystr_eqb (a b : pystr) : bool :=
  bool_decide (a = b).

Definition mem (x : pystr) (xs : list pystr) : bool :=
  existsb (pystr_eqb x) xs.

(** [any(p(x) for x in xs)] *)
Definition any {A} (p : A -> bool) (xs : list A) : bool := existsb p xs.

(** [enumerate(xs)] *)
Definition enumerate {A} (xs : list A) : list (Z * A) :=
  imap (fun i x => (Z.of_nat i, x)) xs.

(** The specification side of [sub in s]: [s] splits around [sub]. *)
Definition occurs_in (sub s : pystr) : Prop :=
  exists pre suf, s = pre ++ sub ++ suf.

(** An occurrence up to letter case: some segment of [s] lowers to [kw]. *)
Definition occurs_ci (kw s : pystr) : Prop :=
  exists pre mid suf, s = pre ++ mid ++ suf /\ lower mid = kw.

End PyStr.
Import PyStr.


(** ** Requirements payloads *)

Module Requirements.

(** A Python object as far as the pipeline looks at it: the pipeline only
    ever takes [str(v)] of a requirement value.  Containers and floats
    nested inside a value are carried by the text [str] gives for them. *)
Inductive pyobj :=
| PyStr (s : pystr)
| PyInt (z : Z)
| PyBool (b : bool)
| PyNone
| PyOther (str_text : pystr).

(** [str(v)] *)
Definition py_str (v : pyobj) : pystr :=
  match v with
  | PyStr s => s
  | PyInt z => lit (pretty z)
  | PyBool true => lit "True"
  | PyBool false => lit "False"
  | PyNone => lit "None"
  | PyOther t => t
  end.

(** A value of the requirements dict: [isinstance(values, list)] or not. *)
Inductive reqvalue :=
| VList (items : list pyobj)
| VItem (o : pyobj).

(** The requirements dict, in insertion order. *)
Definition reqdict : Type := list (pystr * reqvalue).

Definition keys (d : reqdict) : list pystr := map fst d.
Definition values (d : reqdict) : list reqvalue := map snd d.

(** What the workers are called with: a dict, or free text. *)
Inductive requirements :=
| ReqDict (d : reqdict)
| ReqText (s : pystr).

End Requirements.
Import Requirements.

(** ** Generation workers
    [StandaloneCodeGenerationAgent.generate_code] and
    [StandaloneUIGenerationAgent.generate_ui_code]. *)

Module Worker.

(** What one POST to the completion service comes back with: a status and
    a body (for status 200 the body is [result.get("response", "")], for
    any other status it is [response.text()]), or an exception [e]
    carried by [str(e)]. *)
Inductive response :=
| Responded (status : Z) (body : pystr)
| Raised (e : pystr).

Record payload := {
  p_model : pystr;
  p_prompt : pystr;
  p_stream : bool;
  p_temperature : Q;
  p_num_predict : Z;
}.

(** The completion service is opaque: its answer may depend on everything
    posted so far. *)
Definition service : Type := list payload -> payload -> response.

(** The value a worker returns is a plain string.  The constructor records
    the [return] statement that produced it:
    [Success] the accepted text, [Incomplete] the text of the last attempt
    returned as it is, [Failed] one of the error messages. *)
Inductive generation :=
| Success (text : pystr)
| Incomplete (text : pystr)
| Failed (reason : pystr).

(** The Python value handed back to the caller. *)
Definition returned (g : generation) : pystr :=
  match g with
  | Success t => t
  | Incomplete t => t
  | Failed m => m
  end.

(** [[(0.1, 2000), (0.2, 2500), (0.05, 3000)]] *)
Definition schedule : list (Q * Z) :=
  [(0.1%Q, 2000); (0.2%Q, 2500); (0.05%Q, 3000)].

(** [code[start:end].strip()] guarded by [start > lo and end > start]. *)
Definition fenced (code : pystr) (start stop lo : Z) : option pystr :=
  if (lo <? start) && (start <? stop)
  then Some (strip (slice code start stop))
  else None.

(** The plain-fence branch shared by both formatters. *)
Definition format_plain_fence (code : pystr) : pystr :=
  if contains (lit "```") code then
    let start := find code (lit "```") + 3 in
    let stop := rfind code (lit "```") in
    match fenced code start stop 2 with
    | Some r => r
    | None => code
    end
  else code.

(** [StandaloneCodeGenerationAgent._format_generated_code] *)
Definition format_python_code (code : pystr) : pystr :=
  if contains (lit "```python") code then
    let start := find code (lit "```python") + 9 in
    let stop := rfind code (lit "```") in
    match fenced code start stop 8 with
    | Some r => r
    | None => format_plain_fence code
    end
  else format_plain_fence code.

Definition start_markers : list pystr :=
  [lit "```jsx"; lit "```javascript"; lit "```tsx"; lit "```react"].

(** The [for marker in start_markers] loop; [None] when it falls through. *)
Fixpoint first_marker_block (code : pystr) (markers : list pystr)
  : option pystr :=
  match markers with
  | [] => None
  | marker :: rest =>
      if contains marker code then
        let start := find code marker + len marker in
        let stop := rfind code (lit "```") in
        match fenced code start stop (len marker - 1) with
        | Some r => Some r
        | None => first_marker_block code rest
        end
      else first_marker_block code rest
  end.

(** [StandaloneUIGenerationAgent._format_generated_code] *)
Definition format_ui_code (code : pystr) : pystr :=
  if contains (lit "```jsx") code
     || contains (lit "```javascript") code
     || contains (lit "```tsx") code
  then
    match first_marker_block code start_markers with
    | Some r => r
    | None => format_plain_fence code
    end
  else format_plain_fence code.

(** [len(formatted_code) > 100 and "import" in formatted_code
     and "def" in formatted_code] *)
Definition accept_backend (formatted_code : pystr) : bool :=
  (100 <? len formatted_code)
  && contains (lit "import") formatted_code
  && contains (lit "def") formatted_code.

(** [len(formatted_code) > 100 and "import" in formatted_code
     and ("function" in formatted_code or "const" in formatted_code)] *)
Definition accept_ui (formatted_code : pystr) : bool :=
  (100 <? len formatted_code)
  && contains (lit "import") formatted_code
  && (contains (lit "function") formatted_code
      || contains (lit "const") formatted_code).

(** The answer to the [k]-th request posted by a call that started from
    [log] and posted [posts]. *)
Definition reply (svc : service) (log posts : list payload) (k : nat)
  : option response :=
  match posts !! k with
  | Some p => Some (svc (log ++ take k posts) p)
  | None => None
  end.

(** An answer that never reached the acceptance check: an exception or a
    status other than 200. *)
Definition transport_error (r : response) : bool :=
  match r with
  | Raised _ => true
  | Responded status _ => negb (status =? 200)
  end.

(** The text extracted from an answer with status 200. *)
Definition extracted (format_generated_code : pystr -> pystr) (r : response)
  : option pystr :=
  match r with
  | Responded status body =>
      if status =? 200 then Some (format_generated_code (strip body)) else None
  | Raised _ => None
  end.

(** The answer passes the acceptance check. *)
Definition accepted (format_generated_code : pystr -> pystr)
    (acceptable : pystr -> bool) (r : response) : bool :=
  match extracted format_generated_code r with
  | Some t => acceptable t
  | None => false
  end.

(** The loop [for attempt, temp in enumerate(schedule)] that both workers
    run, with what differs between them as variables.  The state is the
    log of payloads posted so far. *)
Section AttemptLoop.
Variable OLLAMA_MODEL : pystr.
Variable svc : service.
Variable format_generated_code : pystr -> pystr.
Variable acceptable : pystr -> bool.
Variable http_error_message : Z -> pystr.
Variable exception_message : pystr -> pystr.
Variable exhausted_message : pystr.
Variable prompt : pystr.

Definition make_payload (temperature : Q) (num_predict : Z) : payload :=
  {| p_model := OLLAMA_MODEL;
     p_prompt := prompt;
     p_stream := false;
     p_temperature := temperature;
     p_num_predict := num_predict |}.

Fixpoint attempts (todo : list (Z * (Q * Z))) (log : list payload)
  : generation * list payload :=
  match todo with
  | [] => (Failed exhausted_message, log)
  | (attempt, (temperature, num_predict)) :: rest =>
      let payload := make_payload temperature num_predict in
      let log' := log ++ [payload] in
      match svc log payload with
      | Responded status body =>
          if status =? 200 then
            let generated_code := strip body in
            let formatted_code := format_generated_code generated_code in
            if acceptable formatted_code then (Success formatted_code, log')
            else if attempt =? 2 then (Incomplete formatted_code, log')
            else attempts rest log'
          else
            if attempt =? 2 then (Failed (http_error_message status), log')
            else attempts rest log'
      | Raised e =>
          if attempt =? 2 then (Failed (exception_message e), log')
          else attempts rest log'
      end
  end.

(** The requests a call posts, by the [return] it leaves through: one
    request for the attempt that returns, after any number of attempts
    whose answer was not accepted. *)
Inductive run_shape (log : list payload) :
    generation -> list payload -> Prop :=
| shape_exhausted :
    run_shape log (Failed exhausted_message) []
| shape_success p body :
    svc log p = Responded 200 body ->
    acceptable (format_generated_code (strip body)) = true ->
    run_shape log (Success (format_generated_code (strip body))) [p]
| shape_incomplete p body :
    svc log p = Responded 200 body ->
    acceptable (format_generated_code (strip body)) = false ->
    run_shape log (Incomplete (format_generated_code (strip body))) [p]
| shape_http p status body :
    svc log p = Responded status body ->
    status <> 200 ->
    run_shape log (Failed (http_error_message status)) [p]
| shape_exception p e :
    svc log p = Raised e ->
    run_shape log (Failed (exception_message e)) [p]
| shape_retry p g ps :
    accepted format_generated_code acceptable (svc log p) = false ->
    run_shape (log ++ [p]) g ps ->
    run_shape log g (p :: ps).

End AttemptLoop.

(** The dict a worker builds from a free-text request. *)
Definition direct_request (text : pystr) : reqdict :=
  [(lit "description", VItem (PyStr text));
   (lit "type", VItem (PyStr (lit "direct_request")))].

Definition specs_of (r : requirements) : reqdict :=
  match r with
  | ReqText s => direct_request s
  | ReqDict d => d
  end.

Section Workers.
(** [OLLAMA_MODEL], read from the environment. *)
Variable OLLAMA_MODEL : pystr.
(** [_create_code_generation_prompt] and [_create_ui_generation_prompt]:
    fixed wording around [json.dumps(specs)]. *)
Variable create_code_generation_prompt : reqdict -> pystr.
Variable create_ui_generation_prompt : reqdict -> pystr.

(** [StandaloneCodeGenerationAgent.generate_code] *)
Definition generate_code (svc : service) (r : requirements)
    (log : list payload) : generation * list payload :=
  let specs := specs_of r in
  attempts OLLAMA_MODEL svc format_python_code accept_backend
    (fun status => lit "Error generating code: HTTP " ++ lit (pretty status))
    (fun e => lit "Failed to generate code: " ++ e)
    (lit "Failed to generate code after multiple attempts")
    (create_code_generation_prompt specs)
    (enumerate schedule) log.

(** [StandaloneUIGenerationAgent.generate_ui_code] *)
Definition generate_ui_code (svc : service) (r : requirements)
    (log : list payload) : generation * list payload :=
  let specs := specs_of r in
  attempts OLLAMA_MODEL svc format_ui_code accept_ui
    (fun status => lit "Error generating UI code: HTTP " ++ lit (pretty status))
    (fun e => lit "Failed to generate UI code: " ++ e)
    (lit "Failed to generate UI code after multiple attempts")
    (create_ui_generation_prompt specs)
    (enumerate schedule) log.
End Workers.

End Worker.
Import Worker.

(** ** The UI-need detector ([integration_example.py]) *)

Module Detector.

Definition ui_keywords : list pystr :=
  [lit "UI"; lit "interface"; lit "frontend"; lit "react"; lit "vue";
   lit "angular"; lit "web page"; lit "website"; lit "responsive";
   lit "user interface"; lit "dashboard"; lit "display";
   lit "visualization"].

Definition ui_keys : list pystr :=
  [lit "ui"; lit "ui_components"; lit "design"; lit "design_preferences";
   lit "interface"; lit "frontend"; lit "display"].

(** The loop filling [flat_values]. *)
Fixpoint flatten_values (vals : list reqvalue) : list pystr :=
  match vals with
  | [] => []
  | VList vs :: rest => map (fun v => lower (py_str v)) vs ++ flatten_values rest
  | VItem v :: rest => lower (py_str v) :: flatten_values rest
  end.

(** [any(keyword.lower() in text for keyword in ui_keywords)] *)
Definition mentions_ui_keyword (text : pystr) : bool :=
  any (fun keyword => contains (lower keyword) text) ui_keywords.

(** [_check_if_ui_needed_standalone(requirements_json, requirements_text)];
    the free text may be [None]. *)
Definition _check_if_ui_needed_standalone
    (requirements_json : reqdict) (requirements_text : option pystr) : bool :=
  if any (fun key => mem (lower key) ui_keys) (keys requirements_json)
  then true
  else
    let flat_values := flatten_values (values requirements_json) in
    if mentions_ui_keyword (join (lit " ") flat_values) then true
    else
      match requirements_text with
      | Some text =>
          if truthy text && mentions_ui_keyword (lower text) then true
          else false
      | None => false
      end.

(** [SendRequirementsBehaviour._check_if_ui_needed]: the same body. *)
Definition _check_if_ui_needed
    (requirements_json : reqdict) (requirements_text : option pystr) : bool :=
  if any (fun key => mem (lower key) ui_keys) (keys requirements_json)
  then true
  else
    let flat_values := flatten_values (values requirements_json) in
    if mentions_ui_keyword (join (lit " ") flat_values) then true
    else
      match requirements_text with
      | Some text =>
          if truthy text && mentions_ui_keyword (lower text) then true
          else false
      | None => false
      end.

End Detector.
Import Detector.

(** ** The machine the agents run on *)

Module OS.

Inductive pstatus := Running | Exited | Terminated | Killed.

(** A child process: where it was started, the port it listens on while
    it runs, what it wrote to standard error, and whether it survives
    a terminate request for longer than the grace period. *)
Record process := {
  pr_cmd : list string;
  pr_cwd : string;
  pr_port : Z;
  pr_status : pstatus;
  pr_stderr : pystr;
  pr_ignores_sigterm : bool;
}.

(** What a launched command does during the settle period. *)
Inductive launch :=
| CannotStart (e : pystr)
| ExitsEarly (stderr : pystr)
| StaysUp (ignores_sigterm : bool).

(** What the code cannot influence: which paths the operating system
    refuses to create or write (with the error text), how a launched
    command behaves, the working directory, and the hex digits [uuid4]
    draws. *)
Record platform := {
  os_fault : string -> option pystr;
  os_launch : list string -> string -> launch;
  os_cwd : string;
  os_uuid_hex : string;
}.

(** Directories, files, the process table (a pid is an index into it),
    and the two process handles the deployer object keeps. *)
Record world := {
  w_dirs : gset string;
  w_files : gmap string pystr;
  w_procs : list process;
  backend_proc : option nat;
  frontend_proc : option nat;
}.

Definition set_dirs (d : gset string) (w : world) : world :=
  {| w_dirs := d; w_files := w_files w; w_procs := w_procs w;
     backend_proc := backend_proc w; frontend_proc := frontend_proc w |}.
Definition set_files (f : gmap string pystr) (w : world) : world :=
  {| w_dirs := w_dirs w; w_files := f; w_procs := w_procs w;
     backend_proc := backend_proc w; frontend_proc := frontend_proc w |}.
Definition set_procs (p : list process) (w : world) : world :=
  {| w_dirs := w_dirs w; w_files := w_files w; w_procs := p;
     backend_proc := backend_proc w; frontend_proc := frontend_proc w |}.
Definition set_backend_proc (h : option nat) (w : world) : world :=
  {| w_dirs := w_dirs w; w_files := w_files w; w_procs := w_procs w;
     backend_proc := h; frontend_proc := frontend_proc w |}.
Definition set_frontend_proc (h : option nat) (w : world) : world :=
  {| w_dirs := w_dirs w; w_files := w_files w; w_procs := w_procs w;
     backend_proc := backend_proc w; frontend_proc := h |}.

(** A computation either gives a value or raises, and leaves a world
    behind in both cases. *)
Inductive res (A : Type) :=
| Val (a : A)
| Exc (e : pystr).
Arguments Val {A} a.
Arguments Exc {A} e.

Definition M (A : Type) : Type := world -> res A * world.

Definition ret {A} (a : A) : M A := fun w => (Val a, w).
Definition raise {A} (e : pystr) : M A := fun w => (Exc e, w).
Definition bind {A B} (m : M A) (k : A -> M B) : M B :=
  fun w => match m w with
           | (Val a, w') => k a w'
           | (Exc e, w') => (Exc e, w')
           end.
(** [try: m except Exception as e: handler(str(e))] *)
Definition try_except {A} (m : M A) (handler : pystr -> M A) : M A :=
  fun w => match m w with
           | (Val a, w') => (Val a, w')
           | (Exc e, w') => handler e w'
           end.
Definition gets {A} (f : world -> A) : M A := fun w => (Val (f w), w).
Definition modify (f : world -> world) : M unit := fun w => (Val tt, f w).

Declare Scope os_scope.
Delimit Scope os_scope with os.
Notation "x <- m ;; k" := (bind m (fun x => k))
  (at level 100, m at next level, right associativity) : os_scope.
Notation "m ;; k" := (bind m (fun _ => k))
  (at level 100, right associativity) : os_scope.
Open Scope os_scope.

(** [os.path.join(a, b)] *)
Definition path_join (a b : string) : string :=
  if String.prefix "/" b then b
  else if (String.eqb a "" || String.eqb (String.substring (String.length a - 1) 1 a) "/")%bool
       then a +:+ b
       else a +:+ "/" +:+ b.

(** [os.path.exists(p)] *)
Definition path_exists (p : string) : M bool :=
  gets (fun w => bool_decide (p ∈ w_dirs w) || bool_decide (is_Some (w_files w !! p))).

(** [os.makedirs(p, exist_ok=True)] *)
Definition makedirs (pf : platform) (p : string) : M unit :=
  match os_fault pf p with
  | Some e => raise e
  | None => modify (fun w => set_dirs ({[p]} ∪ w_dirs w) w)
  end.

(** [with open(p, "w") as f: f.write(content)] *)
Definition write_file (pf : platform) (p : string) (content : pystr) : M unit :=
  match os_fault pf p with
  | Some e => raise e
  | None => modify (fun w => set_files (<[p := content]> (w_files w)) w)
  end.

(** [subprocess.Popen(cmd, cwd=cwd, ...)] followed by the settle period:
    the new process is entered in the table in the state the next
    [poll()] finds it in.  The handle is its pid. *)
Definition popen (pf : platform) (cmd : list string) (cwd : string) (port : Z)
  : M nat :=
  match os_launch pf cmd cwd with
  | CannotStart e => raise e
  | ExitsEarly err =>
      pid <- gets (fun w => length (w_procs w)) ;;
      modify (fun w => set_procs (w_procs w ++
        [{| pr_cmd := cmd; pr_cwd := cwd; pr_port := port; pr_status := Exited;
            pr_stderr := err; pr_ignores_sigterm := false |}]) w) ;;
      ret pid
  | StaysUp stubborn =>
      pid <- gets (fun w => length (w_procs w)) ;;
      modify (fun w => set_procs (w_procs w ++
        [{| pr_cmd := cmd; pr_cwd := cwd; pr_port := port; pr_status := Running;
            pr_stderr := []; pr_ignores_sigterm := stubborn |}]) w) ;;
      ret pid
  end.

Definition is_running (p : process) : bool :=
  match pr_status p with Running => true | _ => false end.

(** [proc.poll() is not None] *)
Definition has_exited (pid : nat) : M bool :=
  gets (fun w => match w_procs w !! pid with
                 | Some p => negb (is_running p)
                 | None => true
                 end).

(** [proc.stderr.read().decode('utf-8')] *)
Definition read_stderr (pid : nat) : M pystr :=
  gets (fun w => match w_procs w !! pid with
                 | Some p => pr_stderr p
                 | None => []
                 end).

Definition with_status (s : pstatus) (p : process) : process :=
  {| pr_cmd := pr_cmd p; pr_cwd := pr_cwd p; pr_port := pr_port p;
     pr_status := s; pr_stderr := pr_stderr p;
     pr_ignores_sigterm := pr_ignores_sigterm p |}.

(** [proc.terminate()], then [proc.wait(timeout=5)], then [proc.kill()]
    when the wait timed out.  A process that has already exited is left
    as it is. *)
Definition graceful_stop (p : process) : process :=
  if is_running p
  then if pr_ignores_sigterm p then with_status Killed p
       else with_status Terminated p
  else p.

Definition terminate_wait_kill (pid : nat) : M unit :=
  modify (fun w => set_procs (alter graceful_stop pid (w_procs w)) w).

(** [lsof -i :port -t] and [os.kill(pid, SIGKILL)] for each pid found. *)
Definition kill_listeners (port : Z) (p : process) : process :=
  if is_running p && (pr_port p =? port) then with_status Killed p else p.

Definition free_port (port : Z) : M unit :=
  modify (fun w => set_procs (map (kill_listeners port) (w_procs w)) w).

End OS.
Import OS.

(** ** The project assembler ([integrator_agent.py]) *)

Module Integrator.
Open Scope os_scope.

(** The fixed texts written next to the artifacts.  Their wording plays
    no part below; the README is an f-string over the project path. *)
Record scaffold := {
  index_html : pystr;
  package_json : pystr;
  readme_md : string -> pystr;
  config_js : pystr;
}.

(** A line as passed to [f.write], with its newline. *)
Definition line (s : string) : pystr := lit s ++ [LF].

(** The first [f.write] into [requirements.txt]. *)
Definition baseline_lines : list pystr :=
  [line "fastapi>=0.100.0"; line "uvicorn>=0.23.0"; line "sqlalchemy>=2.0.0";
   line "pydantic>=2.0.0"; line "python-dotenv>=1.0.0"].

Definition baseline_requirements : pystr := concat baseline_lines.

(** [f.write(l)] under [if cond]. *)
Definition write_if (cond : bool) (l : pystr) : pystr :=
  if cond then l else [].

(** Everything written into [backend/requirements.txt]. *)
Definition requirements_txt (backend_code : pystr) : pystr :=
  let code := lower backend_code in
  baseline_requirements
  ++ write_if (contains (lit "pandas") code) (line "pandas>=2.0.0")
  ++ write_if (contains (lit "numpy") code) (line "numpy>=1.24.0")
  ++ write_if (contains (lit "scikit-learn") code || contains (lit "sklearn") code)
       (line "scikit-learn>=1.3.0")
  ++ write_if (contains (lit "matplotlib") code || contains (lit "pyplot") code)
       (line "matplotlib>=3.7.0")
  ++ write_if (contains (lit "requests") code) (line "requests>=2.31.0").

(** [StandaloneIntegratorAgent.integrate_project(backend_code, ui_code,
    requirements)]: the project directory, or [None]. *)
Definition integrate_project (pf : platform) (sc : scaffold)
    (backend_code ui_code : pystr) (requirements : option reqdict)
  : M (option string) :=
  if negb (truthy backend_code) || negb (truthy ui_code) then ret None
  else
    try_except
      (let project_name := "generated_project_" +:+ os_uuid_hex pf in
       let project_dir := path_join (os_cwd pf) project_name in
       makedirs pf project_dir ;;
       let backend_dir := path_join project_dir "backend" in
       makedirs pf backend_dir ;;
       let frontend_dir := path_join project_dir "frontend" in
       makedirs pf frontend_dir ;;
       let backend_path := path_join backend_dir "app.py" in
       write_file pf backend_path backend_code ;;
       let requirements_path := path_join backend_dir "requirements.txt" in
       write_file pf requirements_path (requirements_txt backend_code) ;;
       let ui_path := path_join frontend_dir "App.jsx" in
       write_file pf ui_path ui_code ;;
       let index_path := path_join frontend_dir "index.html" in
       write_file pf index_path (index_html sc) ;;
       let package_json_path := path_join frontend_dir "package.json" in
       write_file pf package_json_path (package_json sc) ;;
       let readme_path := path_join project_dir "README.md" in
       write_file pf readme_path (readme_md sc project_dir) ;;
       let config_path := path_join frontend_dir "config.js" in
       write_file pf config_path (config_js sc) ;;
       ret (Some project_dir))
      (fun e => ret None).

(** The lines of a manifest: the pieces ending in a newline. *)
Fixpoint lines_from (cur : pystr) (s : pystr) : list pystr :=
  match s with
  | [] => match cur with [] => [] | _ => [rev cur] end
  | c :: s' =>
      if ascii_eqb c LF then rev (c :: cur) :: lines_from [] s'
      else lines_from (c :: cur) s'
  end.

Definition manifest_lines (s : pystr) : list pystr := lines_from [] s.

End Integrator.
Import Integrator.

(** ** The process supervisor ([deployer_agent.py]) *)

Module Deployer.
Open Scope os_scope.

Inductive deploy_result :=
| DeploySuccess (backend_url frontend_url : string) (project_dir : string)
| DeployError (message : pystr).

Definition backend_cmd : list string :=
  ["uvicorn"; "app:app"; "--reload"; "--host"; "0.0.0.0"; "--port"; "8000"]%string.

Definition frontend_cmd : list string :=
  ["python"; "-m"; "http.server"; "3000"]%string.

(** [_ensure_ports_available(ports)] *)
Fixpoint _ensure_ports_available (ports : list Z) : M unit :=
  match ports with
  | [] => ret tt
  | port :: rest => free_port port ;; _ensure_ports_available rest
  end.

(** [_stop_current_services] *)
Definition _stop_current_services : M unit :=
  try_except
    (bp <- gets backend_proc ;;
     match bp with
     | Some pid => terminate_wait_kill pid ;; modify (set_backend_proc None)
     | None => ret tt
     end ;;
     fp <- gets frontend_proc ;;
     match fp with
     | Some pid => terminate_wait_kill pid ;; modify (set_frontend_proc None)
     | None => ret tt
     end ;;
     _ensure_ports_available [8000; 3000])
    (fun e => ret tt).

(** [StandaloneDeployerAgent.deploy_project(project_dir)].  The wait for
    the file system to settle changes nothing in the world and is left
    out. *)
Definition deploy_project (pf : platform) (sc : scaffold) (project_dir : string)
  : M deploy_result :=
  found <- path_exists project_dir ;;
  if negb found then
    ret (DeployError (lit "Project directory does not exist: " ++ lit project_dir))
  else
    try_except
      (_stop_current_services ;;
       let backend_dir := path_join project_dir "backend" in
       let frontend_dir := path_join project_dir "frontend" in
       has_backend <- path_exists backend_dir ;;
       if negb has_backend then
         ret (DeployError (lit "Backend directory not found: " ++ lit backend_dir))
       else
       has_frontend <- path_exists frontend_dir ;;
       if negb has_frontend then
         ret (DeployError (lit "Frontend directory not found: " ++ lit frontend_dir))
       else
       let backend_app_file := path_join backend_dir "app.py" in
       has_app <- path_exists backend_app_file ;;
       if negb has_app then
         ret (DeployError (lit "Backend app.py not found: " ++ lit backend_app_file))
       else
       let requirements_file := path_join backend_dir "requirements.txt" in
       has_requirements <- path_exists requirements_file ;;
       (if negb has_requirements
        then write_file pf requirements_file baseline_requirements
        else ret tt) ;;
       let frontend_index := path_join frontend_dir "index.html" in
       has_index <- path_exists frontend_index ;;
       (if negb has_index then
          let app_jsx := path_join frontend_dir "App.jsx" in
          has_jsx <- path_exists app_jsx ;;
          if has_jsx then write_file pf frontend_index (index_html sc)
          else ret tt
        else ret tt) ;;
       backend_pid <- popen pf backend_cmd backend_dir 8000 ;;
       modify (set_backend_proc (Some backend_pid)) ;;
       backend_exited <- has_exited backend_pid ;;
       if backend_exited then
         stderr <- read_stderr backend_pid ;;
         ret (DeployError (lit "Backend server failed to start: "
                           ++ slice_to stderr 500))
       else
       frontend_pid <- popen pf frontend_cmd frontend_dir 3000 ;;
       modify (set_frontend_proc (Some frontend_pid)) ;;
       frontend_exited <- has_exited frontend_pid ;;
       if frontend_exited then
         stderr <- read_stderr frontend_pid ;;
         ret (DeployError (lit "Frontend server failed to start: "
                           ++ slice_to stderr 500))
       else
       ret (DeploySuccess "http://localhost:8000" "http://localhost:3000"
              project_dir))
      (fun e => ret (DeployError (lit "Error deploying project: " ++ e))).

(** [StandaloneDeployerAgent.stop] *)
Definition stop : M unit := _stop_current_services.

End Deployer.
Import Deployer.

(** ** The coordinator ([run_standalone] in [integration_example.py]) *)

Module Pipeline.
Open Scope os_scope.

(** The dict [run_standalone] returns on its normal path. *)
Record run_result := {
  requirements_text : option pystr;
  requirements_json : reqdict;
  generated_code : pystr;
  generated_ui : option pystr;
  needs_ui : bool;
  project_dir : option string;
  backend_url : string;
  frontend_url : string;
}.

(** Calls made to the later stages, in order. *)
Inductive stage_call :=
| CallIntegrator (backend_code ui_code : pystr)
| CallDeployer (dir : string).

(** What happened during a run, next to what it returned: the return
    statement each worker left through, the stage calls, and the
    deployer's answer. *)
Record run_trace := {
  backend_generation : generation;
  ui_generation : option generation;
  stage_calls : list stage_call;
  deployment : option deploy_result;
}.

Inductive outcome :=
| Finished (r : run_result) (t : run_trace)
| RunError (error : pystr).

(** Truthiness of [generated_ui], which is [None] or a string. *)
Definition truthy_opt (s : option pystr) : bool :=
  match s with Some t => truthy t | None => false end.

(** [generated_ui or ""] *)
Definition or_empty (s : option pystr) : pystr :=
  match s with Some t => if truthy t then t else [] | None => [] end.

(** [StandaloneDeployerAgent()]: a new object holding no process. *)
Definition new_deployer : M unit :=
  modify (fun w => set_frontend_proc None (set_backend_proc None w)).

Section Run.
Variable pf : platform.
Variable sc : scaffold.
Variable OLLAMA_MODEL : pystr.
Variable create_code_generation_prompt : reqdict -> pystr.
Variable create_ui_generation_prompt : reqdict -> pystr.
(** The completion service as each worker task sees it. *)
Variable svc_code svc_ui : service.

(** Steps 6 and 7: integrate, then deploy. *)
Definition integrate_and_deploy (req_json : reqdict)
    (generated_code : pystr) (generated_ui : option pystr) (needs_ui : bool)
  : M (option string * list stage_call * option deploy_result) :=
  if truthy generated_code && (negb needs_ui || truthy_opt generated_ui) then
    let ui_arg := or_empty generated_ui in
    project_dir <- integrate_project pf sc generated_code ui_arg (Some req_json) ;;
    match project_dir with
    | Some dir =>
        if negb (String.eqb dir "") then
          found <- path_exists dir ;;
          if found then
            deployment_result <- deploy_project pf sc dir ;;
            ret (project_dir,
                 [CallIntegrator generated_code ui_arg; CallDeployer dir],
                 Some deployment_result)
          else ret (project_dir, [CallIntegrator generated_code ui_arg], None)
        else ret (project_dir, [CallIntegrator generated_code ui_arg], None)
    | None => ret (project_dir, [CallIntegrator generated_code ui_arg], None)
    end
  else ret (None, [], None).

(** [run_standalone(user_message)], given what the requirements
    analysis of the message came back with ([analyze_and_format_for_code_generation]
    lives outside these files).  The two worker tasks share nothing, so
    each is run against its own view of the completion service.  The
    [start] and [stop] calls on the code, UI and integrator agents only
    flip a flag and are left out. *)
Definition run_standalone (analysis : res (option pystr * reqdict))
  : world -> outcome * world :=
  fun w =>
    match analysis with
    | Exc e => (RunError (lit "Standalone execution error: " ++ e), w)
    | Val (req_text, req_json) =>
        let needs_ui := _check_if_ui_needed_standalone req_json req_text in
        let body :=
          new_deployer ;;
          let code_gen :=
            fst (generate_code OLLAMA_MODEL create_code_generation_prompt
                   svc_code (ReqDict req_json) []) in
          let generated_code := returned code_gen in
          let ui_gen :=
            if needs_ui
            then Some (fst (generate_ui_code OLLAMA_MODEL
                              create_ui_generation_prompt
                              svc_ui (ReqDict req_json) []))
            else None in
          let generated_ui := option_map returned ui_gen in
          staged <- integrate_and_deploy req_json generated_code generated_ui needs_ui ;;
          let '(project_dir, calls, deployment_result) := staged in
          ret (Finished
                 {| requirements_text := req_text;
                    requirements_json := req_json;
                    generated_code := generated_code;
                    generated_ui := generated_ui;
                    needs_ui := needs_ui;
                    project_dir := project_dir;
                    backend_url := "http://localhost:8000";
                    frontend_url := "http://localhost:3000" |}
                 {| backend_generation := code_gen;
                    ui_generation := ui_gen;
                    stage_calls := calls;
                    deployment := deployment_result |}) in
        match body w with
        | (Val o, w') => (o, w')
        | (Exc e, w') =>
            (RunError (lit "Standalone execution error: " ++ e),
             snd (stop w'))
        end
    end.
End Run.

End Pipeline.
Import Pipeline.


(** ** Vocabulary for statements about the later stages *)

Module Observations.

(** The paths [integrate_project] creates, in the order it creates them. *)
Definition project_paths (pf : platform) : list string :=
  let project_dir :=
    path_join (os_cwd pf) ("generated_project_" +:+ os_uuid_hex pf) in
  let backend_dir := path_join project_dir "backend" in
  let frontend_dir := path_join project_dir "frontend" in
  [project_dir; backend_dir; frontend_dir;
   path_join backend_dir "app.py";
   path_join backend_dir "requirements.txt";
   path_join frontend_dir "App.jsx";
   path_join frontend_dir "index.html";
   path_join frontend_dir "package.json";
   path_join project_dir "README.md";
   path_join frontend_dir "config.js"].

(** The project directory [integrate_project] picks. *)
Definition new_project_dir (pf : platform) : string :=
  path_join (os_cwd pf) ("generated_project_" +:+ os_uuid_hex pf).

(** The world a complete integration leaves behind. *)
Definition assembled (pf : platform) (sc : scaffold)
    (backend_code ui_code : pystr) (w : world) : world :=
  let project_dir := new_project_dir pf in
  let backend_dir := path_join project_dir "backend" in
  let frontend_dir := path_join project_dir "frontend" in
  {| w_dirs := {[frontend_dir]} ∪ ({[backend_dir]} ∪ ({[project_dir]} ∪ w_dirs w));
     w_files :=
       <[path_join frontend_dir "config.js" := config_js sc]>
       (<[path_join project_dir "README.md" := readme_md sc project_dir]>
       (<[path_join frontend_dir "package.json" := package_json sc]>
       (<[path_join frontend_dir "index.html" := index_html sc]>
       (<[path_join frontend_dir "App.jsx" := ui_code]>
       (<[path_join backend_dir "requirements.txt" := requirements_txt backend_code]>
       (<[path_join backend_dir "app.py" := backend_code]> (w_files w)))))));
     w_procs := w_procs w;
     backend_proc := backend_proc w;
     frontend_proc := frontend_proc w |}.

(** No process is left running on the two service ports. *)
Definition ports_free (w : world) : Prop :=
  forall p, In p (w_procs w) ->
    pr_port p = 8000 \/ pr_port p = 3000 -> is_running p = false.

(** The process [popen] enters in the table for a command that stays up,
    and for one that has exited by the time it is polled. *)
Definition running_process (cmd : list string) (cwd : string) (port : Z)
    (stubborn : bool) : process :=
  {| pr_cmd := cmd; pr_cwd := cwd; pr_port := port; pr_status := Running;
     pr_stderr := []; pr_ignores_sigterm := stubborn |}.

Definition exited_process (cmd : list string) (cwd : string) (port : Z)
    (err : pystr) : process :=
  {| pr_cmd := cmd; pr_cwd := cwd; pr_port := port; pr_status := Exited;
     pr_stderr := err; pr_ignores_sigterm := false |}.

(** The processes of [w'] that were not yet in the table of [w]. *)
Definition started_since (w w' : world) : list process :=
  drop (length (w_procs w)) (w_procs w').

End Observations.
Import Observations.

(** ** Concrete inputs used in the examples below *)

Module Scenarios.

(** [{"functionalities": ["chat interface"]}] *)
Definition chat_requirements : reqdict :=
  [(lit "functionalities", VList [PyStr (lit "chat interface")])].

(** [{"ui_components": ["message list"]}] *)
Definition ui_requirements : reqdict :=
  [(lit "ui_components", VList [PyStr (lit "message list")])].

(** [{"purpose": ["batch job"]}] *)
Definition batch_requirements : reqdict :=
  [(lit "purpose", VList [PyStr (lit "batch job")])].

Definition model_name : pystr := lit "deepseek-r1:latest".
Definition some_prompt (specs : reqdict) : pystr := lit "prompt".

(** A completion service that is unreachable. *)
Definition svc_down : service :=
  fun _ _ => Raised (lit "connection refused").

(** Unreachable twice, then a short answer. *)
Definition svc_recovers : service :=
  fun log _ =>
    if (length log <? 2)%nat then Raised (lit "connection refused")
    else Responded 200 (lit " pass ").

(** A backend text that passes the acceptance check. *)
Definition good_backend : pystr :=
  lit "import fastapi" ++ [LF] ++ lit "def handler(): pass" ++ [LF]
  ++ lit "# ---------------------------------------------------------------------------".

(** Always answers with [good_backend]. *)
Definition svc_good : service :=
  fun _ _ => Responded 200 good_backend.

(** Always the same short answer. *)
Definition svc_short : service :=
  fun _ _ => Responded 200 (lit "pass").

Definition sc0 : scaffold :=
  {| index_html := lit "<!DOCTYPE html>";
     package_json := lit "{}";
     readme_md := fun dir => lit "# Generated Project " ++ lit dir;
     config_js := lit "// config" |}.

(** Both servers start and stay up. *)
Definition pf_ok : platform :=
  {| os_fault := fun _ => None;
     os_launch := fun _ _ => StaysUp false;
     os_cwd := "/work";
     os_uuid_hex := "f50b64a8" |}.


Definition empty_world : world :=
  {| w_dirs := ∅; w_files := ∅; w_procs := [];
     backend_proc := None; frontend_proc := None |}.

(** A project holding a backend artifact only. *)
Definition backend_only_world : world :=
  {| w_dirs := {["/work/p"%string; "/work/p/backend"%string]};
     w_files := {["/work/p/backend/app.py"%string := lit "import fastapi"]};
     w_procs := [];
     backend_proc := None; frontend_proc := None |}.

(** A project with an empty frontend directory: no frontend artifact. *)
Definition empty_frontend_world : world :=
  {| w_dirs := {["/work/p"%string; "/work/p/backend"%string;
                 "/work/p/frontend"%string]};
     w_files := {["/work/p/backend/app.py"%string := lit "import fastapi"]};
     w_procs := [];
     backend_proc := None; frontend_proc := None |}.

End Scenarios.
Import Scenarios.

(** ** Further vocabulary *)

Module Vocabulary.

(** The payloads of the three scheduled attempts, in order. *)
Definition schedule_payloads (OLLAMA_MODEL prompt : pystr) : list payload :=
  map (fun tn => make_payload OLLAMA_MODEL prompt (fst tn) (snd tn)) schedule.

(** The backtick, of which the fences are made. *)
Definition backtick : ascii := ascii_of_nat 96.

(** No backtick anywhere in the text. *)
Definition no_backtick (s : pystr) : Prop := Forall (fun c => c <> backtick) s.

(** How the third answer of a call turns into the message of a [Failed]
    result. *)
Definition failure_message (http_error_message : Z -> pystr)
    (exception_message : pystr -> pystr) (r : response) : option pystr :=
  match r with
  | Raised e => Some (exception_message e)
  | Responded status _ =>
      if status =? 200 then None else Some (http_error_message status)
  end.

End Vocabulary.
Import Vocabulary.

(** ** Further concrete inputs *)

Module MoreScenarios.

(** A UI text that passes the acceptance check. *)
Definition good_ui : pystr :=
  lit "import React from 'react';" ++ [LF]
  ++ lit "const App = () => <div>hello</div>;" ++ [LF]
  ++ lit "// ------------------------------------------------------------".

(** Always answers with [good_ui]. *)
Definition svc_good_ui : service :=
  fun _ _ => Responded 200 good_ui.

(** Answers every request with status 503. *)
Definition svc_unavailable : service :=
  fun _ _ => Responded 503 (lit "Service Unavailable").

(** The world after a first deployment of [/work/p]: both servers are
    running and the deployer holds their handles. *)
Definition deployed_world : world :=
  snd (deploy_project pf_ok sc0 "/work/p" empty_frontend_world).

End MoreScenarios.
Import MoreScenarios.

(** ** The three tests of the UI-need detector, as properties *)

Module DetectorSpec.

(** Some key of the dict is, lowered, one of the UI keys. *)
Definition has_ui_key (d : reqdict) : Prop :=
  exists key, In key (keys d) /\ In (lower key) ui_keys.

(** Some UI keyword, lowered, occurs in the lowered values of the dict
    joined by single spaces. *)
Definition values_mention_ui (d : reqdict) : Prop :=
  exists keyword, In keyword ui_keywords
    /\ occurs_in (lower keyword) (join (lit " ") (flatten_values (values d))).

(** The free text is a non-empty string in which some UI keyword occurs
    up to letter case. *)
Definition text_mentions_ui (text : option pystr) : Prop :=
  exists t keyword, text = Some t /\ t <> [] /\ In keyword ui_keywords
    /\ occurs_ci (lower keyword) t.

End DetectorSpec.
Import DetectorSpec.

(** ** The libraries the manifest scan knows *)

Module ManifestSpec.

(** The names a library is looked for under, and its pinned line. *)
Definition known_libraries : list (list pystr * pystr) :=
  [([lit "pandas"], line "pandas>=2.0.0");
   ([lit "numpy"], line "numpy>=1.24.0");
   ([lit "scikit-learn"; lit "sklearn"], line "scikit-learn>=1.3.0");
   ([lit "matplotlib"; lit "pyplot"], line "matplotlib>=3.7.0");
   ([lit "requests"], line "requests>=2.31.0")].

(** One of the names occurs in the text up to letter case. *)
Definition names_library (backend_code : pystr) (names : list pystr) : Prop :=
  exists name, In name names /\ occurs_ci name backend_code.

End ManifestSpec.
Import ManifestSpec.

(** ** The message-driven agents ([IntegratorAgent], [DeployerAgent]) *)

Module Messages.

(** A received message as the behaviours read it: [str(msg.sender)],
    [msg.metadata.get("performative")] and [msg.body], a string. *)
Record message := {
  msg_sender : pystr;
  msg_performative : option pystr;
  msg_body : pystr;
}.

(** A message a behaviour sends: [Message(to=...)], the performative it
    sets and the body. *)
Record outgoing := {
  out_to : pystr;
  out_performative : pystr;
  out_body : pystr;
}.

(** [msg.metadata.get("performative") == name] *)
Definition performative_is (name : string) (msg : message) : bool :=
  match msg_performative msg with
  | Some p => pystr_eqb p (lit name)
  | None => false
  end.

End Messages.
Import Messages.

(** [IntegratorAgent.IntegrateBehaviour] in [integrator_agent.py] *)
Module IntegrateBehaviour.
Open Scope os_scope.

(** The attributes the behaviour sets on its agent; [None] where
    [hasattr] answers [False]. *)
Record attrs := {
  a_backend_code : option pystr;
  a_backend_sender : option pystr;
  a_ui_code : option pystr;
  a_ui_sender : option pystr;
  a_requirements : option pystr;
  a_requirements_sender : option pystr;
}.

(** An agent on which none of them is set. *)
Definition no_attrs : attrs :=
  {| a_backend_code := None; a_backend_sender := None;
     a_ui_code := None; a_ui_sender := None;
     a_requirements := None; a_requirements_sender := None |}.

(** The [if perf == ... elif ...] chain that stores what came in. *)
Definition store (msg : message) (a : attrs) : attrs :=
  if performative_is "inform_code" msg then
    {| a_backend_code := Some (msg_body msg);
       a_backend_sender := Some (msg_sender msg);
       a_ui_code := a_ui_code a; a_ui_sender := a_ui_sender a;
       a_requirements := a_requirements a;
       a_requirements_sender := a_requirements_sender a |}
  else if performative_is "inform_ui_code" msg then
    {| a_backend_code := a_backend_code a;
       a_backend_sender := a_backend_sender a;
       a_ui_code := Some (msg_body msg);
       a_ui_sender := Some (msg_sender msg);
       a_requirements := a_requirements a;
       a_requirements_sender := a_requirements_sender a |}
  else if performative_is "inform_requirements" msg then
    {| a_backend_code := a_backend_code a;
       a_backend_sender := a_backend_sender a;
       a_ui_code := a_ui_code a; a_ui_sender := a_ui_sender a;
       a_requirements := Some (msg_body msg);
       a_requirements_sender := Some (msg_sender msg) |}
  else a.

(** What the behaviour writes into [requirements.txt]. *)
Definition unpinned_requirements : pystr :=
  line "fastapi" ++ line "uvicorn" ++ line "sqlalchemy" ++ line "pydantic"
  ++ line "python-dotenv".

Section Behaviour.
Variable pf : platform.
(** The fixed texts of [package.json], [README.md] and [config.js]; the
    behaviour writes no [index.html]. *)
Variable sc : scaffold.
(** [PROJECT_DIR] and [DEPLOYER_JID], read from the environment. *)
Variable PROJECT_DIR : string.
Variable DEPLOYER_JID : pystr.

(** The directories and files, in the order they are created. *)
Definition write_project (backend_code ui_code : pystr) : M unit :=
  let project_dir := PROJECT_DIR in
  makedirs pf project_dir ;;
  let backend_dir := path_join project_dir "backend" in
  makedirs pf backend_dir ;;
  let frontend_dir := path_join project_dir "frontend" in
  makedirs pf frontend_dir ;;
  let backend_path := path_join backend_dir "app.py" in
  write_file pf backend_path backend_code ;;
  let requirements_path := path_join backend_dir "requirements.txt" in
  write_file pf requirements_path unpinned_requirements ;;
  let ui_path := path_join frontend_dir "App.jsx" in
  write_file pf ui_path ui_code ;;
  let package_json_path := path_join frontend_dir "package.json" in
  write_file pf package_json_path (package_json sc) ;;
  let readme_path := path_join project_dir "README.md" in
  write_file pf readme_path (readme_md sc project_dir) ;;
  let config_path := path_join frontend_dir "config.js" in
  write_file pf config_path (config_js sc).

Definition project_ready (to : pystr) : outgoing :=
  {| out_to := to; out_performative := lit "inform_project_ready";
     out_body := lit PROJECT_DIR |}.

Definition deploy_request : outgoing :=
  {| out_to := DEPLOYER_JID; out_performative := lit "deploy_project";
     out_body := lit PROJECT_DIR |}.

(** One [run] of the behaviour on what [receive] came back with ([None]
    after the timeout): the agent's attributes afterwards, the messages
    sent, and the world.  An exception ends the run in the outer
    [except], which only logs: the attributes stay as stored, and
    nothing has been sent, since the writes come before the first
    [send] and reading the missing [backend_sender] comes before the
    second. *)
Definition run (received : option message) (a : attrs) (w : world)
  : attrs * list outgoing * world :=
  match received with
  | None => (a, [], w)
  | Some msg =>
      let a1 := store msg a in
      match a_backend_code a1, a_ui_code a1 with
      | Some backend_code, Some ui_code =>
          match write_project backend_code ui_code w with
          | (Val _, w1) =>
              let to_backend :=
                match a_backend_sender a1 with
                | Some s => [project_ready s]
                | None => []
                end in
              match a_ui_sender a1, a_backend_sender a1 with
              | Some u, Some s =>
                  (no_attrs,
                   to_backend
                   ++ (if negb (pystr_eqb u s) then [project_ready u] else [])
                   ++ [deploy_request],
                   w1)
              | Some u, None => (a1, [], w1)
              | None, _ => (no_attrs, to_backend ++ [deploy_request], w1)
              end
          | (Exc _, w1) => (a1, [], w1)
          end
      | _, _ => (a1, [], w)
      end
  end.

(** The behaviour is cyclic: one [run] per entry of the inbox. *)
Fixpoint run_all (inbox : list (option message)) (a : attrs) (w : world)
  : attrs * list outgoing * world :=
  match inbox with
  | [] => (a, [], w)
  | received :: rest =>
      let '(a1, out1, w1) := run received a w in
      let '(a2, out2, w2) := run_all rest a1 w1 in
      (a2, out1 ++ out2, w2)
  end.

End Behaviour.

(** The paths the behaviour creates. *)
Definition project_paths (PROJECT_DIR : string) : list string :=
  let backend_dir := path_join PROJECT_DIR "backend" in
  let frontend_dir := path_join PROJECT_DIR "frontend" in
  [PROJECT_DIR; backend_dir; frontend_dir;
   path_join backend_dir "app.py";
   path_join backend_dir "requirements.txt";
   path_join frontend_dir "App.jsx";
   path_join frontend_dir "package.json";
   path_join PROJECT_DIR "README.md";
   path_join frontend_dir "config.js"].

(** The world a complete [write_project] leaves behind. *)
Definition written (sc : scaffold) (PROJECT_DIR : string)
    (backend_code ui_code : pystr) (w : world) : world :=
  let backend_dir := path_join PROJECT_DIR "backend" in
  let frontend_dir := path_join PROJECT_DIR "frontend" in
  {| w_dirs := {[frontend_dir]} ∪ ({[backend_dir]} ∪ ({[PROJECT_DIR]} ∪ w_dirs w));
     w_files :=
       <[path_join frontend_dir "config.js" := config_js sc]>
       (<[path_join PROJECT_DIR "README.md" := readme_md sc PROJECT_DIR]>
       (<[path_join frontend_dir "package.json" := package_json sc]>
       (<[path_join frontend_dir "App.jsx" := ui_code]>
       (<[path_join backend_dir "requirements.txt" := unpinned_requirements]>
       (<[path_join backend_dir "app.py" := backend_code]> (w_files w))))));
     w_procs := w_procs w;
     backend_proc := backend_proc w;
     frontend_proc := frontend_proc w |}.

(** The messages that announce a project: to whoever sent the backend
    text, to whoever sent the UI text unless it is the same sender, and
    to the deployer. *)
Definition announcement (PROJECT_DIR : string) (DEPLOYER_JID : pystr)
    (backend_sender ui_sender : pystr) : list outgoing :=
  project_ready PROJECT_DIR backend_sender
  :: (if negb (pystr_eqb ui_sender backend_sender)
      then [project_ready PROJECT_DIR ui_sender] else [])
  ++ [deploy_request PROJECT_DIR DEPLOYER_JID].

(** Whoever left a code text is known: the two attributes of a pair are
    set together. *)
Definition paired (a : attrs) : Prop :=
  (is_Some (a_backend_code a) <-> is_Some (a_backend_sender a))
  /\ (is_Some (a_ui_code a) <-> is_Some (a_ui_sender a)).

End IntegrateBehaviour.

(** [DeployerAgent.DeployBehaviour] in [deployer_agent.py] *)
Module DeployBehaviour.
Open Scope os_scope.

(** What [proc.terminate()] does to a process that heeds it. *)
Definition with_status_if_running (s : pstatus) (p : process) : process :=
  if is_running p then with_status s p else p.

(** [proc.terminate()] followed by [proc.wait(timeout=5)]: the wait
    raises [TimeoutExpired] when the process outlives the grace period,
    and nothing catches it here.  The text of the exception is only
    logged. *)
Definition terminate_wait (pid : nat) : M unit :=
  p <- gets (fun w => w_procs w !! pid) ;;
  match p with
  | Some p =>
      if is_running p && pr_ignores_sigterm p
      then raise (lit "TimeoutExpired")
      else modify (fun w =>
             set_procs (alter (with_status_if_running Terminated) pid
                          (w_procs w)) w)
  | None => ret tt
  end.

(** [_stop_current_services] *)
Definition _stop_current_services : M unit :=
  try_except
    (bp <- gets backend_proc ;;
     match bp with
     | Some pid => terminate_wait pid ;; modify (set_backend_proc None)
     | None => ret tt
     end ;;
     fp <- gets frontend_proc ;;
     match fp with
     | Some pid => terminate_wait pid ;; modify (set_frontend_proc None)
     | None => ret tt
     end ;;
     _ensure_ports_available [8000; 3000])
    (fun e => ret tt).

Section Behaviour.
Variable pf : platform.
(** [subprocess.run(["npm", "install"], cwd=frontend_dir, ...)]:
    whatever npm does to the world, or the exception raised when it
    cannot be started.  Its return code is only logged. *)
Variable npm_install : string -> M unit.
(** [json.dumps] of the status dict, with "success", the two endpoints
    and the given project directory. *)
Variable status_json : pystr -> pystr.

(** [_deploy_project(project_dir)] *)
Definition _deploy_project (project_dir : string) : M bool :=
  try_except
    (let backend_dir := path_join project_dir "backend" in
     let frontend_dir := path_join project_dir "frontend" in
     has_backend <- path_exists backend_dir ;;
     if negb has_backend then ret false else
     has_frontend <- path_exists frontend_dir ;;
     if negb has_frontend then ret false else
     backend_pid <- popen pf backend_cmd backend_dir 8000 ;;
     modify (set_backend_proc (Some backend_pid)) ;;
     backend_exited <- has_exited backend_pid ;;
     if backend_exited then
       stderr <- read_stderr backend_pid ;;
       ret false
     else
     let package_json_path := path_join frontend_dir "package.json" in
     let node_modules_path := path_join frontend_dir "node_modules" in
     has_package_json <- path_exists package_json_path ;;
     has_node_modules <- path_exists node_modules_path ;;
     (if has_package_json && negb has_node_modules
      then npm_install frontend_dir
      else ret tt) ;;
     frontend_pid <- popen pf frontend_cmd frontend_dir 3000 ;;
     modify (set_frontend_proc (Some frontend_pid)) ;;
     frontend_exited <- has_exited frontend_pid ;;
     if frontend_exited then
       stderr <- read_stderr frontend_pid ;;
       ret false
     else ret true)
    (fun e => ret false).

(** One [run] of the behaviour on what [receive] came back with: the
    messages it sends. *)
Definition run (received : option message) : M (list outgoing) :=
  try_except
    (match received with
     | Some msg =>
         if performative_is "deploy_project" msg then
           let project_dir := strip (msg_body msg) in
           found <- path_exists (string_of_list_ascii project_dir) ;;
           if found then
             _stop_current_services ;;
             _deploy_project (string_of_list_ascii project_dir) ;;
             ret [{| out_to := msg_sender msg;
                     out_performative := lit "inform_deployment_status";
                     out_body := status_json project_dir |}]
           else
             ret [{| out_to := msg_sender msg;
                     out_performative := lit "inform_deployment_error";
                     out_body := lit "Project directory does not exist: "
                                 ++ project_dir |}]
         else ret []
     | None => ret []
     end)
    (fun e => ret []).

End Behaviour.

End DeployBehaviour.

(** ** Concrete messages and worlds for the agents *)

Module AgentScenarios.

Definition code_msg : message :=
  {| msg_sender := lit "code@localhost";
     msg_performative := Some (lit "inform_code");
     msg_body := lit "import fastapi" |}.

Definition ui_msg : message :=
  {| msg_sender := lit "ui@localhost";
     msg_performative := Some (lit "inform_ui_code");
     msg_body := lit "const App" |}.

Definition requirements_msg : message :=
  {| msg_sender := lit "req@localhost";
     msg_performative := Some (lit "inform_requirements");
     msg_body := lit "{}" |}.

(** A deployment request for [/work/p], with white space around the
    path. *)
Definition deploy_msg : message :=
  {| msg_sender := lit "integrator@localhost";
     msg_performative := Some (lit "deploy_project");
     msg_body := lit " /work/p " ++ [LF] |}.

Definition deployer_jid : pystr := lit "deployer@localhost".

(** npm creates [node_modules]. *)
Definition npm_ok (cwd : string) : M unit :=
  modify (fun w => set_dirs ({[path_join cwd "node_modules"]} ∪ w_dirs w) w).

Definition status_text (project_dir : pystr) : pystr :=
  lit "{status: success, project_dir: " ++ project_dir ++ lit "}".

(** The deployer holds a backend server that ignores the terminate
    request, and a frontend server. *)
Definition stubborn_world : world :=
  {| w_dirs := {["/work/p"%string]};
     w_files := ∅;
     w_procs := [running_process backend_cmd "/work/old/backend" 8000 true;
                 running_process frontend_cmd "/work/old/frontend" 3000 false];
     backend_proc := Some 0%nat; frontend_proc := Some 1%nat |}.

End AgentScenarios.
Import AgentScenarios.
(** * Properties *)

(** ** Strings *)

Section StringFacts.

Lemma startswith_spec (p s : pystr) :
  startswith p s = true <-> exists suf, s = p ++ suf.
Proof.
  revert s; induction p as [|a p IH]; intros [|b s]; simpl.
  - split; [exists []; reflexivity | reflexivity].
  - split; [exists (b :: s); reflexivity | reflexivity].
  - split; [discriminate | intros [suf H]; discriminate].
  - rewrite andb_true_iff, IH. unfold ascii_eqb. rewrite Ascii.eqb_eq.
    split.
    + intros [-> [suf ->]]. exists suf. reflexivity.
    + intros [suf H]. injection H as -> ->. split; [reflexivity | eauto].
Qed.

Lemma contains_spec (sub s : pystr) :
  contains sub s = true <-> occurs_in sub s.
Proof.
  unfold occurs_in. induction s as [|c s IH].
  - simpl. rewrite orb_false_r, startswith_spec. split.
    + intros [suf H]. exists [], suf. exact H.
    + intros [pre [suf H]]. destruct pre as [|x pre]; [|discriminate].
      exists suf. exact H.
  - simpl. rewrite orb_true_iff, startswith_spec, IH. split.
    + intros [[suf H] | [pre [suf H]]].
      * exists [], suf. exact H.
      * exists (c :: pre), suf. simpl. rewrite H. reflexivity.
    + intros [pre [suf H]]. destruct pre as [|x pre].
      * left. exists suf. exact H.
      * right. injection H as _ H. exists pre, suf. exact H.
Qed.

Lemma contains_app_r (sub s t : pystr) :
  contains sub s = true -> contains sub (s ++ t) = true.
Proof.
  rewrite !contains_spec. intros [pre [suf ->]].
  exists pre, (suf ++ t). rewrite <- !app_assoc. reflexivity.
Qed.

Lemma lower_app (s t : pystr) : lower (s ++ t) = lower s ++ lower t.
Proof. unfold lower. apply map_app. Qed.

Lemma map_eq_app_split {A B} (f : A -> B) (l : list A) (x y : list B) :
  map f l = x ++ y ->
  exists l1 l2, l = l1 ++ l2 /\ map f l1 = x /\ map f l2 = y.
Proof.
  revert l; induction x as [|b x IH]; intros l H.
  - exists [], l. auto.
  - destruct l as [|a l]; [discriminate|]. simpl in H.
    injection H as Hb H. destruct (IH l H) as [l1 [l2 [-> [H1 H2]]]].
    exists (a :: l1), l2. simpl. rewrite Hb, H1. auto.
Qed.

(** [kw in s.lower()] is an occurrence of [kw] in [s] up to case. *)
Lemma contains_lower_spec (kw s : pystr) :
  contains kw (lower s) = true <-> occurs_ci kw s.
Proof.
  rewrite contains_spec. unfold occurs_in, occurs_ci, lower. split.
  - intros [pre [suf H]].
    apply map_eq_app_split in H as [l1 [l2 [-> [H1 H2]]]].
    apply map_eq_app_split in H2 as [l3 [l4 [-> [H3 H4]]]].
    exists l1, l3, l4. auto.
  - intros [pre [mid [suf [-> H]]]].
    exists (map lower_char pre), (map lower_char suf).
    rewrite !map_app, H. reflexivity.
Qed.

Lemma truthy_app_l (s t : pystr) : truthy s = true -> truthy (s ++ t) = true.
Proof. destruct s; [discriminate | reflexivity]. Qed.

Lemma truthy_nonempty (s : pystr) : truthy s = true <-> s <> [].
Proof. destruct s; simpl; split; congruence. Qed.

Lemma any_impl {A} (p q : A -> bool) (xs : list A) :
  (forall x, p x = true -> q x = true) ->
  any p xs = true -> any q xs = true.
Proof.
  intros Hpq. unfold any. rewrite !existsb_exists.
  intros [x [Hin Hp]]. exists x. auto.
Qed.

End StringFacts.

(** ** The UI-need detector *)

Section DetectorFacts.

Lemma mentions_ui_keyword_app (s t : pystr) :
  mentions_ui_keyword s = true -> mentions_ui_keyword (s ++ t) = true.
Proof.
  unfold mentions_ui_keyword. apply any_impl.
  intros kw. apply contains_app_r.
Qed.

(** The detector is monotone in its free text. *)

(** C10. If the detector answers that a UI is needed for a requirements
    dict and a free text, it gives the same answer when characters are
    appended to the free text. *)
Theorem ui_need_monotone_in_text
    (requirements_json : reqdict) (text extra : pystr) :
  _check_if_ui_needed_standalone requirements_json (Some text) = true ->
  _check_if_ui_needed_standalone requirements_json (Some (text ++ extra)) = true.
Proof.
  unfold _check_if_ui_needed_standalone.
  destruct (any _ (keys requirements_json)); [reflexivity|].
  destruct (mentions_ui_keyword (join _ _)); [reflexivity|].
  destruct (truthy text && mentions_ui_keyword (lower text)) eqn:H;
    [|discriminate].
  apply andb_true_iff in H. destruct H as [Ht Hm]. intros _.
  rewrite (truthy_app_l _ _ Ht), lower_app.
  rewrite (mentions_ui_keyword_app _ _ Hm). reflexivity.
Qed.

End DetectorFacts.

(** A batch job whose free text mentions a dashboard: the witness of
    [ui_need_monotone_in_text]. *)
Lemma ui_need_monotone_in_text_witness :
  _check_if_ui_needed_standalone batch_requirements
    (Some (lit "with a Dashboard" ++ lit ", please")) = true.
Proof.
  apply (ui_need_monotone_in_text batch_requirements
           (lit "with a Dashboard") (lit ", please")).
  reflexivity.
Defined.

(** ** The attempt loop *)

Section AttemptLoopFacts.
Variable OLLAMA_MODEL : pystr.
Variable svc : service.
Variable format_generated_code : pystr -> pystr.
Variable acceptable : pystr -> bool.
Variable http_error_message : Z -> pystr.
Variable exception_message : pystr -> pystr.
Variable exhausted_message : pystr.
Variable prompt : pystr.

Local Abbreviation loop :=
  (attempts OLLAMA_MODEL svc format_generated_code acceptable
     http_error_message exception_message exhausted_message prompt).
Local Abbreviation accepted' := (accepted format_generated_code acceptable).
Local Abbreviation shape :=
  (run_shape svc format_generated_code acceptable
     http_error_message exception_message exhausted_message).

Lemma reply_nil (log : list payload) (k : nat) : reply svc log [] k = None.
Proof. unfold reply. destruct k; reflexivity. Qed.

Lemma reply_head (log : list payload) (p : payload) (ps : list payload) :
  reply svc log (p :: ps) 0 = Some (svc log p).
Proof. unfold reply. simpl. rewrite app_nil_r. reflexivity. Qed.

Lemma reply_tail (log : list payload) (p : payload) (ps : list payload) (k : nat) :
  reply svc log (p :: ps) (S k) = reply svc (log ++ [p]) ps k.
Proof.
  unfold reply. simpl. destruct (ps !! k); [|reflexivity].
  rewrite <- app_assoc. reflexivity.
Qed.

Lemma attempts_shape (todo : list (Z * (Q * Z))) (log : list payload) :
  exists ps,
    snd (loop todo log) = log ++ ps
    /\ (length ps <= length todo)%nat
    /\ shape log (fst (loop todo log)) ps.
Proof.
  revert log. induction todo as [|[attempt [temperature num_predict]] rest IH];
    intros log.
  - exists []. simpl. rewrite app_nil_r. repeat split; [lia | constructor].
  - simpl.
    set (p := make_payload OLLAMA_MODEL prompt temperature num_predict).
    destruct (IH (log ++ [p])) as [ps [Hlog [Hlen Hshape]]].
    assert (Hretry : accepted' (svc log p) = false ->
              exists ps0, snd (loop rest (log ++ [p])) = log ++ ps0
                /\ (length ps0 <= S (length rest))%nat
                /\ shape log (fst (loop rest (log ++ [p]))) ps0).
    { intros Hno. exists (p :: ps). rewrite Hlog, <- app_assoc.
      repeat split; [simpl; lia | constructor; assumption]. }
    destruct (svc log p) as [status body|e] eqn:Hsvc.
    + destruct (status =? 200) eqn:Hst.
      * apply Z.eqb_eq in Hst. subst status.
        destruct (acceptable (format_generated_code (strip body))) eqn:Hacc.
        -- exists [p]. simpl. repeat split; [lia | econstructor; eassumption].
        -- destruct (attempt =? 2).
           ++ exists [p]. simpl. repeat split; [lia | econstructor; eassumption].
           ++ apply Hretry. unfold accepted, extracted. simpl. exact Hacc.
      * destruct (attempt =? 2).
        -- exists [p]. simpl. repeat split; [lia |].
           eapply shape_http; [eassumption | apply Z.eqb_neq; assumption].
        -- apply Hretry. unfold accepted, extracted. rewrite Hst. reflexivity.
    + destruct (attempt =? 2).
      * exists [p]. simpl. repeat split; [lia | econstructor; eassumption].
      * apply Hretry. reflexivity.
Qed.

(** Once an answer is accepted, its text is the result and it was the
    last request posted. *)
Lemma shape_first_accept (log : list payload) (g : generation) (ps : list payload) :
  shape log g ps ->
  forall k rsp t,
    reply svc log ps k = Some rsp ->
    extracted format_generated_code rsp = Some t ->
    acceptable t = true ->
    g = Success t /\ length ps = S k.
Proof.
  induction 1 as [log|log p body Hsvc Hacc|log p body Hsvc Hacc
                 |log p status body Hsvc Hst|log p e Hsvc|log p g ps Hno Hsh IH];
    intros k rsp t Hrep Hext Hok.
  - rewrite reply_nil in Hrep. discriminate.
  - destruct k; [|rewrite reply_tail, reply_nil in Hrep; discriminate].
    rewrite reply_head, Hsvc in Hrep. injection Hrep as <-.
    simpl in Hext. injection Hext as <-. auto.
  - destruct k; [|rewrite reply_tail, reply_nil in Hrep; discriminate].
    rewrite reply_head, Hsvc in Hrep. injection Hrep as <-.
    simpl in Hext. injection Hext as <-. congruence.
  - destruct k; [|rewrite reply_tail, reply_nil in Hrep; discriminate].
    rewrite reply_head, Hsvc in Hrep. injection Hrep as <-.
    simpl in Hext. apply Z.eqb_neq in Hst. rewrite Hst in Hext. discriminate.
  - destruct k; [|rewrite reply_tail, reply_nil in Hrep; discriminate].
    rewrite reply_head, Hsvc in Hrep. injection Hrep as <-. discriminate.
  - destruct k.
    + rewrite reply_head in Hrep. injection Hrep as <-.
      unfold accepted in Hno. rewrite Hext in Hno. congruence.
    + rewrite reply_tail in Hrep.
      destruct (IH k rsp t Hrep Hext Hok) as [-> Hlen].
      split; [reflexivity | simpl; lia].
Qed.

(** An [Incomplete] result is the text of the last request posted, which
    came back with status 200 and failed the check; nothing before it was
    accepted. *)
Lemma shape_incomplete_last (log : list payload) (g : generation) (ps : list payload) :
  shape log g ps ->
  forall t, g = Incomplete t ->
    exists n body,
      length ps = S n
      /\ reply svc log ps n = Some (Responded 200 body)
      /\ t = format_generated_code (strip body)
      /\ acceptable t = false
      /\ forall k rsp, reply svc log ps k = Some rsp -> accepted' rsp = false.
Proof.
  induction 1 as [log|log p body Hsvc Hacc|log p body Hsvc Hacc
                 |log p status body Hsvc Hst|log p e Hsvc|log p g ps Hno Hsh IH];
    intros t Hg; try discriminate.
  - injection Hg as <-. exists 0%nat, body.
    rewrite reply_head, Hsvc. repeat split; auto.
    intros k rsp Hrep.
    destruct k; [|rewrite reply_tail, reply_nil in Hrep; discriminate].
    rewrite reply_head, Hsvc in Hrep. injection Hrep as <-.
    unfold accepted. simpl. exact Hacc.
  - destruct (IH t Hg) as [n [body [Hlen [Hrep [Ht [Hacc Hall]]]]]].
    exists (S n), body. rewrite reply_tail. repeat split; auto.
    + simpl. lia.
    + intros k rsp Hk. destruct k.
      * rewrite reply_head in Hk. injection Hk as <-. exact Hno.
      * rewrite reply_tail in Hk. eauto.
Qed.

(** A [Failed] result carries one of the three messages. *)
Lemma shape_failed_message (log : list payload) (g : generation) (ps : list payload) :
  shape log g ps ->
  forall m, g = Failed m ->
    m = exhausted_message
    \/ (exists status, m = http_error_message status)
    \/ (exists e, m = exception_message e).
Proof.
  induction 1; intros m Hg; try discriminate; eauto;
    injection Hg as <-; eauto.
Qed.

(** An [Incomplete] result is returned at the schedule entry numbered 2,
    so the number of requests posted is its position plus one. *)
Lemma attempts_incomplete_index (todo : list (Z * (Q * Z))) (log : list payload)
    (t : pystr) :
  fst (loop todo log) = Incomplete t ->
  exists (n : nat) (x : Q * Z),
    todo !! n = Some (2, x)
    /\ length (snd (loop todo log)) = (length log + S n)%nat.
Proof.
  revert log. induction todo as [|[attempt [temperature num_predict]] rest IH];
    intros log H; [discriminate|].
  simpl in H |- *.
  set (p := make_payload OLLAMA_MODEL prompt temperature num_predict) in *.
  assert (Hretry : fst (loop rest (log ++ [p])) = Incomplete t ->
            exists (n : nat) (x : Q * Z),
              ((attempt, (temperature, num_predict)) :: rest) !! n = Some (2, x)
              /\ length (snd (loop rest (log ++ [p]))) = (length log + S n)%nat).
  { intros H'. destruct (IH _ H') as [n [x [Hn Hlen]]].
    exists (S n), x. split; [exact Hn|].
    rewrite Hlen, length_app. simpl. lia. }
  assert (Hhere : (attempt =? 2) = true ->
            exists (n : nat) (x : Q * Z),
              ((attempt, (temperature, num_predict)) :: rest) !! n = Some (2, x)
              /\ length (log ++ [p]) = (length log + S n)%nat).
  { intros Ha. apply Z.eqb_eq in Ha. subst attempt.
    exists 0%nat, (temperature, num_predict). split; [reflexivity|].
    rewrite length_app. simpl. lia. }
  destruct (svc log p) as [status body|e].
  - destruct (status =? 200).
    + destruct (acceptable _); [discriminate|].
      destruct (attempt =? 2); [apply Hhere; reflexivity | apply Hretry; exact H].
    + destruct (attempt =? 2); [discriminate | apply Hretry; exact H].
  - destruct (attempt =? 2); [discriminate | apply Hretry; exact H].
Qed.

End AttemptLoopFacts.

(** ** The two workers *)

Section WorkerFacts.
Variable OLLAMA_MODEL : pystr.
Variable create_code_generation_prompt : reqdict -> pystr.
Variable create_ui_generation_prompt : reqdict -> pystr.

Local Abbreviation code_worker :=
  (generate_code OLLAMA_MODEL create_code_generation_prompt).
Local Abbreviation ui_worker :=
  (generate_ui_code OLLAMA_MODEL create_ui_generation_prompt).

Lemma schedule_entry_two (n : nat) (x : Q * Z) :
  enumerate schedule !! n = Some (2, x) -> n = 2%nat.
Proof.
  destruct n as [|[|[|n]]]; simpl; intros H; try discriminate; reflexivity.
Qed.

Lemma generate_code_failed_nonempty (svc : service) (r : requirements)
    (log : list payload) (m : pystr) :
  fst (code_worker svc r log) = Failed m -> truthy m = true.
Proof.
  unfold generate_code. intros H.
  destruct (attempts_shape OLLAMA_MODEL svc format_python_code accept_backend
              (fun status => lit "Error generating code: HTTP " ++ lit (pretty status))
              (fun e => lit "Failed to generate code: " ++ e)
              (lit "Failed to generate code after multiple attempts")
              (create_code_generation_prompt (specs_of r))
              (enumerate schedule) log) as [ps [_ [_ Hshape]]].
  destruct (shape_failed_message _ _ _ _ _ _ _ _ _ Hshape m H)
    as [-> | [[status ->] | [e ->]]]; reflexivity.
Qed.

Lemma generate_ui_code_failed_nonempty (svc : service) (r : requirements)
    (log : list payload) (m : pystr) :
  fst (ui_worker svc r log) = Failed m -> truthy m = true.
Proof.
  unfold generate_ui_code. intros H.
  destruct (attempts_shape OLLAMA_MODEL svc format_ui_code accept_ui
              (fun status => lit "Error generating UI code: HTTP " ++ lit (pretty status))
              (fun e => lit "Failed to generate UI code: " ++ e)
              (lit "Failed to generate UI code after multiple attempts")
              (create_ui_generation_prompt (specs_of r))
              (enumerate schedule) log) as [ps [_ [_ Hshape]]].
  destruct (shape_failed_message _ _ _ _ _ _ _ _ _ Hshape m H)
    as [-> | [[status ->] | [e ->]]]; reflexivity.
Qed.

(** C7. Whatever the completion service answers, a worker call posts at
    most 3 requests, and when the answer to one of them passes the
    acceptance check the call returns the text extracted from that answer
    and that request is the last one posted.  This holds for the backend
    worker and for the UI worker. *)
Theorem worker_posts_at_most_three_and_stops_at_first_accept
    (svc : service) (r : requirements) (log : list payload) :
  (exists ps,
     snd (code_worker svc r log) = log ++ ps
     /\ (length ps <= 3)%nat
     /\ forall k rsp t,
          reply svc log ps k = Some rsp ->
          extracted format_python_code rsp = Some t ->
          accept_backend t = true ->
          fst (code_worker svc r log) = Success t /\ length ps = S k)
  /\
  (exists ps,
     snd (ui_worker svc r log) = log ++ ps
     /\ (length ps <= 3)%nat
     /\ forall k rsp t,
          reply svc log ps k = Some rsp ->
          extracted format_ui_code rsp = Some t ->
          accept_ui t = true ->
          fst (ui_worker svc r log) = Success t /\ length ps = S k).
Proof.
  split.
  - unfold generate_code.
    destruct (attempts_shape OLLAMA_MODEL svc format_python_code accept_backend
                (fun status => lit "Error generating code: HTTP " ++ lit (pretty status))
                (fun e => lit "Failed to generate code: " ++ e)
                (lit "Failed to generate code after multiple attempts")
                (create_code_generation_prompt (specs_of r))
                (enumerate schedule) log) as [ps [Hlog [Hlen Hshape]]].
    exists ps. repeat split; [exact Hlog | exact Hlen | |];
      eapply shape_first_accept; eauto.
  - unfold generate_ui_code.
    destruct (attempts_shape OLLAMA_MODEL svc format_ui_code accept_ui
                (fun status => lit "Error generating UI code: HTTP " ++ lit (pretty status))
                (fun e => lit "Failed to generate UI code: " ++ e)
                (lit "Failed to generate UI code after multiple attempts")
                (create_ui_generation_prompt (specs_of r))
                (enumerate schedule) log) as [ps [Hlog [Hlen Hshape]]].
    exists ps. repeat split; [exact Hlog | exact Hlen | |];
      eapply shape_first_accept; eauto.
Qed.

(** C8. An answer is accepted exactly when it came back with status 200
    and the text extracted from it is longer than 100 characters and
    contains "import" together with "def" (backend worker), or together
    with "function" or "const" (UI worker). *)
Theorem acceptance_heuristic_characterised (rsp : response) :
  (accepted format_python_code accept_backend rsp = true <->
     exists t, extracted format_python_code rsp = Some t
       /\ 100 < len t
       /\ occurs_in (lit "import") t
       /\ occurs_in (lit "def") t)
  /\
  (accepted format_ui_code accept_ui rsp = true <->
     exists t, extracted format_ui_code rsp = Some t
       /\ 100 < len t
       /\ occurs_in (lit "import") t
       /\ (occurs_in (lit "function") t \/ occurs_in (lit "const") t)).
Proof.
  split; unfold accepted.
  - destruct (extracted format_python_code rsp) as [t|].
    + unfold accept_backend.
      rewrite !andb_true_iff, Z.ltb_lt, !contains_spec. split.
      * intros [[H1 H2] H3]. exists t. auto.
      * intros [t' [Ht [H1 [H2 H3]]]]. injection Ht as <-. auto.
    + split; [discriminate | intros [t [Ht _]]; discriminate].
  - destruct (extracted format_ui_code rsp) as [t|].
    + unfold accept_ui.
      rewrite !andb_true_iff, orb_true_iff, Z.ltb_lt, !contains_spec. split.
      * intros [[H1 H2] H3]. exists t. auto.
      * intros [t' [Ht [H1 [H2 H3]]]]. injection Ht as <-. auto.
    + split; [discriminate | intros [t [Ht _]]; discriminate].
Qed.

(** C4, as the code has it.  The backend worker returns [Incomplete t] only
    when it posted all 3 requests, the third came back with status 200 and
    [t] is the text extracted from it, that text failed the acceptance
    check, and no earlier answer was accepted.  An earlier answer may have
    failed the check or may have been a transport error. *)
Theorem incomplete_is_unaccepted_third_attempt
    (svc : service) (r : requirements) (log : list payload) (t : pystr) :
  fst (code_worker svc r log) = Incomplete t ->
  exists ps body,
    snd (code_worker svc r log) = log ++ ps
    /\ length ps = 3%nat
    /\ reply svc log ps 2 = Some (Responded 200 body)
    /\ t = format_python_code (strip body)
    /\ accept_backend t = false
    /\ forall k rsp, reply svc log ps k = Some rsp ->
         accepted format_python_code accept_backend rsp = false.
Proof.
  unfold generate_code. intros H.
  destruct (attempts_shape OLLAMA_MODEL svc format_python_code accept_backend
              (fun status => lit "Error generating code: HTTP " ++ lit (pretty status))
              (fun e => lit "Failed to generate code: " ++ e)
              (lit "Failed to generate code after multiple attempts")
              (create_code_generation_prompt (specs_of r))
              (enumerate schedule) log) as [ps [Hlog [Hlen Hshape]]].
  destruct (attempts_incomplete_index _ _ _ _ _ _ _ _ _ _ _ H) as [n [x [Hn Hposts]]].
  apply schedule_entry_two in Hn. subst n.
  rewrite Hlog, length_app in Hposts.
  destruct (shape_incomplete_last _ _ _ _ _ _ _ _ _ Hshape t H)
    as [m [body [Hm [Hrep [Ht [Hacc Hall]]]]]].
  assert (m = 2%nat) by lia. subst m.
  exists ps, body. repeat split; auto.
Qed.

End WorkerFacts.

(** A call in which every answer is the same short text: the witness of
    [incomplete_is_unaccepted_third_attempt]. *)
Lemma incomplete_is_unaccepted_third_attempt_witness :
  exists ps body,
    snd (generate_code model_name some_prompt svc_short (ReqDict []) []) = [] ++ ps
    /\ length ps = 3%nat
    /\ reply svc_short [] ps 2 = Some (Responded 200 body)
    /\ lit "pass" = format_python_code (strip body)
    /\ accept_backend (lit "pass") = false
    /\ forall k rsp, reply svc_short [] ps k = Some rsp ->
         accepted format_python_code accept_backend rsp = false.
Proof.
  apply (incomplete_is_unaccepted_third_attempt
           model_name some_prompt svc_short (ReqDict []) [] (lit "pass")).
  reflexivity.
Defined.

(** C4, as stated, fails: the completion service is unreachable for the
    first two attempts and answers the third with a short text.  The
    worker returns [Incomplete] although two attempts ended in a transport
    error. *)
Lemma incomplete_after_transport_errors :
  let run := generate_code model_name some_prompt svc_recovers (ReqDict []) [] in
  fst run = Incomplete (lit "pass")
  /\ reply svc_recovers [] (snd run) 0 = Some (Raised (lit "connection refused"))
  /\ reply svc_recovers [] (snd run) 1 = Some (Raised (lit "connection refused"))
  /\ transport_error (Raised (lit "connection refused")) = true.
Proof. vm_compute. auto. Qed.


(** ** The machine *)

Section MachineFacts.

Lemma try_except_total {A} (m : M A) (handler : pystr -> M A) (w : world) :
  (forall e w0, exists a w1, handler e w0 = (Val a, w1)) ->
  exists a w', try_except m handler w = (Val a, w').
Proof.
  intros Hh. unfold try_except. destruct (m w) as [[a|e] w0]; eauto.
Qed.

Lemma bind_val {A B} (m : M A) (k : A -> M B) (w w' : world) (a : A) :
  m w = (Val a, w') -> bind m k w = k a w'.
Proof. intros H. unfold bind. rewrite H. reflexivity. Qed.

Lemma string_app_assoc (a b c : string) : (a +:+ b) +:+ c = a +:+ (b +:+ c).
Proof.
  induction a as [|x a IH]; [reflexivity|].
  change (String x ((a +:+ b) +:+ c) = String x (a +:+ (b +:+ c))).
  rewrite IH. reflexivity.
Qed.

Lemma string_app_cancel (a x y : string) : a +:+ x = a +:+ y -> x = y.
Proof. apply (inj (String.app a)). Qed.

End MachineFacts.

(** Two paths below a common directory differ when their remainders do. *)
Ltac paths_differ :=
  unfold path_join; simpl;
  repeat match goal with
         | |- context [if ?c then _ else _] => destruct c
         end;
  rewrite ?string_app_assoc;
  let H := fresh in
  intros H; repeat (apply string_app_cancel in H); cbv in H; discriminate H.

(** ** The project assembler *)

Section IntegratorFacts.
Variable pf : platform.
Variable sc : scaffold.

Lemma integrate_project_cases (backend_code ui_code : pystr)
    (requirements : option reqdict) (w : world) :
  (backend_code <> [] /\ ui_code <> []
   /\ Forall (fun p => os_fault pf p = None) (project_paths pf)
   /\ integrate_project pf sc backend_code ui_code requirements w
      = (Val (Some (new_project_dir pf)), assembled pf sc backend_code ui_code w))
  \/
  ((backend_code = [] \/ ui_code = []
    \/ Exists (fun p => os_fault pf p <> None) (project_paths pf))
   /\ exists w', integrate_project pf sc backend_code ui_code requirements w
                 = (Val None, w')).
Proof.
  unfold integrate_project.
  destruct backend_code as [|b0 bs]; [right; split; eauto|].
  destruct ui_code as [|u0 us]; [right; split; eauto|].
  cbn [truthy negb orb].
  unfold try_except, bind, makedirs, write_file, project_paths.
  fold (new_project_dir pf).
  set (d := new_project_dir pf).
  repeat match goal with
  | |- context [os_fault pf ?p] =>
      let E := fresh "E" in
      destruct (os_fault pf p) eqn:E;
      [ right; split;
        [ right; right; rewrite Exists_exists; eexists; split;
          [| rewrite E; discriminate]; set_solver
        | eexists; reflexivity ]
      | ]
  end.
  left. repeat split; try discriminate.
  - repeat constructor; assumption.
Qed.

Lemma manifest_lines_requirements (c1 c2 c3 c4 c5 : bool) :
  manifest_lines
    (baseline_requirements
     ++ write_if c1 (line "pandas>=2.0.0")
     ++ write_if c2 (line "numpy>=1.24.0")
     ++ write_if c3 (line "scikit-learn>=1.3.0")
     ++ write_if c4 (line "matplotlib>=3.7.0")
     ++ write_if c5 (line "requests>=2.31.0"))
  = baseline_lines
    ++ (if c1 then [line "pandas>=2.0.0"] else [])
    ++ (if c2 then [line "numpy>=1.24.0"] else [])
    ++ (if c3 then [line "scikit-learn>=1.3.0"] else [])
    ++ (if c4 then [line "matplotlib>=3.7.0"] else [])
    ++ (if c5 then [line "requests>=2.31.0"] else []).
Proof. destruct c1, c2, c3, c4, c5; vm_compute; reflexivity. Qed.

Lemma assembled_manifest (backend_code ui_code : pystr) (w : world) :
  w_files (assembled pf sc backend_code ui_code w)
    !! path_join (path_join (new_project_dir pf) "backend") "requirements.txt"
  = Some (requirements_txt backend_code).
Proof.
  unfold assembled. cbn [w_files].
  generalize (new_project_dir pf). intros d.
  rewrite !lookup_insert_ne by paths_differ.
  apply lookup_insert_eq.
Qed.

(** C3, as the code has it.  [integrate_project] never raises.  It hands
    back a project directory exactly when the backend text and the UI text
    are both non-empty and the operating system refuses none of the
    directories and files it creates; the world is then the assembled
    layout.  In every other case it hands back [None]. *)
Theorem integrate_project_returns_layout_iff (backend_code ui_code : pystr)
    (requirements : option reqdict) (w : world) :
  exists r w',
    integrate_project pf sc backend_code ui_code requirements w = (Val r, w')
    /\ (is_Some r <->
          backend_code <> [] /\ ui_code <> []
          /\ Forall (fun p => os_fault pf p = None) (project_paths pf))
    /\ (is_Some r ->
          r = Some (new_project_dir pf)
          /\ w' = assembled pf sc backend_code ui_code w).
Proof.
  destruct (integrate_project_cases backend_code ui_code requirements w)
    as [[Hb [Hu [Hok ->]]] | [Hbad [w' ->]]].
  - eexists _, _. split; [reflexivity|]. split; [|auto]. split; eauto.
  - exists None, w'. split; [reflexivity|]. split.
    + split; [intros [x Hx]; discriminate|].
      intros [Hb [Hu Hok]]. exfalso.
      destruct Hbad as [-> | [-> | Hex]]; [congruence | congruence |].
      rewrite Exists_exists in Hex. destruct Hex as [p [Hin Hp]].
      rewrite Forall_forall in Hok. apply Hp, Hok, Hin.
    + intros [x Hx]; discriminate.
Qed.

(** C9. Whenever assembly produces a project, its
    [backend/requirements.txt] holds the five baseline requirement lines,
    and the pinned line of every known library whose name occurs in the
    backend text up to letter case: pandas, numpy, scikit-learn (also as
    sklearn), matplotlib (also as pyplot), requests. *)
Theorem backend_manifest_has_baseline_and_detected_libraries
    (backend_code ui_code : pystr) (requirements : option reqdict)
    (w w' : world) (dir : string) :
  integrate_project pf sc backend_code ui_code requirements w = (Val (Some dir), w') ->
  exists manifest,
    w_files w' !! path_join (path_join dir "backend") "requirements.txt"
      = Some manifest
    /\ (forall l, In l baseline_lines -> In l (manifest_lines manifest))
    /\ (occurs_ci (lit "pandas") backend_code ->
        In (line "pandas>=2.0.0") (manifest_lines manifest))
    /\ (occurs_ci (lit "numpy") backend_code ->
        In (line "numpy>=1.24.0") (manifest_lines manifest))
    /\ (occurs_ci (lit "scikit-learn") backend_code
        \/ occurs_ci (lit "sklearn") backend_code ->
        In (line "scikit-learn>=1.3.0") (manifest_lines manifest))
    /\ (occurs_ci (lit "matplotlib") backend_code
        \/ occurs_ci (lit "pyplot") backend_code ->
        In (line "matplotlib>=3.7.0") (manifest_lines manifest))
    /\ (occurs_ci (lit "requests") backend_code ->
        In (line "requests>=2.31.0") (manifest_lines manifest)).
Proof.
  intros Hrun.
  destruct (integrate_project_cases backend_code ui_code requirements w)
    as [[Hb [Hu [Hok Heq]]] | [Hbad [w0 Heq]]];
    rewrite Heq in Hrun; [|discriminate].
  injection Hrun as <- <-.
  exists (requirements_txt backend_code).
  split; [apply assembled_manifest|].
  unfold requirements_txt. rewrite manifest_lines_requirements.
  rewrite <- !contains_lower_spec.
  repeat split.
  - intros l Hl. apply in_or_app. left. exact Hl.
  - intros ->. rewrite !in_app_iff. simpl. auto.
  - intros ->. rewrite !in_app_iff. simpl. auto 6.
  - intros H. apply orb_true_iff in H. rewrite H.
    rewrite !in_app_iff. simpl. auto 7.
  - intros H. apply orb_true_iff in H. rewrite H.
    rewrite !in_app_iff. simpl. auto 8.
  - intros ->. rewrite !in_app_iff. simpl. auto 9.
Qed.

End IntegratorFacts.

(** Assembling a backend that imports pandas and a one-line UI: the
    witness of [backend_manifest_has_baseline_and_detected_libraries]. *)
Lemma backend_manifest_has_baseline_and_detected_libraries_witness :
  exists manifest,
    w_files (assembled pf_ok sc0 (lit "import Pandas") (lit "const App") empty_world)
      !! path_join (path_join "/work/generated_project_f50b64a8" "backend")
           "requirements.txt"
      = Some manifest
    /\ (forall l, In l baseline_lines -> In l (manifest_lines manifest))
    /\ (occurs_ci (lit "pandas") (lit "import Pandas") ->
        In (line "pandas>=2.0.0") (manifest_lines manifest))
    /\ (occurs_ci (lit "numpy") (lit "import Pandas") ->
        In (line "numpy>=1.24.0") (manifest_lines manifest))
    /\ (occurs_ci (lit "scikit-learn") (lit "import Pandas")
        \/ occurs_ci (lit "sklearn") (lit "import Pandas") ->
        In (line "scikit-learn>=1.3.0") (manifest_lines manifest))
    /\ (occurs_ci (lit "matplotlib") (lit "import Pandas")
        \/ occurs_ci (lit "pyplot") (lit "import Pandas") ->
        In (line "matplotlib>=3.7.0") (manifest_lines manifest))
    /\ (occurs_ci (lit "requests") (lit "import Pandas") ->
        In (line "requests>=2.31.0") (manifest_lines manifest)).
Proof.
  apply (backend_manifest_has_baseline_and_detected_libraries pf_ok sc0
           (lit "import Pandas") (lit "const App") None empty_world).
  reflexivity.
Defined.

(** C3, as stated, fails: with an empty UI text, which is what the
    coordinator passes when no UI was generated, [integrate_project]
    answers [None] and creates nothing. *)
Lemma integrate_project_none_without_ui :
  integrate_project pf_ok sc0 (lit "import fastapi") [] None empty_world
  = (Val None, empty_world).
Proof. reflexivity. Qed.


(** Case analysis along [deploy_project]. *)
Ltac deploy_step pf :=
  match goal with
  | |- context [(?l ++ [?x]) !! length ?l] =>
      rewrite (list_lookup_middle l [] x (length l) eq_refl); simpl
  | |- context [negb (bool_decide ?a || bool_decide ?b)] =>
      destruct (bool_decide a || bool_decide b) eqn:?; simpl
  | |- context [if (bool_decide ?a || bool_decide ?b) then _ else _] =>
      destruct (bool_decide a || bool_decide b) eqn:?; simpl
  | |- context [os_fault pf ?p] => destruct (os_fault pf p) eqn:?; simpl
  | |- context [os_launch pf ?c ?d] => destruct (os_launch pf c d) eqn:?; simpl
  end.

Ltac started_is Hlen :=
  unfold started_since; simpl; rewrite <- ?app_assoc; simpl;
  rewrite <- Hlen; first [apply drop_all | apply drop_app_length].

Ltac handle_is Hlen :=
  simpl; rewrite ?length_app; simpl; rewrite ?Hlen; f_equal; lia.

(** ** The process supervisor *)

Section DeployerFacts.
Variable pf : platform.
Variable sc : scaffold.

Lemma kill_listeners_stopped (port : Z) (p : process) :
  is_running p = false -> is_running (kill_listeners port p) = false.
Proof. unfold kill_listeners. intros H. rewrite H. simpl. exact H. Qed.

Lemma kill_listeners_port (port : Z) (p : process) :
  pr_port (kill_listeners port p) = pr_port p.
Proof. unfold kill_listeners. destruct (_ && _); reflexivity. Qed.

Lemma kill_listeners_frees (port : Z) (p : process) :
  pr_port p = port -> is_running (kill_listeners port p) = false.
Proof.
  unfold kill_listeners. intros <-. rewrite Z.eqb_refl, andb_true_r.
  destruct (is_running p) eqn:E; [reflexivity | exact E].
Qed.

Lemma both_ports_freed (l : list process) (p : process) :
  In p (map (kill_listeners 3000) (map (kill_listeners 8000) l)) ->
  pr_port p = 8000 \/ pr_port p = 3000 -> is_running p = false.
Proof.
  rewrite map_map, in_map_iff. intros [q [<- _]] Hport.
  rewrite !kill_listeners_port in Hport. destruct Hport as [H|H].
  - apply kill_listeners_stopped, kill_listeners_frees, H.
  - apply kill_listeners_frees. rewrite kill_listeners_port. exact H.
Qed.

(** [_stop_current_services] never raises; it leaves files and
    directories alone, keeps the process table's length, clears both
    handles and leaves nothing running on the two service ports. *)
Lemma stop_spec (w : world) :
  exists w1,
    _stop_current_services w = (Val tt, w1)
    /\ w_dirs w1 = w_dirs w
    /\ w_files w1 = w_files w
    /\ length (w_procs w1) = length (w_procs w)
    /\ backend_proc w1 = None
    /\ frontend_proc w1 = None
    /\ ports_free w1.
Proof.
  unfold _stop_current_services, try_except, bind, gets, terminate_wait_kill,
    modify, ret.
  simpl.
  destruct (backend_proc w) as [bp|] eqn:Eb;
    destruct (frontend_proc w) as [fp|] eqn:Ef; simpl;
    rewrite ?Eb, ?Ef; simpl;
    (eexists; split; [reflexivity|]); simpl;
    rewrite ?length_map, ?length_alter;
    repeat split; auto;
    intros p Hp; simpl in Hp; revert Hp; apply both_ports_freed.
Qed.

(** Every way [deploy_project] can end, with the processes it started. *)
Lemma deploy_project_shape (dir : string) (w : world) :
  let n := length (w_procs w) in
  let backend_dir := path_join dir "backend" in
  let frontend_dir := path_join dir "frontend" in
  exists r w',
    deploy_project pf sc dir w = (Val r, w')
    /\ w_dirs w' = w_dirs w
    /\ ((exists msg, r = DeployError msg /\ started_since w w' = [])
        \/ (exists msg err,
              os_launch pf backend_cmd backend_dir = ExitsEarly err
              /\ r = DeployError msg
              /\ started_since w w' = [exited_process backend_cmd backend_dir 8000 err]
              /\ backend_proc w' = Some n)
        \/ (exists msg s e,
              os_launch pf backend_cmd backend_dir = StaysUp s
              /\ os_launch pf frontend_cmd frontend_dir = CannotStart e
              /\ r = DeployError msg
              /\ started_since w w' = [running_process backend_cmd backend_dir 8000 s]
              /\ backend_proc w' = Some n)
        \/ (exists msg s err,
              os_launch pf backend_cmd backend_dir = StaysUp s
              /\ os_launch pf frontend_cmd frontend_dir = ExitsEarly err
              /\ r = DeployError msg
              /\ started_since w w' =
                   [running_process backend_cmd backend_dir 8000 s;
                    exited_process frontend_cmd frontend_dir 3000 err]
              /\ backend_proc w' = Some n
              /\ frontend_proc w' = Some (S n))
        \/ (exists s s',
              os_launch pf backend_cmd backend_dir = StaysUp s
              /\ os_launch pf frontend_cmd frontend_dir = StaysUp s'
              /\ r = DeploySuccess "http://localhost:8000" "http://localhost:3000" dir
              /\ path_exists frontend_dir w = (Val true, w)
              /\ started_since w w' =
                   [running_process backend_cmd backend_dir 8000 s;
                    running_process frontend_cmd frontend_dir 3000 s']
              /\ backend_proc w' = Some n
              /\ frontend_proc w' = Some (S n))).
Proof.
  intros n backend_dir frontend_dir.
  unfold deploy_project.
  unfold bind at 1. unfold path_exists at 1. unfold gets at 1.
  destruct (negb _) eqn:Hdir.
  { eexists _, _. split; [reflexivity|]. split; [reflexivity|]. left.
    eexists. split; [reflexivity|]. unfold started_since. apply drop_all. }
  destruct (stop_spec w) as [w1 [Hstop [Hdirs [Hfiles [Hlen [Hbp [Hfp Hfree]]]]]]].
  unfold try_except, bind. rewrite Hstop.
  fold backend_dir frontend_dir.
  unfold path_exists, gets, write_file, popen, has_exited, read_stderr, modify, ret, raise, bind.
  simpl.
  repeat deploy_step pf.
  all: eexists _, _; (split; [reflexivity|]); simpl; (split; [exact Hdirs|]).
  all: try (left; eexists; split; [reflexivity|]; started_is Hlen).
  all: try (right; left; eexists _, _; split; [reflexivity|]; split; [reflexivity|];
            split; [started_is Hlen | handle_is Hlen]).
  all: try (right; right; left; eexists _, _, _; split; [reflexivity|];
            split; [reflexivity|]; split; [reflexivity|];
            split; [started_is Hlen | handle_is Hlen]).
  all: try (right; right; right; left; eexists _, _, _; split; [reflexivity|];
            split; [reflexivity|]; split; [reflexivity|];
            split; [started_is Hlen | split; handle_is Hlen]).
  all: right; right; right; right; eexists _, _;
    (split; [reflexivity|]); (split; [reflexivity|]); (split; [reflexivity|]);
    split; [unfold path_exists, gets; rewrite <- Hdirs, <- Hfiles, Heqb0; reflexivity|];
    split; [started_is Hlen | split; handle_is Hlen].
Qed.



(** C6, as the code has it.  A successful [deploy_project] found the
    frontend directory in place, started the backend server and then the
    frontend server, both of which stayed up, keeps both handles, and
    reports both endpoints.  Whether the frontend directory holds an
    artifact is not looked at. *)
Theorem deploy_success_runs_both_services
    (dir : string) (w w' : world) (b f d : string) :
  deploy_project pf sc dir w = (Val (DeploySuccess b f d), w') ->
  let n := length (w_procs w) in
  b = "http://localhost:8000"%string
  /\ f = "http://localhost:3000"%string
  /\ d = dir
  /\ path_exists (path_join dir "frontend") w = (Val true, w)
  /\ (exists s s',
        started_since w w' =
          [running_process backend_cmd (path_join dir "backend") 8000 s;
           running_process frontend_cmd (path_join dir "frontend") 3000 s'])
  /\ backend_proc w' = Some n
  /\ frontend_proc w' = Some (S n).
Proof.
  intros Hrun n.
  destruct (deploy_project_shape dir w)
    as [r [w0 [Heq [_ Hshape]]]].
  rewrite Hrun in Heq. injection Heq as <- <-.
  destruct Hshape as [[m [Hr _]] | [[m [err [_ [Hr _]]]] | [[m [s0 [e [_ [_ [Hr _]]]]]]
    | [[m [s0 [err [_ [_ [Hr _]]]]]] | [s0 [s1 [_ [_ [Hr [Hf [Hst [Hb Hfp]]]]]]]]]]]];
    try discriminate.
  injection Hr as -> -> ->. repeat split; eauto.
Qed.

End DeployerFacts.



(** Deploying a project whose frontend directory is empty: the witness of
    [deploy_success_runs_both_services]. *)
Lemma deploy_success_runs_both_services_witness :
  let w := empty_frontend_world in
  let w' := snd (deploy_project pf_ok sc0 "/work/p" w) in
  let n := length (w_procs w) in
  "http://localhost:8000"%string = "http://localhost:8000"%string
  /\ "http://localhost:3000"%string = "http://localhost:3000"%string
  /\ "/work/p"%string = "/work/p"%string
  /\ path_exists (path_join "/work/p" "frontend") w = (Val true, w)
  /\ (exists s s',
        started_since w w' =
          [running_process backend_cmd (path_join "/work/p" "backend") 8000 s;
           running_process frontend_cmd (path_join "/work/p" "frontend") 3000 s'])
  /\ backend_proc w' = Some n
  /\ frontend_proc w' = Some (S n).
Proof.
  apply (deploy_success_runs_both_services pf_ok sc0 "/work/p"
           empty_frontend_world
           (snd (deploy_project pf_ok sc0 "/work/p" empty_frontend_world))).
  reflexivity.
Defined.

(** C6, as stated, fails on both counts.  A layout with a backend artifact
    only is answered with an error and nothing is started; and with a
    frontend directory that holds no artifact the frontend server is
    started all the same. *)
Lemma deploy_backend_only_is_refused :
  let refused := deploy_project pf_ok sc0 "/work/p" backend_only_world in
  let served := deploy_project pf_ok sc0 "/work/p" empty_frontend_world in
  fst refused = Val (DeployError
                       (lit "Frontend directory not found: /work/p/frontend"))
  /\ w_procs (snd refused) = []
  /\ w_files empty_frontend_world !! "/work/p/frontend/App.jsx"%string = None
  /\ fst served = Val (DeploySuccess "http://localhost:8000"
                         "http://localhost:3000" "/work/p")
  /\ map pr_cmd (w_procs (snd served)) = [backend_cmd; frontend_cmd].
Proof. vm_compute. auto. Qed.


(** ** The coordinator *)

Section PipelineFacts.
Variable pf : platform.
Variable sc : scaffold.
Variable OLLAMA_MODEL : pystr.
Variable create_code_generation_prompt : reqdict -> pystr.
Variable create_ui_generation_prompt : reqdict -> pystr.
Variable svc_code svc_ui : service.

Local Abbreviation stage := (integrate_and_deploy pf sc).
Local Abbreviation run :=
  (run_standalone pf sc OLLAMA_MODEL create_code_generation_prompt
     create_ui_generation_prompt svc_code svc_ui).

Lemma new_project_dir_nonempty : String.eqb (new_project_dir pf) "" = false.
Proof.
  unfold new_project_dir, path_join. cbn.
  destruct (_ || _)%bool; destruct (os_cwd pf); reflexivity.
Qed.

Lemma assembled_has_project_dir (backend_code ui_code : pystr) (w : world) :
  path_exists (new_project_dir pf) (assembled pf sc backend_code ui_code w)
  = (Val true, assembled pf sc backend_code ui_code w).
Proof.
  unfold path_exists, gets. f_equal. f_equal.
  apply orb_true_iff. left. apply bool_decide_eq_true_2.
  unfold assembled. cbn [w_dirs]. set_solver.
Qed.

(** The three ways the integrate-and-deploy step can go. *)
Lemma integrate_and_deploy_cases (req_json : reqdict) (code : pystr)
    (ui : option pystr) (needs : bool) (w : world) :
  let go := truthy code && (negb needs || truthy_opt ui) in
  let call := CallIntegrator code (or_empty ui) in
  (go = false /\ stage req_json code ui needs w = (Val (None, [], None), w))
  \/ (go = true /\ exists w',
        stage req_json code ui needs w = (Val (None, [call], None), w'))
  \/ (go = true /\ exists r w',
        stage req_json code ui needs w
        = (Val (Some (new_project_dir pf),
                [call; CallDeployer (new_project_dir pf)], Some r), w')
        /\ deploy_project pf sc (new_project_dir pf)
             (assembled pf sc code (or_empty ui) w) = (Val r, w')).
Proof.
  intros go call. unfold integrate_and_deploy. fold go.
  destruct go; [|left; auto]. right.
  destruct (integrate_project_cases pf sc code (or_empty ui) (Some req_json) w)
    as [[_ [_ [_ Hi]]] | [_ [w' Hi]]].
  - right. split; [reflexivity|].
    destruct (deploy_project_shape pf sc (new_project_dir pf)
                (assembled pf sc code (or_empty ui) w)) as [r [w' [Hd _]]].
    exists r, w'. split; [|exact Hd].
    rewrite (bind_val _ _ _ _ _ Hi).
    rewrite new_project_dir_nonempty. cbn [negb].
    rewrite (bind_val _ _ _ _ _ (assembled_has_project_dir _ _ _)).
    rewrite (bind_val _ _ _ _ _ Hd). reflexivity.
  - left. split; [reflexivity|]. exists w'.
    rewrite (bind_val _ _ _ _ _ Hi). reflexivity.
Qed.

(** Given the outcome of the requirements analysis, [run_standalone]
    finishes, with the fields of its result and trace as follows. *)
Lemma run_standalone_finished (text : option pystr) (json : reqdict) (w : world) :
  let needs := _check_if_ui_needed_standalone json text in
  let code_gen :=
    fst (generate_code OLLAMA_MODEL create_code_generation_prompt
           svc_code (ReqDict json) []) in
  let ui_gen :=
    if needs
    then Some (fst (generate_ui_code OLLAMA_MODEL create_ui_generation_prompt
                      svc_ui (ReqDict json) []))
    else None in
  let w0 := set_frontend_proc None (set_backend_proc None w) in
  exists pd calls dep w',
    stage json (returned code_gen) (option_map returned ui_gen) needs w0
    = (Val (pd, calls, dep), w')
    /\ run (Val (text, json)) w
       = (Finished
            {| requirements_text := text;
               requirements_json := json;
               generated_code := returned code_gen;
               generated_ui := option_map returned ui_gen;
               needs_ui := needs;
               project_dir := pd;
               backend_url := "http://localhost:8000";
               frontend_url := "http://localhost:3000" |}
            {| backend_generation := code_gen;
               ui_generation := ui_gen;
               stage_calls := calls;
               deployment := dep |}, w').
Proof.
  intros needs code_gen ui_gen w0.
  destruct (integrate_and_deploy_cases json (returned code_gen)
              (option_map returned ui_gen) needs w0)
    as [[_ Hs] | [[_ [w' Hs]] | [_ [r [w' [Hs _]]]]]];
    eexists _, _, _, _; (split; [exact Hs|]);
    unfold run_standalone;
    fold needs; fold code_gen; fold ui_gen;
    unfold bind, new_deployer, modify; fold w0;
    rewrite Hs; reflexivity.
Qed.

(** C1, as the code has it.  When the backend worker left through one of
    its error returns, the text it returned is that non-empty message, and
    the coordinator goes on with it as if it were code: the integrator is
    called with it unless a UI is needed and the UI text is empty, and
    when the integrator hands back a project directory the deployer is
    called on it. *)
Theorem failed_backend_message_is_integrated
    (text : option pystr) (json : reqdict) (w w' : world)
    (r : run_result) (t : run_trace) (reason : pystr) :
  run (Val (text, json)) w = (Finished r t, w') ->
  backend_generation t = Failed reason ->
  generated_code r = reason
  /\ reason <> []
  /\ (stage_calls t = [] <->
        needs_ui r = true /\ truthy_opt (generated_ui r) = false)
  /\ (forall c, stage_calls t !! 0%nat = Some c ->
        c = CallIntegrator reason (or_empty (generated_ui r)))
  /\ (forall dir, project_dir r = Some dir ->
        stage_calls t
        = [CallIntegrator reason (or_empty (generated_ui r)); CallDeployer dir]
        /\ is_Some (deployment t)).
Proof.
  intros Hrun Hfailed.
  destruct (run_standalone_finished text json w)
    as [pd [calls [dep [w1 [Hstage Heq]]]]].
  rewrite Hrun in Heq. injection Heq as -> -> _.
  cbn [backend_generation generated_code generated_ui needs_ui project_dir
         stage_calls deployment] in Hfailed |- *.
  pose proof (generate_code_failed_nonempty _ _ _ _ _ _ Hfailed) as Hne.
  rewrite Hfailed in Hstage |- *. cbn [returned] in Hstage |- *.
  set (needs := _check_if_ui_needed_standalone json text) in *.
  set (ui := option_map returned _) in *.
  split; [reflexivity|]. split; [apply truthy_nonempty; exact Hne|].
  destruct (integrate_and_deploy_cases json reason ui needs
              (set_frontend_proc None (set_backend_proc None w)))
    as [[Hgo Hs] | [[Hgo [w2 Hs]] | [Hgo [d [w2 [Hs _]]]]]];
    rewrite Hs in Hstage; injection Hstage as <- <- <- _;
    rewrite Hne in Hgo; cbn [andb] in Hgo.
  - apply orb_false_iff in Hgo. destruct Hgo as [Hn Hu].
    apply negb_false_iff in Hn.
    repeat split; auto; try discriminate.
  - apply orb_true_iff in Hgo.
    split; [|split].
    + split; [discriminate|]. intros [Hn Hu]. rewrite Hn, Hu in Hgo.
      destruct Hgo; discriminate.
    + intros c Hc. injection Hc as <-. reflexivity.
    + intros dir Hd. discriminate.
  - apply orb_true_iff in Hgo.
    split; [|split].
    + split; [discriminate|]. intros [Hn Hu]. rewrite Hn, Hu in Hgo.
      destruct Hgo; discriminate.
    + intros c Hc. injection Hc as <-. reflexivity.
    + intros dir Hd. injection Hd as <-. split; [reflexivity | eauto].
Qed.

(** C2, as the code has it.  For [{"functionalities": ["chat interface"]}]
    the detector answers that a UI is needed, whatever the free text: the
    value contains the keyword "interface".  The run then asks the UI
    worker as well, and its result reports both the backend and the
    frontend endpoint. *)
Theorem chat_interface_requests_ui_and_both_endpoints
    (text : option pystr) (w : world) :
  _check_if_ui_needed_standalone chat_requirements text = true
  /\ _check_if_ui_needed chat_requirements text = true
  /\ exists r t w',
       run (Val (text, chat_requirements)) w = (Finished r t, w')
       /\ needs_ui r = true
       /\ ui_generation t
          = Some (fst (generate_ui_code OLLAMA_MODEL create_ui_generation_prompt
                         svc_ui (ReqDict chat_requirements) []))
       /\ backend_url r = "http://localhost:8000"%string
       /\ frontend_url r = "http://localhost:3000"%string.
Proof.
  split; [reflexivity|]. split; [reflexivity|].
  destruct (run_standalone_finished text chat_requirements w)
    as [pd [calls [dep [w1 [_ Heq]]]]].
  eexists _, _, _. split; [exact Heq|].
  repeat split.
Qed.

End PipelineFacts.

(** The completion service is unreachable for both workers and the
    requirements ask for a UI: the witness of
    [failed_backend_message_is_integrated]. *)
Lemma failed_backend_message_is_integrated_witness :
  exists r t w' reason,
    run_standalone pf_ok sc0 model_name some_prompt some_prompt
      svc_down svc_down (Val (None, ui_requirements)) empty_world
    = (Finished r t, w')
    /\ backend_generation t = Failed reason
    /\ generated_code r = reason
    /\ reason <> []
    /\ (stage_calls t = [] <->
          needs_ui r = true /\ truthy_opt (generated_ui r) = false)
    /\ (forall c, stage_calls t !! 0%nat = Some c ->
          c = CallIntegrator reason (or_empty (generated_ui r)))
    /\ (forall dir, project_dir r = Some dir ->
          stage_calls t
          = [CallIntegrator reason (or_empty (generated_ui r)); CallDeployer dir]
          /\ is_Some (deployment t)).
Proof.
  eexists _, _, _, _.
  split; [vm_compute; reflexivity|].
  split; [reflexivity|].
  eapply (failed_backend_message_is_integrated pf_ok sc0 model_name
            some_prompt some_prompt svc_down svc_down None ui_requirements
            empty_world).
  - vm_compute. reflexivity.
  - reflexivity.
Defined.

(** C1, as stated, fails: the completion service is unreachable on all
    three attempts of both workers, the backend result is [Failed], and
    the run still calls the integrator with the error message and hands
    the project to the deployer, which starts both servers. *)
Lemma failed_backend_run_reaches_deployer :
  let out :=
    run_standalone pf_ok sc0 model_name some_prompt some_prompt
      svc_down svc_down (Val (None, ui_requirements)) empty_world in
  exists r t,
    fst out = Finished r t
    /\ backend_generation t
       = Failed (lit "Failed to generate code: connection refused")
    /\ stage_calls t
       = [CallIntegrator (lit "Failed to generate code: connection refused")
            (lit "Failed to generate UI code: connection refused");
          CallDeployer "/work/generated_project_f50b64a8"]
    /\ deployment t
       = Some (DeploySuccess "http://localhost:8000" "http://localhost:3000"
                 "/work/generated_project_f50b64a8")
    /\ map pr_status (w_procs (snd out)) = [Running; Running].
Proof. vm_compute. eexists _, _. repeat split. Qed.

(** C2, as stated, fails: on [{"functionalities": ["chat interface"]}] the
    detector answers that a UI is needed, and a run with an accepted
    backend text asks the UI worker too and reports a frontend endpoint. *)
Lemma chat_interface_needs_ui :
  let out :=
    run_standalone pf_ok sc0 model_name some_prompt some_prompt
      svc_good svc_down (Val (None, chat_requirements)) empty_world in
  _check_if_ui_needed_standalone chat_requirements None = true
  /\ exists r t,
       fst out = Finished r t
       /\ backend_generation t = Success good_backend
       /\ needs_ui r = true
       /\ ui_generation t
          = Some (Failed (lit "Failed to generate UI code: connection refused"))
       /\ frontend_url r = "http://localhost:3000"%string.
Proof. vm_compute. split; [reflexivity|]. eexists _, _. repeat split. Qed.

(** * Further properties *)

(** ** Every way a worker call can end *)

Section ScheduleFacts.
Variable OLLAMA_MODEL : pystr.
Variable svc : service.
Variable format_generated_code : pystr -> pystr.
Variable acceptable : pystr -> bool.
Variable http_error_message : Z -> pystr.
Variable exception_message : pystr -> pystr.
Variable exhausted_message : pystr.
Variable prompt : pystr.

Local Abbreviation call :=
  (attempts OLLAMA_MODEL svc format_generated_code acceptable
     http_error_message exception_message exhausted_message prompt
     (enumerate schedule)).

(** A call over the three-entry schedule posts a prefix of the scheduled
    payloads.  It leaves with [Success] on the last request posted, or
    it posts all three and the third answer decides between [Incomplete]
    and [Failed]. *)
Lemma scheduled_call_outcome (log : list payload) :
  exists n,
    (1 <= n <= 3)%nat
    /\ snd (call log) = log ++ take n (schedule_payloads OLLAMA_MODEL prompt)
    /\ exists rsp,
         reply svc log (take n (schedule_payloads OLLAMA_MODEL prompt)) (n - 1)
           = Some rsp
         /\ match fst (call log) with
            | Success t =>
                extracted format_generated_code rsp = Some t
                /\ acceptable t = true
            | Incomplete t =>
                n = 3%nat
                /\ extracted format_generated_code rsp = Some t
                /\ acceptable t = false
            | Failed m =>
                n = 3%nat
                /\ failure_message http_error_message exception_message rsp
                   = Some m
            end.
Proof.
  assert (Hs : enumerate schedule
               = [(0, (0.1%Q, 2000)); (1, (0.2%Q, 2500)); (2, (0.05%Q, 3000))])
    by reflexivity.
  rewrite Hs. clear Hs.
  unfold schedule_payloads, schedule. cbn [map fst snd attempts].
  set (p0 := make_payload OLLAMA_MODEL prompt 0.1%Q 2000).
  set (p1 := make_payload OLLAMA_MODEL prompt 0.2%Q 2500).
  set (p2 := make_payload OLLAMA_MODEL prompt 0.05%Q 3000).
  change (0 =? 2) with false.
  change (1 =? 2) with false.
  change (2 =? 2) with true.
  cbv iota.
  assert (H0 : reply svc log [p0] 0 = Some (svc log p0))
    by (unfold reply; simpl; rewrite app_nil_r; reflexivity).
  assert (H1 : reply svc log [p0; p1] 1 = Some (svc (log ++ [p0]) p1))
    by reflexivity.
  assert (H2 : reply svc log [p0; p1; p2] 2
               = Some (svc ((log ++ [p0]) ++ [p1]) p2))
    by (unfold reply; simpl; rewrite <- app_assoc; reflexivity).
  assert (E1 : (log ++ [p0]) ++ [p1] = log ++ [p0; p1])
    by (rewrite <- app_assoc; reflexivity).
  assert (E2 : ((log ++ [p0]) ++ [p1]) ++ [p2] = log ++ [p0; p1; p2])
    by (rewrite <- !app_assoc; reflexivity).
  destruct (svc log p0) as [s0 b0|e0] eqn:R0;
    [destruct (s0 =? 200) eqn:S0;
       [destruct (acceptable (format_generated_code (strip b0))) eqn:A0|]|].
  1: { exists 1%nat. split; [lia|]. split; [reflexivity|].
       eexists. split; [exact H0|]. cbn. rewrite S0. auto. }
  all: destruct (svc (log ++ [p0]) p1) as [s1 b1|e1] eqn:R1;
    [destruct (s1 =? 200) eqn:S1;
       [destruct (acceptable (format_generated_code (strip b1))) eqn:A1|]|].
  all: try (exists 2%nat; split; [lia|]; split; [exact E1|];
            eexists; split; [exact H1|]; cbn; rewrite S1; auto; fail).
  all: destruct (svc ((log ++ [p0]) ++ [p1]) p2) as [s2 b2|e2] eqn:R2;
    [destruct (s2 =? 200) eqn:S2;
       [destruct (acceptable (format_generated_code (strip b2))) eqn:A2|]|].
  all: exists 3%nat; (split; [lia|]); (split; [exact E2|]);
    eexists; (split; [exact H2|]); cbn; rewrite ?S2; auto.
Qed.

End ScheduleFacts.

(** ** What the two workers hand back *)

Section WorkerResults.
Variable OLLAMA_MODEL : pystr.
Variable create_code_generation_prompt : reqdict -> pystr.
Variable create_ui_generation_prompt : reqdict -> pystr.

Local Abbreviation code_worker :=
  (generate_code OLLAMA_MODEL create_code_generation_prompt).
Local Abbreviation ui_worker :=
  (generate_ui_code OLLAMA_MODEL create_ui_generation_prompt).
Local Abbreviation code_http :=
  (fun status : Z => lit "Error generating code: HTTP " ++ lit (pretty status)).
Local Abbreviation code_exc :=
  (fun e : pystr => lit "Failed to generate code: " ++ e).
Local Abbreviation ui_http :=
  (fun status : Z => lit "Error generating UI code: HTTP " ++ lit (pretty status)).
Local Abbreviation ui_exc :=
  (fun e : pystr => lit "Failed to generate UI code: " ++ e).

(** X1. A text a worker returns as accepted passes the acceptance check:
    it is longer than 100 characters and contains "import", together with
    "def" for the backend worker, and with "function" or "const" for the UI
    worker. *)
Theorem success_text_passes_the_check
    (svc : service) (r : requirements) (log : list payload) (t : pystr) :
  (fst (code_worker svc r log) = Success t ->
     100 < len t /\ occurs_in (lit "import") t /\ occurs_in (lit "def") t)
  /\ (fst (ui_worker svc r log) = Success t ->
        100 < len t /\ occurs_in (lit "import") t
        /\ (occurs_in (lit "function") t \/ occurs_in (lit "const") t)).
Proof.
  split; intros H.
  - unfold generate_code in H.
    destruct (scheduled_call_outcome OLLAMA_MODEL svc format_python_code
                accept_backend code_http code_exc
                (lit "Failed to generate code after multiple attempts")
                (create_code_generation_prompt (specs_of r)) log)
      as [n [_ [_ [rsp [_ Hout]]]]].
    rewrite H in Hout. destruct Hout as [_ Hacc].
    unfold accept_backend in Hacc.
    rewrite !andb_true_iff, Z.ltb_lt, !contains_spec in Hacc. tauto.
  - unfold generate_ui_code in H.
    destruct (scheduled_call_outcome OLLAMA_MODEL svc format_ui_code
                accept_ui ui_http ui_exc
                (lit "Failed to generate UI code after multiple attempts")
                (create_ui_generation_prompt (specs_of r)) log)
      as [n [_ [_ [rsp [_ Hout]]]]].
    rewrite H in Hout. destruct Hout as [_ Hacc].
    unfold accept_ui in Hacc.
    rewrite !andb_true_iff, orb_true_iff, Z.ltb_lt, !contains_spec in Hacc. tauto.
Qed.

(** X2. The backend worker gives up only on its third request: when it
    returns an error message, it posted all three requests and the
    message is made from the third answer, "Failed to generate code: "
    followed by the exception text, or "Error generating code: HTTP "
    followed by the status.  The message after the loop, "Failed to
    generate code after multiple attempts", is never returned. *)
Theorem failed_reports_the_third_attempt
    (svc : service) (r : requirements) (log : list payload) (m : pystr) :
  fst (code_worker svc r log) = Failed m ->
  exists ps rsp,
    snd (code_worker svc r log) = log ++ ps
    /\ length ps = 3%nat
    /\ reply svc log ps 2 = Some rsp
    /\ transport_error rsp = true
    /\ failure_message code_http code_exc rsp = Some m
    /\ m <> lit "Failed to generate code after multiple attempts".
Proof.
  unfold generate_code. intros H.
  destruct (scheduled_call_outcome OLLAMA_MODEL svc format_python_code
              accept_backend code_http code_exc
              (lit "Failed to generate code after multiple attempts")
              (create_code_generation_prompt (specs_of r)) log)
    as [n [_ [Hlog [rsp [Hrep Hout]]]]].
  rewrite H in Hout. destruct Hout as [-> Hmsg].
  eexists _, rsp. split; [exact Hlog|].
  split; [reflexivity|]. split; [exact Hrep|].
  destruct rsp as [status body|e]; cbn in Hmsg |- *.
  - destruct (status =? 200); [discriminate|].
    injection Hmsg as <-. repeat split. discriminate.
  - injection Hmsg as <-. repeat split. discriminate.
Qed.

(** X3. A worker posts the scheduled payloads in order, (0.1, 2000), then
    (0.2, 2500), then (0.05, 3000), each with the same model and prompt
    and without streaming; it posts at least one and stops before the
    third only with an accepted text. *)
Theorem posts_follow_the_schedule
    (svc : service) (r : requirements) (log : list payload) :
  (exists n,
     (1 <= n <= 3)%nat
     /\ snd (code_worker svc r log)
        = log ++ take n (schedule_payloads OLLAMA_MODEL
                           (create_code_generation_prompt (specs_of r)))
     /\ ((n < 3)%nat -> exists t, fst (code_worker svc r log) = Success t))
  /\ (exists n,
        (1 <= n <= 3)%nat
        /\ snd (ui_worker svc r log)
           = log ++ take n (schedule_payloads OLLAMA_MODEL
                              (create_ui_generation_prompt (specs_of r)))
        /\ ((n < 3)%nat -> exists t, fst (ui_worker svc r log) = Success t)).
Proof.
  split.
  - unfold generate_code.
    destruct (scheduled_call_outcome OLLAMA_MODEL svc format_python_code
                accept_backend code_http code_exc
                (lit "Failed to generate code after multiple attempts")
                (create_code_generation_prompt (specs_of r)) log)
      as [n [Hn [Hlog [rsp [_ Hout]]]]].
    exists n. split; [exact Hn|]. split; [exact Hlog|]. intros Hlt.
    destruct (fst _) as [t|t|m]; [eauto | destruct Hout; lia | destruct Hout; lia].
  - unfold generate_ui_code.
    destruct (scheduled_call_outcome OLLAMA_MODEL svc format_ui_code
                accept_ui ui_http ui_exc
                (lit "Failed to generate UI code after multiple attempts")
                (create_ui_generation_prompt (specs_of r)) log)
      as [n [Hn [Hlog [rsp [_ Hout]]]]].
    exists n. split; [exact Hn|]. split; [exact Hlog|]. intros Hlt.
    destruct (fst _) as [t|t|m]; [eauto | destruct Hout; lia | destruct Hout; lia].
Qed.

End WorkerResults.

(** Both workers get an accepted text at once: the premises of
    [success_text_passes_the_check] at concrete calls. *)
Lemma success_text_passes_the_check_witness :
  (100 < len good_backend /\ occurs_in (lit "import") good_backend
   /\ occurs_in (lit "def") good_backend)
  /\ (100 < len good_ui /\ occurs_in (lit "import") good_ui
      /\ (occurs_in (lit "function") good_ui \/ occurs_in (lit "const") good_ui)).
Proof.
  split.
  - apply (proj1 (success_text_passes_the_check model_name some_prompt
                    some_prompt svc_good (ReqDict []) [] good_backend)).
    reflexivity.
  - apply (proj2 (success_text_passes_the_check model_name some_prompt
                    some_prompt svc_good_ui (ReqDict []) [] good_ui)).
    reflexivity.
Defined.

(** Every request is answered with status 503: a concrete call for
    [failed_reports_the_third_attempt]. *)
Lemma failed_reports_the_third_attempt_witness :
  exists ps rsp,
    snd (generate_code model_name some_prompt svc_unavailable (ReqDict []) [])
      = [] ++ ps
    /\ length ps = 3%nat
    /\ reply svc_unavailable [] ps 2 = Some rsp
    /\ transport_error rsp = true
    /\ failure_message
         (fun status : Z => lit "Error generating code: HTTP " ++ lit (pretty status))
         (fun e : pystr => lit "Failed to generate code: " ++ e) rsp
       = Some (lit "Error generating code: HTTP 503")
    /\ lit "Error generating code: HTTP 503"
       <> lit "Failed to generate code after multiple attempts".
Proof.
  apply (failed_reports_the_third_attempt model_name some_prompt
           svc_unavailable (ReqDict []) [] (lit "Error generating code: HTTP 503")).
  reflexivity.
Defined.

(** ** Fence extraction *)

Section FenceFacts.

Lemma startswith_other_head (b c : ascii) (m s : pystr) :
  c <> b -> startswith (b :: m) (c :: s) = false.
Proof.
  intros Hne. simpl. unfold ascii_eqb.
  destruct (Ascii.eqb b c) eqn:E; [|reflexivity].
  apply Ascii.eqb_eq in E. congruence.
Qed.

Lemma startswith_self (sub rest : pystr) : startswith sub (sub ++ rest) = true.
Proof. apply startswith_spec. eauto. Qed.

Lemma len_app (a b : pystr) : len (a ++ b) = len a + len b.
Proof. unfold len. rewrite length_app. lia. Qed.

Lemma len_nonneg (a : pystr) : 0 <= len a.
Proof. unfold len. lia. Qed.

Lemma find_from_range (sub s : pystr) (i : Z) :
  find_from sub s i = -1 \/ i <= find_from sub s i.
Proof.
  revert i. induction s as [|c s IH]; intros i; simpl.
  - destruct (startswith sub []); [right; lia | left; reflexivity].
  - destruct (startswith sub (c :: s)); [right; lia|].
    destruct (IH (i + 1)) as [H|H]; [left; exact H | right; lia].
Qed.

Lemma find_from_skip (m pre s : pystr) (i : Z) :
  no_backtick pre ->
  find_from (backtick :: m) (pre ++ s) i
  = find_from (backtick :: m) s (i + len pre).
Proof.
  intros Hpre. revert i. induction Hpre as [|c pre Hc Hpre IH]; intros i.
  - simpl. f_equal. unfold len. simpl. lia.
  - cbn [app find_from]. rewrite (startswith_other_head _ _ _ _ Hc).
    rewrite IH. f_equal. unfold len. cbn [length]. lia.
Qed.

Lemma find_from_here (sub rest : pystr) (i : Z) :
  find_from sub (sub ++ rest) i = i.
Proof.
  destruct (sub ++ rest) eqn:E; simpl; rewrite <- E, startswith_self;
    reflexivity.
Qed.

(** The first fence is found where the backtick-free prefix ends. *)
Lemma find_first_fence (m pre rest : pystr) :
  no_backtick pre ->
  find (pre ++ (backtick :: m) ++ rest) (backtick :: m) = len pre.
Proof.
  intros Hpre. unfold find. rewrite (find_from_skip _ _ _ _ Hpre).
  rewrite find_from_here. lia.
Qed.

Lemma rfind_from_absent (m s : pystr) (i : Z) :
  no_backtick s -> rfind_from (backtick :: m) s i = -1.
Proof.
  intros Hs. revert i. induction Hs as [|c s Hc Hs IH]; intros i.
  - reflexivity.
  - cbn [rfind_from]. rewrite IH.
    rewrite (startswith_other_head _ _ _ _ Hc). reflexivity.
Qed.

Lemma rfind_from_closing (post : pystr) (i : Z) :
  no_backtick post ->
  rfind_from (lit "```") (lit "```" ++ post) i = i.
Proof.
  intros Hpost.
  change (lit "```") with [backtick; backtick; backtick].
  cbn [app rfind_from].
  rewrite (rfind_from_absent _ _ _ Hpost).
  destruct Hpost as [|c post Hc Hpost].
  - reflexivity.
  - assert (Hcb : ascii_eqb backtick c = false).
    { unfold ascii_eqb. apply Ascii.eqb_neq. congruence. }
    cbn -[ascii_eqb backtick]. unfold ascii_eqb at 1 2 3 4 5.
    rewrite !Ascii.eqb_refl. fold (ascii_eqb backtick c).
    rewrite Hcb. reflexivity.
Qed.

(** The last fence is found at the closing fence, whatever precedes it,
    when no backtick follows it. *)
Lemma rfind_last_fence (before post : pystr) :
  no_backtick post ->
  rfind (before ++ lit "```" ++ post) (lit "```") = len before.
Proof.
  intros Hpost. unfold rfind.
  assert (H : forall i, 0 <= i ->
            rfind_from (lit "```") (before ++ lit "```" ++ post) i
            = i + len before).
  { induction before as [|c before IH]; intros i Hi.
    - cbn [app]. rewrite (rfind_from_closing _ _ Hpost). unfold len. simpl. lia.
    - cbn [app rfind_from]. rewrite IH by lia.
      assert (Hle : 0 <= i + 1 + len before) by (pose proof (len_nonneg before); lia).
      apply Z.leb_le in Hle. rewrite Hle. unfold len. cbn [length]. lia. }
  rewrite H by lia. lia.
Qed.

Lemma slice_middle (a b c : pystr) :
  slice (a ++ b ++ c) (len a) (len a + len b) = b.
Proof.
  unfold slice, slice_bound.
  pose proof (len_nonneg a). pose proof (len_nonneg b). pose proof (len_nonneg c).
  rewrite !len_app.
  destruct (len a <? 0) eqn:E1; [apply Z.ltb_lt in E1; lia|].
  destruct (len a + len b <? 0) eqn:E2; [apply Z.ltb_lt in E2; lia|].
  rewrite !Z.min_l by lia.
  replace (len a + len b - len a) with (len b) by lia.
  unfold len. rewrite !Nat2Z.id.
  rewrite drop_app_length, take_app_length. reflexivity.
Qed.

Lemma no_backtick_app (a b : pystr) :
  no_backtick a -> no_backtick b -> no_backtick (a ++ b).
Proof. unfold no_backtick. intros. apply Forall_app. auto. Qed.

Lemma no_backtick_lit_python : no_backtick (lit "python").
Proof. repeat constructor; discriminate. Qed.

End FenceFacts.

Section FormatterFacts.

Lemma contains_shorter (a b s : pystr) :
  contains (a ++ b) s = true -> contains a s = true.
Proof.
  rewrite !contains_spec. intros [pre [suf ->]].
  exists pre, (b ++ suf). rewrite <- app_assoc. reflexivity.
Qed.

Lemma contains_fence_absent (tag s : pystr) :
  contains (lit "```") s = false -> contains (lit "```" ++ tag) s = false.
Proof.
  intros H. destruct (contains (lit "```" ++ tag) s) eqn:E; [|reflexivity].
  apply contains_shorter in E. congruence.
Qed.

(** With a fence opened by [lit "```" ++ tag] after a backtick-free
    prefix and a last fence followed by no backtick, the guarded slice
    is the text between the two. *)
Lemma fenced_between (tag pre body post : pystr) :
  no_backtick pre -> no_backtick post -> body <> [] ->
  let marker := lit "```" ++ tag in
  let code := pre ++ marker ++ body ++ lit "```" ++ post in
  fenced code (find code marker + len marker) (rfind code (lit "```"))
    (len marker - 1)
  = Some (strip body).
Proof.
  intros Hpre Hpost Hbody marker code.
  assert (Hfind : find code marker = len pre).
  { subst code marker. change (lit "```" ++ tag)
      with (backtick :: (backtick :: backtick :: tag)).
    apply find_first_fence. exact Hpre. }
  assert (Hcode : code = (pre ++ marker ++ body) ++ lit "```" ++ post).
  { subst code. rewrite <- !app_assoc. reflexivity. }
  assert (Hrfind : rfind code (lit "```") = len (pre ++ marker ++ body)).
  { rewrite Hcode. apply rfind_last_fence. exact Hpost. }
  rewrite Hfind, Hrfind. unfold fenced.
  pose proof (len_nonneg pre). pose proof (len_nonneg marker).
  assert (0 < len body).
  { unfold len. destruct body; [congruence | simpl; lia]. }
  rewrite !len_app.
  assert (C1 : (len marker - 1 <? len pre + len marker) = true)
    by (apply Z.ltb_lt; lia).
  assert (C2 : (len pre + len marker <? len pre + (len marker + len body)) = true)
    by (apply Z.ltb_lt; lia).
  rewrite C1, C2. cbn [andb]. f_equal. f_equal.
  assert (Hmid : code = (pre ++ marker) ++ body ++ (lit "```" ++ post)).
  { subst code. rewrite <- !app_assoc. reflexivity. }
  rewrite Hmid.
  replace (len pre + len marker) with (len (pre ++ marker)) by apply len_app.
  replace (len pre + (len marker + len body))
    with (len (pre ++ marker) + len body) by (rewrite len_app; lia).
  apply slice_middle.
Qed.

(** With a single fence in the text, no guarded slice is taken, whatever
    opening marker is looked for. *)
Lemma fenced_single (m pre rest : pystr) :
  no_backtick pre -> no_backtick rest ->
  let marker := backtick :: m in
  let code := pre ++ lit "```" ++ rest in
  fenced code (find code marker + len marker) (rfind code (lit "```"))
    (len marker - 1)
  = None.
Proof.
  intros Hpre Hrest marker code.
  assert (Hrfind : rfind code (lit "```") = len pre)
    by (apply rfind_last_fence; exact Hrest).
  rewrite Hrfind. unfold fenced, find. subst code marker.
  rewrite (find_from_skip _ _ _ _ Hpre).
  pose proof (len_nonneg pre).
  set (marker := backtick :: m).
  assert (0 < len marker) by (unfold len, marker; simpl; lia).
  destruct (find_from_range marker (lit "```" ++ rest) (0 + len pre)) as [E|E].
  - rewrite E.
    replace (len marker - 1 <? -1 + len marker) with false; [reflexivity|].
    symmetry. apply Z.ltb_ge. lia.
  - set (f := find_from _ _ _) in *.
    replace (f + len marker <? len pre) with false;
      [rewrite andb_false_r; reflexivity|].
    symmetry. apply Z.ltb_ge. lia.
Qed.

Lemma lstrip_length (s : pystr) : (length (lstrip s) <= length s)%nat.
Proof.
  induction s as [|c s IH]; simpl; [lia|].
  destruct (isspace c); simpl; lia.
Qed.

Lemma strip_length (s : pystr) : (length (strip s) <= length s)%nat.
Proof.
  unfold strip, rstrip. rewrite length_rev.
  etransitivity; [apply lstrip_length|].
  rewrite length_rev. apply lstrip_length.
Qed.

Lemma slice_length (s : pystr) (a b : Z) : (length (slice s a b) <= length s)%nat.
Proof.
  unfold slice. rewrite length_take, length_drop. lia.
Qed.

Lemma fenced_length (code r : pystr) (a b lo : Z) :
  fenced code a b lo = Some r -> (length r <= length code)%nat.
Proof.
  unfold fenced. destruct (_ && _); [|discriminate].
  intros H. injection H as <-.
  etransitivity; [apply strip_length | apply slice_length].
Qed.

Lemma format_plain_fence_length (code : pystr) :
  (length (format_plain_fence code) <= length code)%nat.
Proof.
  unfold format_plain_fence. destruct (contains _ code); [|lia].
  destruct (fenced _ _ _ _) eqn:E; [|lia].
  eapply fenced_length. exact E.
Qed.

Lemma first_marker_block_length (code r : pystr) (markers : list pystr) :
  first_marker_block code markers = Some r -> (length r <= length code)%nat.
Proof.
  induction markers as [|marker rest IH]; [discriminate|].
  cbn [first_marker_block]. destruct (contains marker code); [|exact IH].
  destruct (fenced _ _ _ _) eqn:E; [|exact IH].
  intros H. injection H as <-. eapply fenced_length. exact E.
Qed.

(** X4. A text without a fence passes through both formatters
    unchanged. *)
Theorem format_without_fence_is_identity (code : pystr) :
  contains (lit "```") code = false ->
  format_python_code code = code /\ format_ui_code code = code.
Proof.
  intros H.
  assert (Hplain : format_plain_fence code = code)
    by (unfold format_plain_fence; rewrite H; reflexivity).
  pose proof (contains_fence_absent (lit "python") code H) as Hpy.
  pose proof (contains_fence_absent (lit "jsx") code H) as Hjsx.
  pose proof (contains_fence_absent (lit "javascript") code H) as Hjs.
  pose proof (contains_fence_absent (lit "tsx") code H) as Htsx.
  change (lit "```" ++ lit "python") with (lit "```python") in Hpy.
  change (lit "```" ++ lit "jsx") with (lit "```jsx") in Hjsx.
  change (lit "```" ++ lit "javascript") with (lit "```javascript") in Hjs.
  change (lit "```" ++ lit "tsx") with (lit "```tsx") in Htsx.
  split.
  - unfold format_python_code. rewrite Hpy. exact Hplain.
  - unfold format_ui_code. rewrite Hjsx, Hjs, Htsx. exact Hplain.
Qed.

(** X5. From a text with an opening fence tagged python (backend) or jsx
    (UI) after a backtick-free prefix, a non-empty body and a last fence
    followed by no backtick, the formatter returns the body, stripped of
    surrounding white space. *)
Theorem format_extracts_fenced_body (pre body post : pystr) :
  no_backtick pre -> no_backtick post -> body <> [] ->
  format_python_code (pre ++ lit "```python" ++ body ++ lit "```" ++ post)
  = strip body
  /\ format_ui_code (pre ++ lit "```jsx" ++ body ++ lit "```" ++ post)
     = strip body.
Proof.
  intros Hpre Hpost Hbody. split.
  - unfold format_python_code.
    assert (Hc : contains (lit "```python")
                   (pre ++ lit "```python" ++ body ++ lit "```" ++ post) = true)
      by (apply contains_spec; eexists _, _; reflexivity).
    rewrite Hc.
    pose proof (fenced_between (lit "python") pre body post Hpre Hpost Hbody) as H.
    cbv zeta in H. change (lit "```" ++ lit "python") with (lit "```python") in H.
    change (len (lit "```python")) with 9 in H. change (9 - 1) with 8 in H.
    rewrite H. reflexivity.
  - unfold format_ui_code.
    assert (Hc : contains (lit "```jsx")
                   (pre ++ lit "```jsx" ++ body ++ lit "```" ++ post) = true)
      by (apply contains_spec; eexists _, _; reflexivity).
    rewrite Hc. cbn [orb]. unfold start_markers. cbn [first_marker_block].
    rewrite Hc.
    pose proof (fenced_between (lit "jsx") pre body post Hpre Hpost Hbody) as H.
    cbv zeta in H. change (lit "```" ++ lit "jsx") with (lit "```jsx") in H.
    rewrite H. reflexivity.
Qed.

(** X6. A text with a single fence, an opening fence that is never
    closed, passes through both formatters unchanged. *)
Theorem format_unclosed_fence_is_identity (pre rest : pystr) :
  no_backtick pre -> no_backtick rest ->
  format_python_code (pre ++ lit "```" ++ rest) = pre ++ lit "```" ++ rest
  /\ format_ui_code (pre ++ lit "```" ++ rest) = pre ++ lit "```" ++ rest.
Proof.
  intros Hpre Hrest.
  set (code := pre ++ lit "```" ++ rest).
  assert (Hm : forall m, fenced code (find code (backtick :: m)
                                      + len (backtick :: m))
                           (rfind code (lit "```")) (len (backtick :: m) - 1)
                         = None)
    by (intros m; apply fenced_single; assumption).
  assert (Hplain : format_plain_fence code = code).
  { unfold format_plain_fence. destruct (contains _ code); [|reflexivity].
    pose proof (Hm [backtick; backtick]) as H.
    change (backtick :: [backtick; backtick]) with (lit "```") in H.
    change (len (lit "```")) with 3 in H. change (3 - 1) with 2 in H.
    rewrite H. reflexivity. }
  split.
  - unfold format_python_code. destruct (contains _ code); [|exact Hplain].
    pose proof (Hm (backtick :: backtick :: lit "python")) as H.
    change (backtick :: backtick :: backtick :: lit "python")
      with (lit "```python") in H.
    change (len (lit "```python")) with 9 in H. change (9 - 1) with 8 in H.
    rewrite H. exact Hplain.
  - unfold format_ui_code. destruct (_ || _); [|exact Hplain].
    unfold start_markers. cbn [first_marker_block].
    pose proof (Hm (backtick :: backtick :: lit "jsx")) as H1.
    pose proof (Hm (backtick :: backtick :: lit "javascript")) as H2.
    pose proof (Hm (backtick :: backtick :: lit "tsx")) as H3.
    pose proof (Hm (backtick :: backtick :: lit "react")) as H4.
    change (backtick :: backtick :: backtick :: lit "jsx") with (lit "```jsx") in H1.
    change (backtick :: backtick :: backtick :: lit "javascript")
      with (lit "```javascript") in H2.
    change (backtick :: backtick :: backtick :: lit "tsx") with (lit "```tsx") in H3.
    change (backtick :: backtick :: backtick :: lit "react")
      with (lit "```react") in H4.
    rewrite H1, H2, H3, H4.
    repeat match goal with
           | |- context [if ?c then _ else _] => destruct c
           end; exact Hplain.
Qed.

(** X7. Neither formatter ever returns more characters than it was
    given. *)
Theorem format_never_lengthens (code : pystr) :
  len (format_python_code code) <= len code
  /\ len (format_ui_code code) <= len code.
Proof.
  unfold len. split; apply inj_le.
  - unfold format_python_code. destruct (contains _ code);
      [|apply format_plain_fence_length].
    destruct (fenced _ _ _ _) eqn:E;
      [eapply fenced_length; exact E | apply format_plain_fence_length].
  - unfold format_ui_code. destruct (_ || _);
      [|apply format_plain_fence_length].
    destruct (first_marker_block _ _) eqn:E;
      [eapply first_marker_block_length; exact E
      | apply format_plain_fence_length].
Qed.

End FormatterFacts.

(** Concrete texts for the three fence theorems. *)
Lemma format_without_fence_is_identity_witness :
  format_python_code (lit "import os") = lit "import os"
  /\ format_ui_code (lit "import os") = lit "import os".
Proof.
  apply (format_without_fence_is_identity (lit "import os")). reflexivity.
Defined.

Lemma format_extracts_fenced_body_witness :
  format_python_code
    (lit "Here it is: " ++ lit "```python" ++ (LF :: lit "import os" ++ [LF])
     ++ lit "```" ++ lit " Enjoy.")
  = strip (LF :: lit "import os" ++ [LF])
  /\ format_ui_code
       (lit "Here it is: " ++ lit "```jsx" ++ (LF :: lit "import os" ++ [LF])
        ++ lit "```" ++ lit " Enjoy.")
     = strip (LF :: lit "import os" ++ [LF]).
Proof.
  apply (format_extracts_fenced_body (lit "Here it is: ")
           (LF :: lit "import os" ++ [LF]) (lit " Enjoy."));
    [repeat constructor; discriminate
    | repeat constructor; discriminate
    | discriminate].
Defined.

Lemma format_unclosed_fence_is_identity_witness :
  format_python_code (lit "Sure: " ++ lit "```" ++ lit "python import os")
  = lit "Sure: " ++ lit "```" ++ lit "python import os"
  /\ format_ui_code (lit "Sure: " ++ lit "```" ++ lit "python import os")
     = lit "Sure: " ++ lit "```" ++ lit "python import os".
Proof.
  apply (format_unclosed_fence_is_identity (lit "Sure: ") (lit "python import os"));
    repeat constructor; discriminate.
Defined.

Section EmptyBlock.

(** X8. An empty block tagged python does not give the empty text: the
    backend formatter falls through to the plain fence and returns the
    tag, "python". *)
Theorem format_empty_python_block_is_tag (pre post : pystr) :
  no_backtick pre -> no_backtick post ->
  format_python_code (pre ++ lit "```python" ++ lit "```" ++ post)
  = lit "python".
Proof.
  intros Hpre Hpost.
  set (code := pre ++ lit "```python" ++ lit "```" ++ post).
  unfold format_python_code.
  assert (Hc : contains (lit "```python") code = true)
    by (apply contains_spec; eexists _, _; reflexivity).
  rewrite Hc.
  assert (Hfind : find code (lit "```python") = len pre).
  { subst code. change (lit "```python") with (backtick :: lit "``python").
    apply find_first_fence. exact Hpre. }
  assert (Hrfind : rfind code (lit "```") = len pre + 9).
  { replace code with ((pre ++ lit "```python") ++ lit "```" ++ post)
      by (subst code; rewrite <- app_assoc; reflexivity).
    rewrite (rfind_last_fence _ _ Hpost), len_app. reflexivity. }
  rewrite Hfind, Hrfind. unfold fenced at 1.
  rewrite Z.ltb_irrefl, andb_false_r.
  unfold format_plain_fence.
  assert (Hc3 : contains (lit "```") code = true)
    by (apply contains_spec; exists pre; eexists; reflexivity).
  rewrite Hc3.
  assert (Hne : lit "python" <> []) by discriminate.
  pose proof (fenced_between [] pre (lit "python") post Hpre Hpost Hne) as H.
  cbv zeta in H. change (lit "```" ++ []) with (lit "```") in H.
  change (len (lit "```")) with 3 in H. change (3 - 1) with 2 in H.
  change (pre ++ lit "```" ++ lit "python" ++ lit "```" ++ post) with code in H.
  rewrite H. reflexivity.
Qed.

End EmptyBlock.

Lemma format_empty_python_block_is_tag_witness :
  format_python_code (lit "code: " ++ lit "```python" ++ lit "```" ++ lit " done")
  = lit "python".
Proof.
  apply (format_empty_python_block_is_tag (lit "code: ") (lit " done"));
    repeat constructor; discriminate.
Defined.

(** ** More on the UI-need detector *)

Section MoreDetectorFacts.

Lemma mem_In (x : pystr) (xs : list pystr) : mem x xs = true <-> In x xs.
Proof.
  unfold mem, pystr_eqb. rewrite existsb_exists. split.
  - intros [y [Hin Hy]]. apply bool_decide_eq_true in Hy. subst. exact Hin.
  - intros Hin. exists x. split; [exact Hin | apply bool_decide_eq_true; reflexivity].
Qed.

Lemma mentions_ui_keyword_spec (s : pystr) :
  mentions_ui_keyword s = true <->
  exists keyword, In keyword ui_keywords /\ occurs_in (lower keyword) s.
Proof.
  unfold mentions_ui_keyword, any. rewrite existsb_exists.
  split; intros [kw [Hin H]]; exists kw; (split; [exact Hin|]);
    apply contains_spec; exact H.
Qed.

(** The detector is the disjunction of its three tests. *)
Lemma check_as_disjunction (d : reqdict) (text : option pystr) :
  _check_if_ui_needed_standalone d text
  = any (fun key => mem (lower key) ui_keys) (keys d)
    || mentions_ui_keyword (join (lit " ") (flatten_values (values d)))
    || match text with
       | Some t => truthy t && mentions_ui_keyword (lower t)
       | None => false
       end.
Proof.
  unfold _check_if_ui_needed_standalone.
  destruct (any _ (keys d)); [reflexivity|].
  destruct (mentions_ui_keyword (join _ _)); [reflexivity|].
  destruct text as [t|]; [|reflexivity].
  destruct (truthy t && _); reflexivity.
Qed.

(** X9. The detector asks for a UI exactly when a key of the dict is,
    lowered, one of the seven UI keys, or a UI keyword occurs in the
    lowered values joined by spaces, or the free text is a non-empty
    string in which a UI keyword occurs up to letter case. *)
Theorem ui_needed_iff (d : reqdict) (text : option pystr) :
  _check_if_ui_needed_standalone d text = true <->
  has_ui_key d \/ values_mention_ui d \/ text_mentions_ui text.
Proof.
  rewrite check_as_disjunction, !orb_true_iff.
  unfold has_ui_key, values_mention_ui, text_mentions_ui.
  rewrite mentions_ui_keyword_spec. unfold any. rewrite existsb_exists.
  split.
  - intros [[[key [Hin Hk]] | Hv] | Ht].
    + left. exists key. split; [exact Hin | apply mem_In; exact Hk].
    + right. left. exact Hv.
    + right. right. destruct text as [t|]; [|discriminate].
      apply andb_true_iff in Ht. destruct Ht as [Hne Hm].
      apply mentions_ui_keyword_spec in Hm. destruct Hm as [kw [Hin Hocc]].
      exists t, kw. repeat split; auto.
      * apply truthy_nonempty. exact Hne.
      * apply contains_lower_spec, contains_spec. exact Hocc.
  - intros [[key [Hin Hk]] | [Hv | [t [kw [-> [Hne [Hin Hocc]]]]]]].
    + left. left. exists key. split; [exact Hin | apply mem_In; exact Hk].
    + left. right. exact Hv.
    + right. apply andb_true_iff. split.
      * apply truthy_nonempty. exact Hne.
      * apply mentions_ui_keyword_spec. exists kw. split; [exact Hin|].
        apply contains_spec, contains_lower_spec. exact Hocc.
Qed.

(** X10. The letter case of the free text plays no part: two texts that
    lower to the same text get the same answer. *)
Theorem ui_need_ignores_text_case (d : reqdict) (t1 t2 : pystr) :
  lower t1 = lower t2 ->
  _check_if_ui_needed_standalone d (Some t1)
  = _check_if_ui_needed_standalone d (Some t2).
Proof.
  intros H. rewrite !check_as_disjunction. rewrite H.
  replace (truthy t2) with (truthy t1); [reflexivity|].
  destruct t1, t2; try reflexivity; discriminate.
Qed.

Lemma flatten_values_app (a b : list reqvalue) :
  flatten_values (a ++ b) = flatten_values a ++ flatten_values b.
Proof.
  induction a as [|[vs|v] a IH]; simpl; [reflexivity | |];
    rewrite IH; [apply app_assoc | reflexivity].
Qed.

Lemma join_app_prefix (sep : pystr) (a b : list pystr) :
  exists suf, join sep (a ++ b) = join sep a ++ suf.
Proof.
  induction a as [|p a IH].
  - exists (join sep b). reflexivity.
  - destruct a as [|q a].
    + destruct b as [|r b]; simpl.
      * exists []. rewrite app_nil_r. reflexivity.
      * eexists. reflexivity.
    + destruct IH as [suf IH].
      exists suf. change (join sep ((p :: q :: a) ++ b))
        with (p ++ sep ++ join sep ((q :: a) ++ b)).
      rewrite IH. change (join sep (p :: q :: a))
        with (p ++ sep ++ join sep (q :: a)).
      rewrite <- !app_assoc. reflexivity.
Qed.

(** X11. Adding entries to the requirements dict never withdraws the need
    for a UI. *)
Theorem ui_need_monotone_in_dict (d extra : reqdict) (text : option pystr) :
  _check_if_ui_needed_standalone d text = true ->
  _check_if_ui_needed_standalone (d ++ extra) text = true.
Proof.
  rewrite !check_as_disjunction, !orb_true_iff.
  intros [[Hk | Hv] | Ht].
  - left. left. unfold keys, any in *. rewrite map_app, existsb_app, Hk.
    reflexivity.
  - left. right. unfold values in *. rewrite map_app, flatten_values_app.
    destruct (join_app_prefix (lit " ") (flatten_values (map snd d))
                (flatten_values (map snd extra))) as [suf ->].
    apply mentions_ui_keyword_app. exact Hv.
  - right. exact Ht.
Qed.

End MoreDetectorFacts.

Lemma ui_need_ignores_text_case_witness :
  _check_if_ui_needed_standalone batch_requirements (Some (lit "A DASHBOARD"))
  = _check_if_ui_needed_standalone batch_requirements (Some (lit "a dashboard")).
Proof.
  apply (ui_need_ignores_text_case batch_requirements
           (lit "A DASHBOARD") (lit "a dashboard")).
  reflexivity.
Defined.

Lemma ui_need_monotone_in_dict_witness :
  _check_if_ui_needed_standalone (ui_requirements ++ batch_requirements) None
  = true.
Proof.
  apply (ui_need_monotone_in_dict ui_requirements batch_requirements None).
  reflexivity.
Defined.

(** ** More on the project assembler *)

Section MoreIntegratorFacts.
Variable pf : platform.
Variable sc : scaffold.

(** X12. A project handed back by [integrate_project] holds what was
    passed in: the backend text in [backend/app.py], the UI text in
    [frontend/App.jsx], the derived manifest and the four fixed files,
    below the three directories it created. *)
Theorem assembled_layout_reads_back
    (backend_code ui_code : pystr) (requirements : option reqdict)
    (w w' : world) (dir : string) :
  integrate_project pf sc backend_code ui_code requirements w
  = (Val (Some dir), w') ->
  let backend_dir := path_join dir "backend" in
  let frontend_dir := path_join dir "frontend" in
  dir = new_project_dir pf
  /\ dir ∈ w_dirs w' /\ backend_dir ∈ w_dirs w' /\ frontend_dir ∈ w_dirs w'
  /\ w_files w' !! path_join backend_dir "app.py" = Some backend_code
  /\ w_files w' !! path_join backend_dir "requirements.txt"
     = Some (requirements_txt backend_code)
  /\ w_files w' !! path_join frontend_dir "App.jsx" = Some ui_code
  /\ w_files w' !! path_join frontend_dir "index.html" = Some (index_html sc)
  /\ w_files w' !! path_join frontend_dir "package.json" = Some (package_json sc)
  /\ w_files w' !! path_join dir "README.md" = Some (readme_md sc dir)
  /\ w_files w' !! path_join frontend_dir "config.js" = Some (config_js sc).
Proof.
  intros Hrun.
  destruct (integrate_project_cases pf sc backend_code ui_code requirements w)
    as [[_ [_ [_ Heq]]] | [_ [w0 Heq]]];
    rewrite Heq in Hrun; [|discriminate].
  injection Hrun as <- <-. intros backend_dir frontend_dir.
  subst backend_dir frontend_dir.
  unfold assembled. cbn [w_files w_dirs].
  generalize (new_project_dir pf). intros d.
  split; [reflexivity|].
  split; [set_solver|]. split; [set_solver|]. split; [set_solver|].
  repeat split;
    rewrite ?lookup_insert_ne by paths_differ; apply lookup_insert_eq.
Qed.

(** X13. [integrate_project] keeps to its project: however it ends, files
    at other paths read as before, no directory disappears and the only
    new ones are its own, and processes and handles are as before.  With
    an empty backend or UI text nothing changes at all. *)
Theorem integrate_project_touches_only_its_project
    (backend_code ui_code : pystr) (requirements : option reqdict)
    (w w' : world) (r : res (option string)) :
  integrate_project pf sc backend_code ui_code requirements w = (r, w') ->
  (forall p, ~ In p (project_paths pf) -> w_files w' !! p = w_files w !! p)
  /\ (forall p, p ∈ w_dirs w -> p ∈ w_dirs w')
  /\ (forall p, p ∈ w_dirs w' -> p ∈ w_dirs w \/ In p (project_paths pf))
  /\ w_procs w' = w_procs w
  /\ backend_proc w' = backend_proc w
  /\ frontend_proc w' = frontend_proc w
  /\ (backend_code = [] \/ ui_code = [] -> w' = w).
Proof.
  unfold integrate_project.
  destruct backend_code as [|b0 bs];
    [intros H; injection H as <- <-; repeat split; auto|].
  destruct ui_code as [|u0 us];
    [intros H; injection H as <- <-; repeat split; auto|].
  cbn [truthy negb orb].
  unfold try_except, bind, makedirs, write_file, raise, modify, ret, project_paths.
  repeat match goal with
  | |- context [os_fault pf ?p] => destruct (os_fault pf p) eqn:?
  end.
  all: intros H; injection H as <- <-;
    cbn [w_files w_dirs w_procs backend_proc frontend_proc set_files set_dirs].
  all: split;
    [intros path Hpath;
     rewrite ?lookup_insert_ne
       by (intros E; subst path; apply Hpath; cbn [In];
           repeat first [left; reflexivity | right]);
     reflexivity|].
  all: split; [intros path Hpath; set_solver|].
  all: split;
    [intros path Hpath; cbn [In];
     repeat (apply elem_of_union in Hpath as [Hpath|Hpath];
             [apply elem_of_singleton in Hpath; subst path; right;
              repeat first [left; reflexivity | right]|]);
     left; exact Hpath|].
  all: repeat split; intros [E|E]; discriminate E.
Qed.

Lemma in_write_if (c : bool) (l x : pystr) :
  In x (if c then [l] else []) <-> c = true /\ x = l.
Proof.
  destruct c; simpl; [|intuition discriminate].
  split; [intros [<- | []]; auto | intros [_ ->]; auto].
Qed.

(** X14. Read back line by line, the backend manifest holds the five
    baseline lines and, beyond them, exactly the pinned lines of the known
    libraries one of whose names occurs in the backend text up to letter
    case. *)
Theorem manifest_lines_iff (backend_code l : pystr) :
  In l (manifest_lines (requirements_txt backend_code)) <->
  In l baseline_lines
  \/ exists names, In (names, l) known_libraries
       /\ names_library backend_code names.
Proof.
  unfold requirements_txt. rewrite manifest_lines_requirements.
  rewrite !in_app_iff, !in_write_if.
  unfold names_library, known_libraries.
  rewrite !orb_true_iff, !contains_lower_spec.
  split.
  - intros [H | [[H ->] | [[H ->] | [[H ->] | [[H ->] | [H ->]]]]]];
      [left; exact H | right; eexists; split ..].
    + left. reflexivity.
    + exists (lit "pandas"). split; [left; reflexivity | exact H].
    + right. left. reflexivity.
    + exists (lit "numpy"). split; [left; reflexivity | exact H].
    + right. right. left. reflexivity.
    + destruct H as [H|H]; eexists; (split; [|exact H]); cbn; auto.
    + right. right. right. left. reflexivity.
    + destruct H as [H|H]; eexists; (split; [|exact H]); cbn; auto.
    + right. right. right. right. left. reflexivity.
    + exists (lit "requests"). split; [left; reflexivity | exact H].
  - intros [H | [names [Hin [name [Hname Hocc]]]]]; [left; exact H|].
    right. cbn in Hin.
    destruct Hin as [E | [E | [E | [E | [E | []]]]]]; injection E as <- <-;
      cbn in Hname.
    + destruct Hname as [<- | []]. left. auto.
    + destruct Hname as [<- | []]. right. left. auto.
    + right. right. left. destruct Hname as [<- | [<- | []]]; auto.
    + right. right. right. left. destruct Hname as [<- | [<- | []]]; auto.
    + destruct Hname as [<- | []]. right. right. right. right. auto.
Qed.

End MoreIntegratorFacts.

Lemma assembled_layout_reads_back_witness :
  let w' := assembled pf_ok sc0 (lit "import os") (lit "const App") empty_world in
  let dir := "/work/generated_project_f50b64a8"%string in
  let backend_dir := path_join dir "backend" in
  let frontend_dir := path_join dir "frontend" in
  dir = new_project_dir pf_ok
  /\ dir ∈ w_dirs w' /\ backend_dir ∈ w_dirs w' /\ frontend_dir ∈ w_dirs w'
  /\ w_files w' !! path_join backend_dir "app.py" = Some (lit "import os")
  /\ w_files w' !! path_join backend_dir "requirements.txt"
     = Some (requirements_txt (lit "import os"))
  /\ w_files w' !! path_join frontend_dir "App.jsx" = Some (lit "const App")
  /\ w_files w' !! path_join frontend_dir "index.html" = Some (index_html sc0)
  /\ w_files w' !! path_join frontend_dir "package.json" = Some (package_json sc0)
  /\ w_files w' !! path_join dir "README.md" = Some (readme_md sc0 dir)
  /\ w_files w' !! path_join frontend_dir "config.js" = Some (config_js sc0).
Proof.
  apply (assembled_layout_reads_back pf_ok sc0 (lit "import os")
           (lit "const App") None empty_world).
  reflexivity.
Defined.

Lemma integrate_project_touches_only_its_project_witness :
  let w := backend_only_world in
  let w' := assembled pf_ok sc0 (lit "import os") (lit "const App") w in
  (forall p, ~ In p (project_paths pf_ok) -> w_files w' !! p = w_files w !! p)
  /\ (forall p, p ∈ w_dirs w -> p ∈ w_dirs w')
  /\ (forall p, p ∈ w_dirs w' -> p ∈ w_dirs w \/ In p (project_paths pf_ok))
  /\ w_procs w' = w_procs w
  /\ backend_proc w' = backend_proc w
  /\ frontend_proc w' = frontend_proc w
  /\ (lit "import os" = [] \/ lit "const App" = [] -> w' = w).
Proof.
  apply (integrate_project_touches_only_its_project pf_ok sc0
           (lit "import os") (lit "const App") None backend_only_world _
           (Val (Some "/work/generated_project_f50b64a8"%string))).
  reflexivity.
Defined.

(** ** More on the process supervisor *)

Section MoreDeployerFacts.
Variable pf : platform.
Variable sc : scaffold.

Lemma lookup_map_process (f : process -> process) (l : list process) (i : nat) :
  map f l !! i = f <$> l !! i.
Proof.
  revert i. induction l as [|p l IH]; intros [|i]; try reflexivity.
  simpl. apply IH.
Qed.

Lemma kill_listeners_idle (port : Z) (p : process) :
  is_running p = false \/ pr_port p <> port -> kill_listeners port p = p.
Proof.
  unfold kill_listeners. intros [H|H].
  - rewrite H. reflexivity.
  - apply Z.eqb_neq in H. rewrite H, andb_false_r. reflexivity.
Qed.

Lemma map_kill_listeners_free (port : Z) (l : list process) :
  (forall p, In p l -> pr_port p = port -> is_running p = false) ->
  map (kill_listeners port) l = l.
Proof.
  induction l as [|p l IH]; intros H; [reflexivity|].
  simpl. rewrite IH by (intros q Hq; apply H; right; exact Hq).
  rewrite kill_listeners_idle; [reflexivity|].
  destruct (Z.eq_dec (pr_port p) port) as [E|E]; [left | right; exact E].
  apply H; [left; reflexivity | exact E].
Qed.

(** With no handle held and nothing running on the service ports,
    stopping changes nothing. *)
Lemma stop_when_idle (w : world) :
  backend_proc w = None -> frontend_proc w = None -> ports_free w ->
  _stop_current_services w = (Val tt, w).
Proof.
  intros Hb Hf Hfree.
  unfold _stop_current_services, try_except, bind, gets, modify, ret.
  rewrite Hb. cbn. rewrite Hf. cbn.
  unfold free_port, modify, set_procs. cbn.
  rewrite (map_kill_listeners_free 8000)
    by (intros p Hp Hport; apply Hfree; auto).
  rewrite (map_kill_listeners_free 3000)
    by (intros p Hp Hport; apply Hfree; auto).
  destruct w; cbn in *; subst; reflexivity.
Qed.

(** X15. Stopping is idempotent: a second [stop] right after a first
    raises nothing and leaves the world as the first left it. *)
Theorem stop_twice_is_stop_once (w : world) :
  stop (snd (stop w)) = (Val tt, snd (stop w)).
Proof.
  unfold stop.
  destruct (stop_spec w) as [w1 [-> [_ [_ [_ [Hb [Hf Hfree]]]]]]].
  cbn [snd]. apply stop_when_idle; assumption.
Qed.

Lemma graceful_stop_stays_down (p : process) :
  is_running (graceful_stop p) = false.
Proof.
  unfold graceful_stop. destruct (is_running p) eqn:E; [|exact E].
  destruct (pr_ignores_sigterm p); reflexivity.
Qed.

Lemma graceful_stop_idle (p : process) :
  is_running p = false -> graceful_stop p = p.
Proof. unfold graceful_stop. intros ->. reflexivity. Qed.

(** X16. [stop] only ever stops: it leaves files and directories alone,
    keeps every process at its place in the table, leaves untouched a
    process that is not running, and leaves untouched a running process
    that is neither held by a handle nor listening on port 8000 or 3000.
    Both handles are cleared. *)
Theorem stop_only_stops (w : world) :
  let w' := snd (stop w) in
  w_files w' = w_files w
  /\ w_dirs w' = w_dirs w
  /\ length (w_procs w') = length (w_procs w)
  /\ backend_proc w' = None /\ frontend_proc w' = None
  /\ forall i p, w_procs w !! i = Some p ->
       is_running p = false
       \/ (backend_proc w <> Some i /\ frontend_proc w <> Some i
           /\ pr_port p <> 8000 /\ pr_port p <> 3000) ->
       w_procs w' !! i = Some p.
Proof.
  unfold stop, _stop_current_services, try_except, bind, gets,
    terminate_wait_kill, modify, ret.
  cbn.
  assert (Hkeep : forall (l : list process) (i : nat) (p : process),
            l !! i = Some p ->
            is_running p = false \/ (pr_port p <> 8000 /\ pr_port p <> 3000) ->
            map (kill_listeners 3000) (map (kill_listeners 8000) l) !! i = Some p).
  { intros l i p Hl Hp. rewrite !lookup_map_process, Hl. cbn.
    rewrite (kill_listeners_idle 8000) by tauto.
    rewrite (kill_listeners_idle 3000) by tauto. reflexivity. }
  assert (Halter : forall (l : list process) (i j : nat) (p : process),
            l !! i = Some p ->
            is_running p = false \/ j <> i ->
            alter graceful_stop j l !! i = Some p).
  { intros l i j p Hl [Hp|Hne].
    - destruct (decide (j = i)) as [->|Hne].
      + rewrite list_lookup_alter_eq, Hl. cbn. rewrite graceful_stop_idle by exact Hp.
        reflexivity.
      + rewrite list_lookup_alter_ne by exact Hne. exact Hl.
    - rewrite list_lookup_alter_ne by exact Hne. exact Hl. }
  destruct (backend_proc w) as [bp|] eqn:Eb;
    destruct (frontend_proc w) as [fp|] eqn:Ef; cbn;
    rewrite ?Eb, ?Ef; cbn;
    rewrite ?length_map, ?length_alter;
    (repeat split; auto);
    intros i p Hl Hp; apply Hkeep; try tauto;
    repeat (apply Halter; [|destruct Hp as [Hp|[Hb [Hf _]]];
                             [left; exact Hp | right; congruence]]);
    exact Hl.
Qed.

Lemma path_exists_false (p : string) (ds : gset string)
    (fs : gmap string pystr) :
  bool_decide (p ∈ ds) || bool_decide (is_Some (fs !! p)) = false ->
  (p ∉ ds) /\ fs !! p = None.
Proof.
  intros H. apply orb_false_iff in H. destruct H as [Hd Hf].
  apply bool_decide_eq_false in Hd, Hf. split; [exact Hd|].
  destruct (fs !! p) eqn:E; [|reflexivity].
  exfalso. apply Hf. eauto.
Qed.

Ltac new_file_case :=
  let q := fresh "q" in
  let Hq := fresh "Hq" in
  let Hs := fresh "Hs" in
  intros q Hq Hs;
  repeat match type of Hs with
  | context [<[?k:=?v]> ?m !! q] =>
      destruct (decide (k = q)) as [<-|?];
      [ split; [assumption|];
        first
          [ left; split; [reflexivity|];
            rewrite ?lookup_insert_ne by assumption; apply lookup_insert_eq
          | right; split; [reflexivity|]; split; [apply lookup_insert_eq|];
            first [ reflexivity
                  | match goal with
                    | H : _ = true |- _ => rewrite H; reflexivity
                    end ] ]
      | rewrite (lookup_insert_ne m k q v) in Hs by assumption ]
  end;
  try (rewrite Hq in Hs; destruct Hs; discriminate).

Ltac started_case Hlen :=
  let Hst := fresh "Hst" in
  intros; 
  match goal with
  | H : started_since _ _ = _ |- _ =>
      unfold started_since, exited_process, running_process in H;
      cbn [w_procs set_files set_dirs set_procs set_backend_proc
           set_frontend_proc] in H;
      rewrite <- ?app_assoc, <- Hlen, ?drop_all, ?drop_app_length in H;
      cbn [app] in H; congruence
  end.

(** What a deployment that got past the project directory check leaves
    behind: the old processes as [_stop_current_services] left them,
    followed by the ones it started; the directories as they were; the
    files as they were, plus a baseline manifest and an entry page where
    they were missing. *)
Lemma deploy_project_trace (dir : string) (w : world) :
  path_exists dir w = (Val true, w) ->
  let backend_dir := path_join dir "backend" in
  let frontend_dir := path_join dir "frontend" in
  let requirements_file := path_join backend_dir "requirements.txt" in
  let frontend_index := path_join frontend_dir "index.html" in
  exists w1 r w',
    _stop_current_services w = (Val tt, w1)
    /\ deploy_project pf sc dir w = (Val r, w')
    /\ w_dirs w' = w_dirs w
    /\ w_procs w' = w_procs w1 ++ started_since w w'
    /\ (forall p c, w_files w !! p = Some c -> w_files w' !! p = Some c)
    /\ (forall p, w_files w !! p = None -> is_Some (w_files w' !! p) ->
          (p ∉ w_dirs w)
          /\ ((p = requirements_file
               /\ w_files w' !! p = Some baseline_requirements)
              \/ (p = frontend_index
                  /\ w_files w' !! p = Some (index_html sc)
                  /\ path_exists (path_join frontend_dir "App.jsx") w
                     = (Val true, w))))
    /\ (forall err,
          started_since w w' = [exited_process backend_cmd backend_dir 8000 err] ->
          r = DeployError (lit "Backend server failed to start: "
                           ++ slice_to err 500))
    /\ (forall p err,
          started_since w w'
          = [p; exited_process frontend_cmd frontend_dir 3000 err] ->
          r = DeployError (lit "Frontend server failed to start: "
                           ++ slice_to err 500)).
Proof.
  intros Hdir backend_dir frontend_dir requirements_file frontend_index.
  unfold path_exists, gets in Hdir. injection Hdir as Hdir.
  destruct (stop_spec w) as [w1 [Hstop [Hdirs [Hfiles [Hlen [Hbp [Hfp Hfree]]]]]]].
  exists w1.
  destruct w1 as [dirs1 files1 procs1 bp1 fp1].
  cbn [w_dirs w_files w_procs backend_proc frontend_proc] in Hdirs, Hfiles, Hlen.
  subst dirs1 files1.
  unfold deploy_project.
  unfold bind at 1. unfold path_exists at 1. unfold gets at 1.
  rewrite Hdir. cbn [negb].
  unfold try_except, bind. rewrite Hstop.
  fold backend_dir frontend_dir requirements_file frontend_index.
  unfold path_exists, gets, write_file, popen, has_exited, read_stderr, modify,
    ret, raise, bind.
  cbn [fst snd w_files w_dirs w_procs backend_proc frontend_proc
       set_files set_dirs set_procs set_backend_proc set_frontend_proc negb].
  assert (Hne : requirements_file <> frontend_index)
    by (subst requirements_file frontend_index backend_dir frontend_dir;
        paths_differ).
  assert (Hne' : requirements_file <> path_join frontend_dir "App.jsx")
    by (subst requirements_file frontend_index backend_dir frontend_dir;
        paths_differ).
  repeat deploy_step pf.
  all: eexists _, _; (split; [reflexivity|]); (split; [reflexivity|]);
    cbn [fst snd w_files w_dirs w_procs backend_proc frontend_proc
         set_files set_dirs set_procs set_backend_proc set_frontend_proc].
  all: split; [reflexivity|].
  all: split;
    [unfold started_since;
     cbn [w_procs set_files set_procs set_backend_proc set_frontend_proc];
     rewrite <- ?app_assoc, <- Hlen, ?drop_all, ?drop_app_length, ?app_nil_r;
     reflexivity|].
  all: repeat match goal with
       | H : bool_decide _ || bool_decide _ = false |- _ =>
           apply path_exists_false in H; destruct H
       end.
  all: repeat match goal with
       | H : context [<[_:=_]> _ !! _] |- _ =>
           first [ rewrite (lookup_insert_ne _ _ _ _ Hne) in H
                 | rewrite (lookup_insert_ne _ _ _ _ Hne') in H ]
       end.
  all: split;
    [intros q c Hq; rewrite ?lookup_insert_ne by congruence; exact Hq|].
  all: split; [new_file_case|].
  all: split; started_case Hlen.
Qed.


(** X17.  [deploy_project] never removes or overwrites a file and never
    creates a directory.  The only files it adds are a
    [backend/requirements.txt] holding the baseline requirements and a
    [frontend/index.html] holding the entry page, each only where no file
    or directory of that name was there; the entry page is added only
    next to an existing [App.jsx]. *)
Theorem deploy_project_adds_only_missing_scaffolding
    (dir : string) (w : world) :
  let w' := snd (deploy_project pf sc dir w) in
  let requirements_file :=
    path_join (path_join dir "backend") "requirements.txt" in
  let frontend_index := path_join (path_join dir "frontend") "index.html" in
  w_dirs w' = w_dirs w
  /\ (forall p c, w_files w !! p = Some c -> w_files w' !! p = Some c)
  /\ (forall p, w_files w !! p = None -> is_Some (w_files w' !! p) ->
        (p ∉ w_dirs w)
        /\ ((p = requirements_file
             /\ w_files w' !! p = Some baseline_requirements)
            \/ (p = frontend_index
                /\ w_files w' !! p = Some (index_html sc)
                /\ path_exists (path_join (path_join dir "frontend") "App.jsx") w
                   = (Val true, w)))).
Proof.
  intros w' requirements_file frontend_index. subst w'.
  destruct (path_exists dir w) as [found w0] eqn:Hdir.
  assert (Hw0 : w0 = w)
    by (unfold path_exists, gets in Hdir; injection Hdir as _ <-; reflexivity).
  subst w0.
  destruct found as [[|]|e].
  - destruct (deploy_project_trace dir w Hdir)
      as [w1 [r [w2 [_ [Heq [Hd [_ [Hkeep [Hnew _]]]]]]]]].
    rewrite Heq. cbn [snd]. auto.
  - unfold deploy_project. rewrite (bind_val _ _ _ _ _ Hdir). cbn [negb snd ret].
    split; [reflexivity|]. split; [auto|].
    intros p Hp [c Hc]. congruence.
  - unfold path_exists, gets in Hdir. discriminate.
Qed.





End MoreDeployerFacts.




(** ** More on the coordinator *)

Section MorePipelineFacts.
Variable pf : platform.
Variable sc : scaffold.
Variable OLLAMA_MODEL : pystr.
Variable create_code_generation_prompt : reqdict -> pystr.
Variable create_ui_generation_prompt : reqdict -> pystr.
Variable svc_code svc_ui : service.

Local Abbreviation stage := (integrate_and_deploy pf sc).
Local Abbreviation run :=
  (run_standalone pf sc OLLAMA_MODEL create_code_generation_prompt
     create_ui_generation_prompt svc_code svc_ui).

Lemma or_empty_nonempty (ui : option pystr) :
  or_empty ui <> [] <-> exists u, ui = Some u /\ u <> [].
Proof.
  destruct ui as [[|c u]|]; cbn.
  - split; [congruence | intros [u [E H]]; congruence].
  - split; [|discriminate].
    intros _. eexists. split; [reflexivity | discriminate].
  - split; [congruence | intros [u [E _]]; discriminate].
Qed.

Lemma or_empty_truthy (ui : option pystr) :
  or_empty ui <> [] -> truthy_opt ui = true.
Proof. destruct ui as [[|c u]|]; cbn; congruence. Qed.

(** When the integrate-and-deploy step reaches the deployer, and what it
    leaves alone when there is no UI text. *)
Lemma stage_reaches_deployer_iff (json : reqdict) (code : pystr)
    (ui : option pystr) (needs : bool) (w w' : world)
    (pd : option string) (calls : list stage_call) (dep : option deploy_result) :
  stage json code ui needs w = (Val (pd, calls, dep), w') ->
  (is_Some dep <->
     code <> [] /\ or_empty ui <> []
     /\ Forall (fun p => os_fault pf p = None) (project_paths pf))
  /\ (is_Some pd <-> is_Some dep)
  /\ (or_empty ui = [] ->
        w' = w
        /\ calls = if truthy code && negb needs
                   then [CallIntegrator code []] else []).
Proof.
  unfold integrate_and_deploy.
  destruct (truthy code && (negb needs || truthy_opt ui)) eqn:Hgo.
  - destruct (integrate_project_cases pf sc code (or_empty ui) (Some json) w)
      as [[Hb [Hu [Hok Hi]]] | [Hbad [w1 Hi]]].
    + rewrite (bind_val _ _ _ _ _ Hi).
      rewrite new_project_dir_nonempty. cbn [negb].
      rewrite (bind_val _ _ _ _ _ (assembled_has_project_dir pf sc _ _ _)).
      destruct (deploy_project_shape pf sc (new_project_dir pf)
                  (assembled pf sc code (or_empty ui) w)) as [r [w2 [Hd _]]].
      rewrite (bind_val _ _ _ _ _ Hd).
      intros H. injection H as <- <- <- <-.
      split; [split; eauto|]. split; [split; eauto|].
      intros E. contradiction.
    + rewrite (bind_val _ _ _ _ _ Hi).
      intros H. injection H as <- <- <- <-.
      split; [|split].
      * split; [intros [x Hx]; discriminate|].
        intros [Hb [Hu Hok]]. exfalso.
        destruct Hbad as [E | [E | Hex]]; [congruence | congruence |].
        rewrite Exists_exists in Hex. destruct Hex as [p [Hin Hp]].
        rewrite Forall_forall in Hok. apply Hp, Hok, Hin.
      * split; intros [x Hx]; discriminate.
      * intros E. rewrite E in Hi |- *.
        assert (Hn : truthy_opt ui = false)
          by (destruct ui as [[|c u]|]; cbn in E |- *; congruence).
        rewrite Hn, orb_false_r in Hgo. rewrite Hgo.
        unfold integrate_project in Hi.
        rewrite orb_true_r in Hi. injection Hi as <-. auto.
  - intros H. injection H as <- <- <- <-.
    split; [|split].
    + split; [intros [x Hx]; discriminate|].
      intros [Hb [Hu _]]. exfalso.
      apply or_empty_truthy in Hu. rewrite Hu, orb_true_r, andb_true_r in Hgo.
      destruct code; [congruence | discriminate].
    + split; intros [x Hx]; discriminate.
    + intros E. split; [reflexivity|].
      assert (Hn : truthy_opt ui = false)
        by (destruct ui as [[|c u]|]; cbn in E |- *; congruence).
      rewrite Hn, orb_false_r in Hgo. rewrite Hgo. reflexivity.
Qed.

(** X21.  A finished run hands a project to the deployer exactly when the
    requirements call for a UI, the backend text and the UI text are both
    non-empty, and the operating system refuses none of the project's
    paths; the result names a project directory in exactly those runs. *)
Theorem run_reaches_deployer_iff
    (text : option pystr) (json : reqdict) (w w' : world)
    (r : run_result) (t : run_trace) :
  run (Val (text, json)) w = (Finished r t, w') ->
  (is_Some (deployment t) <->
     needs_ui r = true
     /\ generated_code r <> []
     /\ (exists ui, generated_ui r = Some ui /\ ui <> [])
     /\ Forall (fun p => os_fault pf p = None) (project_paths pf))
  /\ (is_Some (project_dir r) <-> is_Some (deployment t)).
Proof.
  intros Hrun.
  destruct (run_standalone_finished pf sc OLLAMA_MODEL
              create_code_generation_prompt create_ui_generation_prompt
              svc_code svc_ui text json w)
    as [pd [calls [dep [w1 [Hstage Heq]]]]].
  rewrite Hrun in Heq. injection Heq as -> -> _.
  cbn [deployment needs_ui generated_code generated_ui project_dir].
  destruct (stage_reaches_deployer_iff _ _ _ _ _ _ _ _ _ Hstage)
    as [Hdep [Hpd _]].
  split; [|exact Hpd].
  rewrite Hdep, or_empty_nonempty.
  split.
  - intros [Hc [Hu Hok]]. repeat split; auto.
    destruct (_check_if_ui_needed_standalone json text); [reflexivity|].
    destruct Hu as [u [E _]]. discriminate.
  - intros [_ [Hc [Hu Hok]]]. auto.
Qed.

(** X22.  A run whose requirements call for no UI asks the UI worker
    nothing, calls the integrator with an empty UI text, and builds
    nothing: no project directory, no deployment, and a world that
    differs from the initial one only in the deployer's cleared handles. *)
Theorem run_without_ui_builds_nothing
    (text : option pystr) (json : reqdict) (w : world) :
  _check_if_ui_needed_standalone json text = false ->
  exists r t,
    run (Val (text, json)) w
    = (Finished r t, set_frontend_proc None (set_backend_proc None w))
    /\ needs_ui r = false
    /\ generated_ui r = None /\ ui_generation t = None
    /\ project_dir r = None /\ deployment t = None
    /\ stage_calls t
       = if truthy (generated_code r)
         then [CallIntegrator (generated_code r) []] else [].
Proof.
  intros Hneeds.
  destruct (run_standalone_finished pf sc OLLAMA_MODEL
              create_code_generation_prompt create_ui_generation_prompt
              svc_code svc_ui text json w)
    as [pd [calls [dep [w1 [Hstage Heq]]]]].
  rewrite Hneeds in Hstage, Heq. cbn [option_map] in Hstage, Heq.
  destruct (stage_reaches_deployer_iff _ _ _ _ _ _ _ _ _ Hstage)
    as [Hdep [Hpd Hsame]].
  destruct (Hsame eq_refl) as [-> ->].
  assert (Hnodep : dep = None).
  { destruct dep as [d|]; [|reflexivity].
    assert (H : is_Some (Some d)) by eauto.
    apply Hdep in H. destruct H as [_ [H _]]. cbn in H. congruence. }
  assert (Hnopd : pd = None).
  { destruct pd as [d|]; [|reflexivity].
    assert (H : is_Some (Some d)) by eauto.
    apply Hpd in H. rewrite Hnodep in H. destruct H; discriminate. }
  subst dep pd.
  eexists _, _. split; [exact Heq|].
  cbn [needs_ui generated_ui ui_generation project_dir deployment stage_calls
       generated_code negb].
  rewrite andb_true_r. repeat split.
Qed.

End MorePipelineFacts.

(** The completion service is unreachable and the requirements name UI
    components: the run reaches the deployer with two error messages. *)
Lemma run_reaches_deployer_iff_witness :
  exists r t w',
    run_standalone pf_ok sc0 model_name some_prompt some_prompt
      svc_down svc_down (Val (None, ui_requirements)) empty_world
    = (Finished r t, w')
    /\ (is_Some (deployment t) <->
          needs_ui r = true
          /\ generated_code r <> []
          /\ (exists ui, generated_ui r = Some ui /\ ui <> [])
          /\ Forall (fun p => os_fault pf_ok p = None) (project_paths pf_ok))
    /\ (is_Some (project_dir r) <-> is_Some (deployment t)).
Proof.
  eexists _, _, _. split; [vm_compute; reflexivity|].
  eapply (run_reaches_deployer_iff pf_ok sc0 model_name some_prompt
            some_prompt svc_down svc_down None ui_requirements empty_world).
  vm_compute. reflexivity.
Defined.

(** A batch job with an accepted backend text, started while an earlier
    deployment is running. *)
Lemma run_without_ui_builds_nothing_witness :
  exists r t,
    run_standalone pf_ok sc0 model_name some_prompt some_prompt
      svc_good svc_good_ui (Val (None, batch_requirements)) deployed_world
    = (Finished r t,
       set_frontend_proc None (set_backend_proc None deployed_world))
    /\ needs_ui r = false
    /\ generated_ui r = None /\ ui_generation t = None
    /\ project_dir r = None /\ deployment t = None
    /\ stage_calls t
       = if truthy (generated_code r)
         then [CallIntegrator (generated_code r) []] else [].
Proof.
  apply (run_without_ui_builds_nothing pf_ok sc0 model_name some_prompt
           some_prompt svc_good svc_good_ui None batch_requirements
           deployed_world).
  vm_compute. reflexivity.
Defined.

(** ** The message-driven integrator *)

Section IntegrateBehaviourFacts.
Variable pf : platform.
Variable sc : scaffold.
Variable PROJECT_DIR : string.
Variable DEPLOYER_JID : pystr.

Import IntegrateBehaviour.

Local Abbreviation irun :=
  (IntegrateBehaviour.run pf sc PROJECT_DIR DEPLOYER_JID).
Local Abbreviation irun_all :=
  (IntegrateBehaviour.run_all pf sc PROJECT_DIR DEPLOYER_JID).
Local Abbreviation ipaths := (IntegrateBehaviour.project_paths PROJECT_DIR).
Local Abbreviation iwritten := (IntegrateBehaviour.written sc PROJECT_DIR).
Local Abbreviation iannounce :=
  (IntegrateBehaviour.announcement PROJECT_DIR DEPLOYER_JID).

(** [write_project] goes through exactly when the operating system
    refuses none of its paths. *)
Lemma write_project_cases (backend_code ui_code : pystr) (w : world) :
  (Forall (fun p => os_fault pf p = None) ipaths
   /\ write_project pf sc PROJECT_DIR backend_code ui_code w
      = (Val tt, iwritten backend_code ui_code w))
  \/ (Exists (fun p => os_fault pf p <> None) ipaths
      /\ exists e w', write_project pf sc PROJECT_DIR backend_code ui_code w
                      = (Exc e, w')).
Proof.
  unfold write_project, bind, makedirs, write_file, project_paths.
  repeat match goal with
  | |- context [os_fault pf ?p] =>
      let E := fresh "E" in
      destruct (os_fault pf p) eqn:E;
      [ right; split;
        [ rewrite Exists_exists; eexists; split;
          [| rewrite E; discriminate]; set_solver
        | eexists _, _; reflexivity ]
      | ]
  end.
  left. split; [repeat constructor; assumption | reflexivity].
Qed.

Lemma written_reads_back (backend_code ui_code : pystr) (w : world) :
  let w' := iwritten backend_code ui_code w in
  let backend_dir := path_join PROJECT_DIR "backend" in
  let frontend_dir := path_join PROJECT_DIR "frontend" in
  w_files w' !! path_join backend_dir "app.py" = Some backend_code
  /\ w_files w' !! path_join backend_dir "requirements.txt"
     = Some unpinned_requirements
  /\ w_files w' !! path_join frontend_dir "App.jsx" = Some ui_code
  /\ w_files w' !! path_join frontend_dir "index.html"
     = w_files w !! path_join frontend_dir "index.html".
Proof.
  unfold written. cbn [w_files].
  repeat split;
    rewrite ?lookup_insert_ne by paths_differ;
    first [apply lookup_insert_eq | reflexivity].
Qed.

Lemma performative_is_true (name : string) (msg : message) :
  performative_is name msg = true <-> msg_performative msg = Some (lit name).
Proof.
  unfold performative_is, pystr_eqb.
  destruct (msg_performative msg) as [p|].
  - rewrite bool_decide_eq_true. split; congruence.
  - split; discriminate.
Qed.

Lemma paired_store (msg : message) (a : attrs) :
  paired a -> paired (store msg a).
Proof.
  unfold paired, store. intros [Hb Hu].
  repeat match goal with
  | |- context [performative_is ?n msg] => destruct (performative_is n msg)
  end; cbn; split; try assumption; split; eauto.
Qed.

(** Every way one [run] on a message can go. *)
Lemma run_on_message (msg : message) (a : attrs) (w : world) :
  let a1 := store msg a in
  ((a_backend_code a1 = None \/ a_ui_code a1 = None)
   /\ irun (Some msg) a w = (a1, [], w))
  \/ exists b u,
       a_backend_code a1 = Some b /\ a_ui_code a1 = Some u
       /\ ((Exists (fun p => os_fault pf p <> None) ipaths
            /\ exists w', irun (Some msg) a w = (a1, [], w'))
           \/ (Forall (fun p => os_fault pf p = None) ipaths
               /\ ((exists s t,
                      a_backend_sender a1 = Some s /\ a_ui_sender a1 = Some t
                      /\ irun (Some msg) a w
                         = (no_attrs, iannounce s t, iwritten b u w))
                   \/ (exists s,
                         a_backend_sender a1 = Some s /\ a_ui_sender a1 = None
                         /\ irun (Some msg) a w
                            = (no_attrs,
                               [project_ready PROJECT_DIR s;
                                deploy_request PROJECT_DIR DEPLOYER_JID],
                               iwritten b u w))
                   \/ (a_backend_sender a1 = None /\ a_ui_sender a1 = None
                       /\ irun (Some msg) a w
                          = (no_attrs,
                             [deploy_request PROJECT_DIR DEPLOYER_JID],
                             iwritten b u w))
                   \/ (exists t,
                         a_backend_sender a1 = None /\ a_ui_sender a1 = Some t
                         /\ irun (Some msg) a w = (a1, [], iwritten b u w))))).
Proof.
  intros a1. unfold run. fold a1.
  destruct (a_backend_code a1) as [b|] eqn:Eb; [|left; auto].
  destruct (a_ui_code a1) as [u|] eqn:Eu; [|left; auto].
  right. exists b, u. split; [reflexivity|]. split; [reflexivity|].
  destruct (write_project_cases b u w) as [[Hok ->] | [Hbad [e [w' ->]]]].
  - right. split; [exact Hok|].
    destruct (a_backend_sender a1) as [s|] eqn:Es;
      destruct (a_ui_sender a1) as [t|] eqn:Et.
    + left. exists s, t. repeat split.
    + right. left. exists s. repeat split.
    + right. right. right. exists t. repeat split.
    + right. right. left. repeat split.
  - left. split; [exact Hbad|]. exists w'. reflexivity.
Qed.

(** X23.  Whenever a [run] of the integrator sends anything, it has just
    written a whole project from the backend text and the UI text it
    holds: the last message is the deployment request, every other one
    tells a sender of a text that the project is ready, and all the
    attributes are deleted.  The manifest is the five unpinned baseline
    lines whatever the backend text, and no [index.html] is written. *)
Theorem integrator_announces_only_a_written_project
    (received : option message) (a a' : attrs) (out : list outgoing)
    (w w' : world) :
  irun received a w = (a', out, w') ->
  out <> [] ->
  exists msg b u,
    received = Some msg
    /\ a_backend_code (store msg a) = Some b
    /\ a_ui_code (store msg a) = Some u
    /\ a' = no_attrs
    /\ last out = Some (deploy_request PROJECT_DIR DEPLOYER_JID)
    /\ (forall m, In m out ->
          m = deploy_request PROJECT_DIR DEPLOYER_JID
          \/ exists s, m = project_ready PROJECT_DIR s
               /\ (a_backend_sender (store msg a) = Some s
                   \/ a_ui_sender (store msg a) = Some s))
    /\ w' = iwritten b u w
    /\ w_files w' !! path_join (path_join PROJECT_DIR "backend") "app.py"
       = Some b
    /\ w_files w' !! path_join (path_join PROJECT_DIR "backend") "requirements.txt"
       = Some unpinned_requirements
    /\ w_files w' !! path_join (path_join PROJECT_DIR "frontend") "App.jsx"
       = Some u
    /\ w_files w' !! path_join (path_join PROJECT_DIR "frontend") "index.html"
       = w_files w !! path_join (path_join PROJECT_DIR "frontend") "index.html".
Proof.
  intros Hrun Hout.
  destruct received as [msg|];
    [|cbn in Hrun; injection Hrun as _ <- _; contradiction].
  exists msg.
  destruct (run_on_message msg a w)
    as [[_ Heq] | [b [u [Hb [Hu [[_ [w1 Heq]] | [_ Hsent]]]]]]].
  - rewrite Hrun in Heq. injection Heq as _ -> _. contradiction.
  - rewrite Hrun in Heq. injection Heq as _ -> _. contradiction.
  - exists b, u. split; [reflexivity|]. split; [exact Hb|]. split; [exact Hu|].
    destruct (written_reads_back b u w) as [Ha [Hr [Hj Hi]]].
    destruct Hsent as [[s [t [Hs [Ht Heq]]]] | [[s [Hs [Ht Heq]]]
      | [[Hs [Ht Heq]] | [t [Hs [Ht Heq]]]]]];
      rewrite Hrun in Heq; injection Heq as -> -> ->;
      try contradiction.
    + split; [reflexivity|]. split.
      { unfold announcement. destruct (negb _); reflexivity. }
      split.
      { unfold announcement. intros m Hm.
        destruct (negb _); cbn in Hm;
          repeat (destruct Hm as [<- | Hm]); try contradiction; eauto 6. }
      auto 6.
    + split; [reflexivity|]. split; [reflexivity|]. split.
      { intros m Hm. cbn in Hm.
        repeat (destruct Hm as [<- | Hm]); try contradiction; eauto 6. }
      auto 6.
    + split; [reflexivity|]. split; [reflexivity|]. split.
      { intros m Hm. cbn in Hm.
        repeat (destruct Hm as [<- | Hm]); try contradiction; eauto 6. }
      auto 6.
Qed.

(** X24.  The integrator keeps each text together with its sender: if
    the attributes are paired before a [run] they are paired after it.
    On paired attributes the assembly cannot trip over a missing sender:
    whenever both texts are held after storing a message, whatever its
    performative, and the operating system refuses none of the paths,
    the project is written and announced, and the attributes are
    deleted. *)
Theorem integrator_keeps_texts_and_senders_paired
    (received : option message) (a a' : attrs) (out : list outgoing)
    (w w' : world) :
  paired a ->
  irun received a w = (a', out, w') ->
  paired a'
  /\ (forall msg b u,
        received = Some msg ->
        a_backend_code (store msg a) = Some b ->
        a_ui_code (store msg a) = Some u ->
        Forall (fun p => os_fault pf p = None) ipaths ->
        exists s t,
          a_backend_sender (store msg a) = Some s
          /\ a_ui_sender (store msg a) = Some t
          /\ out = iannounce s t
          /\ a' = no_attrs
          /\ w' = iwritten b u w).
Proof.
  intros Hp Hrun.
  assert (Hno : paired no_attrs) by (split; split; intros [x Hx]; discriminate).
  destruct received as [msg|];
    [|cbn in Hrun; injection Hrun as <- _ _; split; [exact Hp|];
      intros; discriminate].
  pose proof (paired_store msg a Hp) as Hp1.
  destruct (run_on_message msg a w)
    as [[Hmiss Heq] | [b [u [Hb [Hu [[Hbad [w1 Heq]] | [Hok Hsent]]]]]]].
  - rewrite Hrun in Heq. injection Heq as -> _ _. split; [exact Hp1|].
    intros m b u Hm Hb Hu _. injection Hm as <-.
    destruct Hmiss; congruence.
  - rewrite Hrun in Heq. injection Heq as -> _ _. split; [exact Hp1|].
    intros m b' u' Hm _ _ Hok. exfalso.
    rewrite Exists_exists in Hbad. destruct Hbad as [p [Hin Hf]].
    rewrite Forall_forall in Hok. apply Hf, Hok, Hin.
  - destruct Hp1 as [Hpb Hpu].
    assert (Hsb : is_Some (a_backend_sender (store msg a)))
      by (apply Hpb; rewrite Hb; eauto).
    assert (Hsu : is_Some (a_ui_sender (store msg a)))
      by (apply Hpu; rewrite Hu; eauto).
    destruct Hsb as [s Hs]. destruct Hsu as [t Ht].
    destruct Hsent as [[s' [t' [Hs' [Ht' Heq]]]] | [[s' [Hs' [Ht' Heq]]]
      | [[Hs' [Ht' Heq]] | [t' [Hs' [Ht' Heq]]]]]]; try congruence.
    rewrite Hrun in Heq. injection Heq as -> -> ->.
    split; [exact Hno|].
    intros m b' u' Hm Hb' Hu' _. injection Hm as <-.
    exists s', t'. repeat split; congruence.
Qed.

Lemma store_code (msg : message) (a : attrs) :
  performative_is "inform_code" msg = true ->
  store msg a
  = {| a_backend_code := Some (msg_body msg);
       a_backend_sender := Some (msg_sender msg);
       a_ui_code := a_ui_code a; a_ui_sender := a_ui_sender a;
       a_requirements := a_requirements a;
       a_requirements_sender := a_requirements_sender a |}.
Proof. unfold store. intros ->. reflexivity. Qed.

Lemma store_ui (msg : message) (a : attrs) :
  performative_is "inform_ui_code" msg = true ->
  store msg a
  = {| a_backend_code := a_backend_code a;
       a_backend_sender := a_backend_sender a;
       a_ui_code := Some (msg_body msg);
       a_ui_sender := Some (msg_sender msg);
       a_requirements := a_requirements a;
       a_requirements_sender := a_requirements_sender a |}.
Proof.
  intros H. unfold store. rewrite H.
  apply performative_is_true in H.
  unfold performative_is at 1. rewrite H.
  replace (pystr_eqb (lit "inform_ui_code") (lit "inform_code")) with false
    by reflexivity.
  reflexivity.
Qed.

(** X25.  Starting with neither text held, a backend text and a UI text
    are paired in whichever order they arrive: both orders leave the
    same attributes, messages and world.  When the operating system
    refuses none of the paths, the first message changes nothing but
    the attributes, and the second writes the project from the two
    bodies and announces it to both senders, once when they are the
    same, and to the deployer. *)
Theorem integrator_pairs_texts_in_either_order
    (code ui : message) (a : attrs) (w : world) :
  performative_is "inform_code" code = true ->
  performative_is "inform_ui_code" ui = true ->
  a_backend_code a = None -> a_ui_code a = None ->
  irun_all [Some code; Some ui] a w = irun_all [Some ui; Some code] a w
  /\ (Forall (fun p => os_fault pf p = None) ipaths ->
      irun (Some code) a w = (store code a, [], w)
      /\ irun (Some ui) a w = (store ui a, [], w)
      /\ irun_all [Some code; Some ui] a w
         = (no_attrs, iannounce (msg_sender code) (msg_sender ui),
            iwritten (msg_body code) (msg_body ui) w)).
Proof.
  intros Hc Hu Hnb Hnu.
  assert (H1 : irun (Some code) a w = (store code a, [], w)).
  { unfold run. rewrite (store_code code a Hc). cbn. rewrite Hnu. reflexivity. }
  assert (H2 : irun (Some ui) a w = (store ui a, [], w)).
  { unfold run. rewrite (store_ui ui a Hu). cbn. rewrite Hnb. reflexivity. }
  assert (Hsame : store ui (store code a) = store code (store ui a))
    by (rewrite !(store_code code _ Hc), !(store_ui ui _ Hu); reflexivity).
  assert (H3 : irun (Some ui) (store code a) w
               = irun (Some code) (store ui a) w)
    by (unfold run; rewrite Hsame; reflexivity).
  split.
  - cbn [run_all]. rewrite H1, H2, H3. reflexivity.
  - intros Hok. split; [exact H1|]. split; [exact H2|].
    cbn [run_all]. rewrite H1.
    assert (Eb : a_backend_code (store ui (store code a)) = Some (msg_body code))
      by (rewrite (store_ui ui _ Hu), (store_code code _ Hc); reflexivity).
    assert (Eu : a_ui_code (store ui (store code a)) = Some (msg_body ui))
      by (rewrite (store_ui ui _ Hu), (store_code code _ Hc); reflexivity).
    assert (Es : a_backend_sender (store ui (store code a))
                 = Some (msg_sender code))
      by (rewrite (store_ui ui _ Hu), (store_code code _ Hc); reflexivity).
    assert (Et : a_ui_sender (store ui (store code a)) = Some (msg_sender ui))
      by (rewrite (store_ui ui _ Hu), (store_code code _ Hc); reflexivity).
    destruct (run_on_message ui (store code a) w)
      as [[Hmiss _] | [b [u [Hb [Hu' [[Hbad _] | [_ Hsent]]]]]]].
    + exfalso. destruct Hmiss; congruence.
    + exfalso. rewrite Exists_exists in Hbad. destruct Hbad as [p [Hin Hf]].
      rewrite Forall_forall in Hok. apply Hf, Hok, Hin.
    + destruct Hsent as [[s [t [Hs [Ht Heq]]]] | [[s [Hs [Ht Heq]]]
        | [[Hs [Ht Heq]] | [t [Hs [Ht Heq]]]]]]; try congruence.
      assert (s = msg_sender code) by congruence.
      assert (t = msg_sender ui) by congruence.
      assert (b = msg_body code) by congruence.
      assert (u = msg_body ui) by congruence.
      subst s t b u. rewrite Heq.
      cbn [app]. rewrite app_nil_r. reflexivity.
Qed.

End IntegrateBehaviourFacts.

(** The UI text arrives after the backend text. *)
Lemma integrator_announces_only_a_written_project_witness :
  exists a' out w',
    IntegrateBehaviour.run pf_ok sc0 "/work/bot_project" deployer_jid
      (Some ui_msg) (IntegrateBehaviour.store code_msg IntegrateBehaviour.no_attrs)
      empty_world
    = (a', out, w')
    /\ out <> []
    /\ exists msg b u,
         Some ui_msg = Some msg
         /\ IntegrateBehaviour.a_backend_code
              (IntegrateBehaviour.store msg
                 (IntegrateBehaviour.store code_msg IntegrateBehaviour.no_attrs))
            = Some b
         /\ IntegrateBehaviour.a_ui_code
              (IntegrateBehaviour.store msg
                 (IntegrateBehaviour.store code_msg IntegrateBehaviour.no_attrs))
            = Some u
         /\ a' = IntegrateBehaviour.no_attrs
         /\ last out
            = Some (IntegrateBehaviour.deploy_request "/work/bot_project"
                      deployer_jid)
         /\ (forall m, In m out ->
               m = IntegrateBehaviour.deploy_request "/work/bot_project"
                     deployer_jid
               \/ exists s,
                    m = IntegrateBehaviour.project_ready "/work/bot_project" s
                    /\ (IntegrateBehaviour.a_backend_sender
                          (IntegrateBehaviour.store msg
                             (IntegrateBehaviour.store code_msg
                                IntegrateBehaviour.no_attrs))
                        = Some s
                        \/ IntegrateBehaviour.a_ui_sender
                             (IntegrateBehaviour.store msg
                                (IntegrateBehaviour.store code_msg
                                   IntegrateBehaviour.no_attrs))
                           = Some s))
         /\ w' = IntegrateBehaviour.written sc0 "/work/bot_project" b u
                   empty_world
         /\ w_files w'
              !! path_join (path_join "/work/bot_project" "backend") "app.py"
            = Some b
         /\ w_files w'
              !! path_join (path_join "/work/bot_project" "backend")
                   "requirements.txt"
            = Some IntegrateBehaviour.unpinned_requirements
         /\ w_files w'
              !! path_join (path_join "/work/bot_project" "frontend") "App.jsx"
            = Some u
         /\ w_files w'
              !! path_join (path_join "/work/bot_project" "frontend")
                   "index.html"
            = w_files empty_world
                !! path_join (path_join "/work/bot_project" "frontend")
                     "index.html".
Proof.
  eexists _, _, _. split; [vm_compute; reflexivity|].
  split; [discriminate|].
  eapply (integrator_announces_only_a_written_project pf_ok sc0
            "/work/bot_project" deployer_jid (Some ui_msg)).
  - vm_compute. reflexivity.
  - discriminate.
Defined.

(** The same exchange, seen from the attributes. *)
Lemma integrator_keeps_texts_and_senders_paired_witness :
  exists a' out w',
    IntegrateBehaviour.run pf_ok sc0 "/work/bot_project" deployer_jid
      (Some ui_msg) (IntegrateBehaviour.store code_msg IntegrateBehaviour.no_attrs)
      empty_world
    = (a', out, w')
    /\ IntegrateBehaviour.paired a'
    /\ (forall msg b u,
          Some ui_msg = Some msg ->
          IntegrateBehaviour.a_backend_code
            (IntegrateBehaviour.store msg
               (IntegrateBehaviour.store code_msg IntegrateBehaviour.no_attrs))
          = Some b ->
          IntegrateBehaviour.a_ui_code
            (IntegrateBehaviour.store msg
               (IntegrateBehaviour.store code_msg IntegrateBehaviour.no_attrs))
          = Some u ->
          Forall (fun p => os_fault pf_ok p = None)
            (IntegrateBehaviour.project_paths "/work/bot_project") ->
          exists s t,
            IntegrateBehaviour.a_backend_sender
              (IntegrateBehaviour.store msg
                 (IntegrateBehaviour.store code_msg IntegrateBehaviour.no_attrs))
            = Some s
            /\ IntegrateBehaviour.a_ui_sender
                 (IntegrateBehaviour.store msg
                    (IntegrateBehaviour.store code_msg
                       IntegrateBehaviour.no_attrs))
               = Some t
            /\ out = IntegrateBehaviour.announcement "/work/bot_project"
                       deployer_jid s t
            /\ a' = IntegrateBehaviour.no_attrs
            /\ w' = IntegrateBehaviour.written sc0 "/work/bot_project" b u
                      empty_world).
Proof.
  eexists _, _, _. split; [vm_compute; reflexivity|].
  eapply (integrator_keeps_texts_and_senders_paired pf_ok sc0
            "/work/bot_project" deployer_jid (Some ui_msg)).
  - vm_compute. split; split; intros H; first [exact H | eauto].
  - vm_compute. reflexivity.
Defined.

(** A backend text and a UI text from two senders. *)
Lemma integrator_pairs_texts_in_either_order_witness :
  let irun_all :=
    IntegrateBehaviour.run_all pf_ok sc0 "/work/bot_project" deployer_jid in
  let irun :=
    IntegrateBehaviour.run pf_ok sc0 "/work/bot_project" deployer_jid in
  let a := IntegrateBehaviour.no_attrs in
  irun_all [Some code_msg; Some ui_msg] a empty_world
  = irun_all [Some ui_msg; Some code_msg] a empty_world
  /\ (Forall (fun p => os_fault pf_ok p = None)
        (IntegrateBehaviour.project_paths "/work/bot_project") ->
      irun (Some code_msg) a empty_world
      = (IntegrateBehaviour.store code_msg a, [], empty_world)
      /\ irun (Some ui_msg) a empty_world
         = (IntegrateBehaviour.store ui_msg a, [], empty_world)
      /\ irun_all [Some code_msg; Some ui_msg] a empty_world
         = (IntegrateBehaviour.no_attrs,
            IntegrateBehaviour.announcement "/work/bot_project" deployer_jid
              (msg_sender code_msg) (msg_sender ui_msg),
            IntegrateBehaviour.written sc0 "/work/bot_project"
              (msg_body code_msg) (msg_body ui_msg) empty_world)).
Proof.
  apply (integrator_pairs_texts_in_either_order pf_ok sc0 "/work/bot_project"
           deployer_jid code_msg ui_msg IntegrateBehaviour.no_attrs
           empty_world); reflexivity.
Defined.

(** ** The message-driven deployer *)

Section DeployBehaviourFacts.
Variable pf : platform.
Variable npm_install : string -> M unit.
Variable status_json : pystr -> pystr.

Local Abbreviation drun := (DeployBehaviour.run pf npm_install status_json).
Local Abbreviation ddeploy := (DeployBehaviour._deploy_project pf npm_install).
Local Abbreviation dstop := DeployBehaviour._stop_current_services.
Local Abbreviation dterminate := DeployBehaviour.terminate_wait.

Lemma alter_absent (f : process -> process) (l : list process) (i : nat) :
  l !! i = None -> alter f i l = l.
Proof.
  revert i. induction l as [|x l IH]; intros [|i] H; try reflexivity;
    [discriminate|].
  cbn. f_equal. apply IH. exact H.
Qed.

Lemma terminate_wait_heeded (pid : nat) (w : world) :
  (forall p, w_procs w !! pid = Some p -> is_running p = true ->
     pr_ignores_sigterm p = false) ->
  dterminate pid w = terminate_wait_kill pid w.
Proof.
  intros H.
  unfold DeployBehaviour.terminate_wait, terminate_wait_kill, bind, gets, modify.
  destruct (w_procs w !! pid) as [p|] eqn:E.
  - assert (Hc : is_running p && pr_ignores_sigterm p = false).
    { destruct (is_running p) eqn:Er; [|reflexivity].
      rewrite (H p eq_refl Er). reflexivity. }
    rewrite Hc. f_equal. f_equal.
    apply list_alter_ext; [|reflexivity].
    intros q Hq. rewrite E in Hq. injection Hq as <-.
    unfold DeployBehaviour.with_status_if_running, graceful_stop.
    destruct (is_running p) eqn:Er; [|reflexivity].
    rewrite (H p eq_refl Er). reflexivity.
  - unfold ret. f_equal.
    rewrite alter_absent by exact E.
    destruct w; reflexivity.
Qed.

Lemma terminate_wait_stubborn (pid : nat) (p : process) (w : world) :
  w_procs w !! pid = Some p -> is_running p = true ->
  pr_ignores_sigterm p = true ->
  dterminate pid w = (Exc (lit "TimeoutExpired"), w).
Proof.
  intros E Hr Hs.
  unfold DeployBehaviour.terminate_wait, bind, gets. rewrite E, Hr, Hs.
  reflexivity.
Qed.

(** [terminate_wait] touches nothing but the states of processes. *)
Lemma terminate_wait_frame (pid : nat) (w : world) :
  exists r w1,
    dterminate pid w = (r, w1)
    /\ w_dirs w1 = w_dirs w /\ w_files w1 = w_files w
    /\ length (w_procs w1) = length (w_procs w)
    /\ backend_proc w1 = backend_proc w
    /\ frontend_proc w1 = frontend_proc w.
Proof.
  unfold DeployBehaviour.terminate_wait, bind, gets, modify, raise, ret.
  destruct (w_procs w !! pid) as [p|]; [destruct (_ && _)|];
    eexists _, _; (split; [reflexivity|]); cbn;
    rewrite ?length_alter; auto.
Qed.

(** The agent's [_stop_current_services] never raises and touches no
    file or directory. *)
Lemma agent_stop_frame (w : world) :
  exists w1,
    dstop w = (Val tt, w1)
    /\ w_dirs w1 = w_dirs w /\ w_files w1 = w_files w
    /\ length (w_procs w1) = length (w_procs w).
Proof.
  unfold DeployBehaviour._stop_current_services, try_except, bind, gets.
  destruct (backend_proc w) as [bp|].
  - destruct (terminate_wait_frame bp w)
      as [r [w1 [-> [Hd [Hf [Hl [_ Hfp]]]]]]].
    destruct r as [[]|e]; [|eauto].
    unfold modify at 1. cbn [frontend_proc set_backend_proc].
    destruct (frontend_proc w1) as [fp|].
    + destruct (terminate_wait_frame fp (set_backend_proc None w1))
        as [r2 [w2 [-> [Hd2 [Hf2 [Hl2 _]]]]]].
      cbn in Hd2, Hf2, Hl2.
      destruct r2 as [[]|e]; [|exists w2; repeat split; congruence].
      eexists. split; [reflexivity|]. cbn. rewrite !length_map.
      repeat split; congruence.
    + eexists. split; [reflexivity|]. cbn. rewrite !length_map. auto.
  - unfold ret at 1. destruct (frontend_proc w) as [fp|].
    + destruct (terminate_wait_frame fp w) as [r2 [w2 [-> [Hd2 [Hf2 [Hl2 _]]]]]].
      destruct r2 as [[]|e]; [|exists w2; repeat split; congruence].
      eexists. split; [reflexivity|]. cbn. rewrite !length_map.
      repeat split; congruence.
    + eexists. split; [reflexivity|]. cbn. rewrite !length_map. auto.
Qed.

Lemma agent_stop_backend_step (w : world) (bp : nat) :
  backend_proc w = Some bp ->
  dstop w = match dterminate bp w with
            | (Val _, w1) => dstop (set_backend_proc None w1)
            | (Exc _, w1) => (Val tt, w1)
            end.
Proof.
  intros H.
  unfold DeployBehaviour._stop_current_services, try_except, bind, gets.
  rewrite H. destruct (dterminate bp w) as [[[]|e] w1]; reflexivity.
Qed.

Lemma agent_stop_frontend_step (w : world) (fp : nat) (e : pystr) (w1 : world) :
  backend_proc w = None -> frontend_proc w = Some fp ->
  dterminate fp w = (Exc e, w1) ->
  dstop w = (Val tt, w1).
Proof.
  intros Hb Hf Ht.
  unfold DeployBehaviour._stop_current_services, try_except, bind, gets.
  rewrite Hb. unfold ret at 1. rewrite Hf, Ht. reflexivity.
Qed.

(** X26.  A deployment request that names an existing path is always
    answered with the success status, addressed to its sender, whatever
    [_deploy_project] returned: its result is dropped.  In particular
    the answer is "success" when the project has no backend directory
    and nothing was started. *)
Theorem deploy_request_is_answered_with_success
    (msg : message) (w : world) :
  performative_is "deploy_project" msg = true ->
  let project_dir := strip (msg_body msg) in
  let dir := string_of_list_ascii project_dir in
  path_exists dir w = (Val true, w) ->
  exists ok w1 w',
    dstop w = (Val tt, w1)
    /\ ddeploy dir w1 = (Val ok, w')
    /\ drun (Some msg) w
       = (Val [{| out_to := msg_sender msg;
                  out_performative := lit "inform_deployment_status";
                  out_body := status_json project_dir |}], w')
    /\ (path_exists (path_join dir "backend") w = (Val false, w) ->
        ok = false /\ w' = w1
        /\ length (w_procs w') = length (w_procs w)).
Proof.
  intros Hperf project_dir dir Hdir.
  destruct (agent_stop_frame w) as [w1 [Hstop [Hd [Hf Hl]]]].
  assert (Htotal : exists ok w', ddeploy dir w1 = (Val ok, w')).
  { unfold DeployBehaviour._deploy_project. apply try_except_total.
    intros e w0. eexists _, _. reflexivity. }
  destruct Htotal as [ok [w' Hdeploy]].
  exists ok, w1, w'. split; [exact Hstop|]. split; [exact Hdeploy|]. split.
  - unfold DeployBehaviour.run. rewrite Hperf.
    fold project_dir. fold dir.
    unfold try_except.
    rewrite (bind_val _ _ _ _ _ Hdir).
    rewrite (bind_val _ _ _ _ _ Hstop).
    rewrite (bind_val _ _ _ _ _ Hdeploy). reflexivity.
  - intros Hmissing.
    assert (Hm1 : path_exists (path_join dir "backend") w1 = (Val false, w1)).
    { unfold path_exists, gets in Hmissing |- *.
      injection Hmissing as Hmissing. rewrite Hd, Hf, Hmissing. reflexivity. }
    unfold DeployBehaviour._deploy_project, try_except in Hdeploy.
    rewrite (bind_val _ _ _ _ _ Hm1) in Hdeploy. cbn in Hdeploy.
    injection Hdeploy as <- <-. auto.
Qed.

Lemma alter_graceful_stop_down (l : list process) (i j : nat) (x : process) :
  l !! i = Some x -> is_running x = false \/ j = i ->
  exists y, alter graceful_stop j l !! i = Some y /\ is_running y = false.
Proof.
  intros Hx Hor. destruct (decide (j = i)) as [->|Hne].
  - rewrite list_lookup_alter_eq, Hx. cbn. eexists. split; [reflexivity|].
    apply graceful_stop_stays_down.
  - rewrite list_lookup_alter_ne by exact Hne.
    destruct Hor as [Hd|E]; [eauto | contradiction].
Qed.

Lemma sweep_keeps_down (l : list process) (i : nat) (x : process) :
  l !! i = Some x -> is_running x = false ->
  exists y, map (kill_listeners 3000) (map (kill_listeners 8000) l) !! i = Some y
            /\ is_running y = false.
Proof.
  intros Hx Hd. rewrite !lookup_map_process, Hx. cbn.
  eexists. split; [reflexivity|].
  apply kill_listeners_stopped, kill_listeners_stopped, Hd.
Qed.

(** The standalone [_stop_current_services] leaves no held process
    running. *)
Lemma standalone_stop_stops_held (w : world) (i : nat) (p : process) :
  backend_proc w = Some i \/ frontend_proc w = Some i ->
  w_procs w !! i = Some p ->
  exists q, w_procs (snd (_stop_current_services w)) !! i = Some q
            /\ is_running q = false.
Proof.
  intros Hheld Hi.
  unfold _stop_current_services, try_except, bind, gets, terminate_wait_kill,
    modify, ret.
  cbn -[kill_listeners].
  destruct (backend_proc w) as [bp|] eqn:Eb;
    destruct (frontend_proc w) as [fp|] eqn:Ef;
    cbn -[kill_listeners]; rewrite ?Eb, ?Ef; cbn -[kill_listeners].
  - destruct (decide (bp = i)) as [->|Hne].
    + destruct (alter_graceful_stop_down (w_procs w) i i p Hi (or_intror eq_refl))
        as [y [Hy Hd]].
      destruct (alter_graceful_stop_down _ i fp y Hy (or_introl Hd))
        as [z [Hz Hdz]].
      apply (sweep_keeps_down _ i z Hz Hdz).
    + destruct Hheld as [E|E]; [congruence|]. injection E as ->.
      assert (Hy : alter graceful_stop bp (w_procs w) !! i = Some p)
        by (rewrite list_lookup_alter_ne by exact Hne; exact Hi).
      destruct (alter_graceful_stop_down _ i i p Hy (or_intror eq_refl))
        as [z [Hz Hdz]].
      apply (sweep_keeps_down _ i z Hz Hdz).
  - destruct Hheld as [E|E]; [|discriminate]. injection E as ->.
    destruct (alter_graceful_stop_down (w_procs w) i i p Hi (or_intror eq_refl))
      as [y [Hy Hd]].
    apply (sweep_keeps_down _ i y Hy Hd).
  - destruct Hheld as [E|E]; [discriminate|]. injection E as ->.
    destruct (alter_graceful_stop_down (w_procs w) i i p Hi (or_intror eq_refl))
      as [y [Hy Hd]].
    apply (sweep_keeps_down _ i y Hy Hd).
  - destruct Hheld; discriminate.
Qed.

(** X27.  The agent's [_stop_current_services] against the standalone
    one.  They do the same unless a held process is running and ignores
    the terminate request.  Such a process stops the agent's version
    short: the process keeps running, its handle is kept, and when it
    is the backend nothing at all is changed; the standalone version
    leaves it stopped. *)
Theorem agent_stop_gives_up_on_a_stubborn_process (w : world) :
  ((forall i p,
      backend_proc w = Some i \/ frontend_proc w = Some i ->
      w_procs w !! i = Some p -> is_running p = true ->
      pr_ignores_sigterm p = false) ->
   dstop w = _stop_current_services w)
  /\ (forall i p,
        backend_proc w = Some i \/ frontend_proc w = Some i ->
        w_procs w !! i = Some p -> is_running p = true ->
        pr_ignores_sigterm p = true ->
        let w' := snd (dstop w) in
        w_procs w' !! i = Some p
        /\ (backend_proc w = Some i -> w' = w)
        /\ (frontend_proc w = Some i -> frontend_proc w' = Some i)
        /\ exists q,
             w_procs (snd (_stop_current_services w)) !! i = Some q
             /\ is_running q = false).
Proof.
  split.
  - intros Hheed.
    unfold DeployBehaviour._stop_current_services, _stop_current_services,
      try_except, bind, gets.
    destruct (backend_proc w) as [bp|] eqn:Eb.
    + rewrite (terminate_wait_heeded bp w)
        by (intros p Hp Hr; apply (Hheed bp p); auto).
      unfold terminate_wait_kill, modify.
      cbn [frontend_proc set_backend_proc set_procs].
      destruct (frontend_proc w) as [fp|] eqn:Ef; [|reflexivity].
      rewrite terminate_wait_heeded; [unfold modify; reflexivity|].
      cbn [w_procs set_backend_proc set_procs]. intros p Hp Hr.
      destruct (decide (bp = fp)) as [->|Hne].
      * rewrite list_lookup_alter_eq in Hp.
        destruct (w_procs w !! fp) as [q|]; [|discriminate].
        injection Hp as <-.
        rewrite graceful_stop_stays_down in Hr. discriminate.
      * rewrite list_lookup_alter_ne in Hp by exact Hne.
        apply (Hheed fp p); auto.
    + unfold ret, terminate_wait_kill, modify.
      destruct (frontend_proc w) as [fp|] eqn:Ef; [|reflexivity].
      rewrite terminate_wait_heeded; [unfold modify; reflexivity|].
      intros p Hp Hr. apply (Hheed fp p); auto.
  - intros i p Hheld Hi Hr Hs w'. subst w'.
    pose proof (standalone_stop_stops_held w i p Hheld Hi) as Hstandalone.
    destruct (backend_proc w) as [bp|] eqn:Eb.
    + rewrite (agent_stop_backend_step w bp Eb).
      destruct (decide (bp = i)) as [->|Hne].
      * rewrite (terminate_wait_stubborn i p w Hi Hr Hs). cbn [snd].
        repeat split; auto.
      * destruct Hheld as [Hheld|Hheld]; [congruence|].
        destruct (terminate_wait_frame bp w)
          as [r [w1 [Ht [_ [_ [_ [_ Hfp]]]]]]].
        assert (Hi1 : w_procs w1 !! i = Some p).
        { revert Ht.
          unfold DeployBehaviour.terminate_wait, bind, gets, modify, raise, ret.
          destruct (w_procs w !! bp) as [q|]; [destruct (_ && _)|];
            intros Ht; injection Ht as _ <-; cbn;
            rewrite ?list_lookup_alter_ne by exact Hne; exact Hi. }
        rewrite Ht. destruct r as [[]|e]; cbn [snd].
        -- rewrite (agent_stop_frontend_step (set_backend_proc None w1) i
                      (lit "TimeoutExpired") (set_backend_proc None w1));
             [ cbn [snd w_procs set_backend_proc frontend_proc];
               split; [exact Hi1|]; split; [congruence|];
               split; [congruence | exact Hstandalone]
             | reflexivity
             | cbn; congruence
             | apply (terminate_wait_stubborn i p); [exact Hi1 | exact Hr | exact Hs] ].
        -- split; [exact Hi1|]. split; [congruence|].
           split; [congruence | exact Hstandalone].
    + destruct Hheld as [Hheld|Hheld]; [congruence|].
      rewrite (agent_stop_frontend_step w i (lit "TimeoutExpired") w Eb Hheld
                 (terminate_wait_stubborn i p w Hi Hr Hs)).
      cbn [snd]. repeat split; auto.
Qed.

End DeployBehaviourFacts.

(** A request for [/work/p], which has no backend directory, while the
    deployer holds a backend server that ignores the terminate request:
    nothing is stopped, nothing is started, and the answer is the
    success status. *)
Lemma deploy_request_is_answered_with_success_witness :
  let project_dir := strip (msg_body deploy_msg) in
  let dir := string_of_list_ascii project_dir in
  exists ok w1 w',
    DeployBehaviour._stop_current_services stubborn_world = (Val tt, w1)
    /\ DeployBehaviour._deploy_project pf_ok npm_ok dir w1 = (Val ok, w')
    /\ DeployBehaviour.run pf_ok npm_ok status_text (Some deploy_msg)
         stubborn_world
       = (Val [{| out_to := msg_sender deploy_msg;
                  out_performative := lit "inform_deployment_status";
                  out_body := status_text project_dir |}], w')
    /\ (path_exists (path_join dir "backend") stubborn_world
        = (Val false, stubborn_world) ->
        ok = false /\ w' = w1
        /\ length (w_procs w') = length (w_procs stubborn_world)).
Proof.
  apply (deploy_request_is_answered_with_success pf_ok npm_ok status_text
           deploy_msg stubborn_world).
  - reflexivity.
  - vm_compute. reflexivity.
Defined.

(** The held backend server ignores the terminate request. *)
Lemma agent_stop_gives_up_on_a_stubborn_process_witness :
  let w := stubborn_world in
  let p := running_process backend_cmd "/work/old/backend" 8000 true in
  let w' := snd (DeployBehaviour._stop_current_services w) in
  w_procs w' !! 0%nat = Some p
  /\ (backend_proc w = Some 0%nat -> w' = w)
  /\ (frontend_proc w = Some 0%nat -> frontend_proc w' = Some 0%nat)
  /\ exists q,
       w_procs (snd (_stop_current_services w)) !! 0%nat = Some q
       /\ is_running q = false.
Proof.
  apply (proj2 (agent_stop_gives_up_on_a_stubborn_process stubborn_world)
           0%nat (running_process backend_cmd "/work/old/backend" 8000 true));
    [left; reflexivity | reflexivity | reflexivity | reflexivity].
Defined.

(** ** The port sweep *)

Section PortSweepFacts.



End PortSweepFacts.
